(** * Dissertation registration backend: workflow and slot bookkeeping

    A shallow embedding of the Sequelize models ([User],
    [RegistrationSession], [CoordinationRequest], [Document]) and of the
    Express controllers that drive them, followed by the properties of the
    request lifecycle, the slot accounting and the document review
    sub-workflow.

    Conventions of the embedding:
    - every table is a finite map from primary key to row; a UUID is a [nat];
    - a [Date] is its epoch value, a [Z]; SQL [INTEGER] columns are [Z];
    - a controller is a function from the database and the request to a
      [response] and the database it leaves behind;
    - [new Date()] is the argument [now]; a UUID drawn by [UUIDV4] is the
      argument [newId]; an exception raised by the store inside a
      transaction is the argument [fault]. *)

From stdpp Require Import gmap strings list fin_maps sorting.
From Stdlib Require Import ZArith Lia.

Open Scope Z_scope.

(** ** Rows *)

Inductive role := student | professor.

Inductive session_status := upcoming | active | closed.

Inductive request_status :=
  pending | approved | rejected | document_pending | completed.

Inductive document_status := pending_review | accepted | document_rejected.

#[global] Instance role_eq_dec : EqDecision role.
Proof. solve_decision. Defined.
#[global] Instance session_status_eq_dec : EqDecision session_status.
Proof. solve_decision. Defined.
#[global] Instance request_status_eq_dec : EqDecision request_status.
Proof. solve_decision. Defined.
#[global] Instance document_status_eq_dec : EqDecision document_status.
Proof. solve_decision. Defined.

(** models/User.js: the columns the workflow reads or writes. *)
Record User := mkUser {
  name : string;
  userRole : role;
  approvedProfessorId : option nat;
  maxStudents : Z;
  currentStudentCount : Z
}.

(** models/RegistrationSession.js *)
Record RegistrationSession := mkSession {
  sessionProfessorId : nat;
  title : string;
  startDate : Z;
  endDate : Z;
  sessionStatus : session_status;
  maxSlots : Z;
  availableSlots : Z
}.

(** models/CoordinationRequest.js *)
Record CoordinationRequest := mkRequest {
  studentId : nat;
  professorId : nat;
  sessionId : nat;
  dissertationTopic : string;
  status : request_status;
  rejectionReason : option string
}.

(** models/Document.js *)
Record Document := mkDocument {
  requestId : nat;
  uploadedBy : nat;
  uploaderRole : role;
  fileName : string;
  documentStatus : document_status;
  documentRejectionReason : option string
}.

(** The four tables. *)
Record db := mkDb {
  users : gmap nat User;
  sessions : gmap nat RegistrationSession;
  requests : gmap nat CoordinationRequest;
  documents : gmap nat Document
}.

Definition empty_db : db := mkDb ∅ ∅ ∅ ∅.

Definition with_users (f : gmap nat User → gmap nat User) (d : db) : db :=
  mkDb (f (users d)) (sessions d) (requests d) (documents d).
Definition with_sessions
    (f : gmap nat RegistrationSession → gmap nat RegistrationSession)
    (d : db) : db :=
  mkDb (users d) (f (sessions d)) (requests d) (documents d).
Definition with_requests
    (f : gmap nat CoordinationRequest → gmap nat CoordinationRequest)
    (d : db) : db :=
  mkDb (users d) (sessions d) (f (requests d)) (documents d).
Definition with_documents (f : gmap nat Document → gmap nat Document)
    (d : db) : db :=
  mkDb (users d) (sessions d) (requests d) (f (documents d)).

(** Column writes. *)
Definition set_approvedProfessorId (p : option nat) (u : User) : User :=
  mkUser (name u) (userRole u) p (maxStudents u) (currentStudentCount u).
Definition incr_currentStudentCount (u : User) : User :=
  mkUser (name u) (userRole u) (approvedProfessorId u) (maxStudents u)
         (currentStudentCount u + 1).
Definition decr_availableSlots (s : RegistrationSession) : RegistrationSession :=
  mkSession (sessionProfessorId s) (title s) (startDate s) (endDate s)
            (sessionStatus s) (maxSlots s) (availableSlots s - 1).
Definition set_sessionStatus (st : session_status) (s : RegistrationSession)
    : RegistrationSession :=
  mkSession (sessionProfessorId s) (title s) (startDate s) (endDate s)
            st (maxSlots s) (availableSlots s).
Definition set_status (st : request_status) (r : CoordinationRequest)
    : CoordinationRequest :=
  mkRequest (studentId r) (professorId r) (sessionId r) (dissertationTopic r)
            st (rejectionReason r).
Definition set_rejected (reason : string) (r : CoordinationRequest)
    : CoordinationRequest :=
  mkRequest (studentId r) (professorId r) (sessionId r) (dissertationTopic r)
            rejected (Some reason).
Definition set_accepted (d : Document) : Document :=
  mkDocument (requestId d) (uploadedBy d) (uploaderRole d) (fileName d)
             accepted (documentRejectionReason d).
Definition set_document_rejected (reason : string) (d : Document) : Document :=
  mkDocument (requestId d) (uploadedBy d) (uploaderRole d) (fileName d)
             document_rejected (Some reason).

(** ** Failures

    Every distinct way a controller or a model method fails.  [http_status]
    gives the status the controller answers with; an [Error] thrown by a
    model method or by the store reaches the error middleware through
    [next(error)]. *)

Inductive error :=
  (* middleware and validators *)
  | ValidationFailed
  | NotAuthenticated
  | WrongRole
  (* session controller *)
  | SessionOverlap
  | SessionNotFound
  | NotSessionOwner
  | UpdatedSessionOverlap
  | SessionHasApprovedRequests
  (* request controller *)
  | AlreadyApprovedByProfessor
  | SessionNotActive
  | NoAvailableSlots
  | DuplicateRequest
  | RequestNotFound
  | NotRequestProfessor
  | NotRequestStudent
  | RequestNotPending
  | RejectionReasonRequired
  (* CoordinationRequest.canBeApproved reasons, thrown by approve *)
  | StudentNotFound
  | StudentAlreadyApproved (by_name : string)
  | ProfessorNotFound
  | ProfessorAtCapacity
  (* document controller *)
  | NoFileUploaded
  | NotPartyOfRequest
  | StudentUploadNeedsApproved
  | ProfessorUploadNeedsDocumentPending
  | DocumentNotFound
  | NotAssignedProfessor
  | DocumentNotPending
  (* model validators and the store *)
  | EndDateNotAfterStart
  | MaxSlotsBelowMin
  | MaxStudentsOutOfRange
  | PrimaryKeyTaken
  | ForeignKeyViolation
  | NullDereference
  | StoreFault.

Definition http_status (e : error) : nat :=
  match e with
  | NotAuthenticated => 401
  | WrongRole | NotSessionOwner | NotRequestProfessor | NotRequestStudent
  | NotPartyOfRequest | NotAssignedProfessor => 403
  | SessionNotFound | RequestNotFound | DocumentNotFound => 404
  | StudentNotFound | StudentAlreadyApproved _ | ProfessorNotFound
  | ProfessorAtCapacity | EndDateNotAfterStart | MaxSlotsBelowMin
  | MaxStudentsOutOfRange | PrimaryKeyTaken | ForeignKeyViolation
  | NullDereference | StoreFault => 500
  | _ => 400
  end%nat.

Inductive response :=
  | OK
  | Failed (e : error).

#[global] Instance error_eq_dec : EqDecision error.
Proof. solve_decision. Defined.
#[global] Instance response_eq_dec : EqDecision response.
Proof. solve_decision. Defined.

(** ** Transactions

    [sequelize.transaction()] ... [commit()] / [rollback()]: the writes of
    the [try] block run in order on a working copy; the write numbered
    [fault], if there is one, throws, the [catch] block rolls back and the
    store keeps the state it had before the transaction. *)

Fixpoint run_writes (fault : option nat) (ws : list (db → db)) (work : db)
    : option db :=
  match ws with
  | [] => Some work
  | w :: ws' =>
      match fault with
      | Some O => None
      | Some (S k) => run_writes (Some k) ws' (w work)
      | None => run_writes None ws' (w work)
      end
  end.

Definition transaction (fault : option nat) (ws : list (db → db)) (d : db)
    : response * db :=
  match run_writes fault ws d with
  | Some d' => (OK, d')
  | None => (Failed StoreFault, d)
  end.

(** ** CoordinationRequest model methods *)

Definition another_professor : string := "another professor".

(** [canBeApproved]: [None] is [{ canApprove: true }], [Some e] carries the
    reason. *)
Definition canBeApproved (d : db) (this : CoordinationRequest) : option error :=
  match users d !! studentId this with
  | None => Some StudentNotFound
  | Some st =>
      match approvedProfessorId st with
      | Some pid =>
          Some (StudentAlreadyApproved
                  (match users d !! pid with
                   | Some p => if decide (name p = EmptyString) then another_professor
                               else name p
                   | None => another_professor
                   end))
      | None =>
          match users d !! professorId this with
          | None => Some ProfessorNotFound
          | Some p =>
              if decide (currentStudentCount p >= maxStudents p)
              then Some ProfessorAtCapacity
              else None
          end
      end
  end.

Definition approved_by_another : string :=
  "Student was approved by another professor".

(** The bulk update closing [approve]: every other pending request of the
    same student. *)
Definition reject_siblings (id : nat) (this : CoordinationRequest)
    (rs : gmap nat CoordinationRequest) : gmap nat CoordinationRequest :=
  map_imap (λ i r,
    Some (if decide (studentId r = studentId this ∧ i ≠ id ∧ status r = pending)
          then set_rejected approved_by_another r
          else r)) rs.

(** The five writes of [approve], in source order. *)
Definition approve_writes (id : nat) (this : CoordinationRequest)
    : list (db → db) :=
  [ with_requests (alter (set_status approved) id);
    with_users (alter (set_approvedProfessorId (Some (professorId this)))
                      (studentId this));
    with_users (alter incr_currentStudentCount (professorId this));
    with_sessions (alter decr_availableSlots (sessionId this));
    with_requests (reject_siblings id this) ].

(** [CoordinationRequest.prototype.approve]; [id] is the primary key of
    the instance [this]. *)
Definition approve (fault : option nat) (d : db) (id : nat)
    (this : CoordinationRequest) : response * db :=
  match canBeApproved d this with
  | Some reason => (Failed reason, d)
  | None => transaction fault (approve_writes id this) d
  end.

(** [CoordinationRequest.prototype.reject] *)
Definition reject (d : db) (id : nat) (reason : string) : db :=
  with_requests (alter (set_rejected reason) id) d.

(** ** RegistrationSession model methods *)

(** SQL [BETWEEN lo AND hi], inclusive at both ends. *)
Definition between (x lo hi : Z) : Prop := lo ≤ x ∧ x ≤ hi.

(** The [where] clause of [hasOverlap], for the row [s] stored under [i];
    [thisId] is [this.id || null]. *)
Definition overlap_where (thisId : option nat) (this : RegistrationSession)
    (i : nat) (s : RegistrationSession) : Prop :=
  sessionProfessorId s = sessionProfessorId this
  ∧ Some i ≠ thisId
  ∧ (between (startDate s) (startDate this) (endDate this)
     ∨ between (endDate s) (startDate this) (endDate this)
     ∨ (startDate s ≤ startDate this ∧ endDate s >= endDate this)).

#[global] Instance overlap_where_dec thisId this i s :
  Decision (overlap_where thisId this i s).
Proof. unfold overlap_where, between. apply _. Defined.

(** [RegistrationSession.prototype.hasOverlap] *)
Definition hasOverlap (d : db) (thisId : option nat)
    (this : RegistrationSession) : bool :=
  bool_decide (map_Exists (overlap_where thisId this) (sessions d)).

(** The status [updateStatus] computes from the clock. *)
Definition newStatus (now : Z) (this : RegistrationSession) : session_status :=
  if decide (now < startDate this) then upcoming
  else if decide (now >= startDate this ∧ now ≤ endDate this) then active
  else closed.

(** [RegistrationSession.prototype.updateStatus]: the instance after the
    call and the store after the conditional [save]. *)
Definition updateStatus (now : Z) (d : db) (id : nat)
    (this : RegistrationSession) : RegistrationSession * db :=
  if decide (sessionStatus this ≠ newStatus now this)
  then (set_sessionStatus (newStatus now this) this,
        with_sessions (alter (set_sessionStatus (newStatus now this)) id) d)
  else (this, d).

(** [RegistrationSession.updateAllStatuses]: two bulk updates. *)
Definition upcoming_to_active (now : Z) (s : RegistrationSession)
    : RegistrationSession :=
  if decide (sessionStatus s = upcoming ∧ startDate s ≤ now ∧ endDate s >= now)
  then set_sessionStatus active s else s.

Definition active_to_closed (now : Z) (s : RegistrationSession)
    : RegistrationSession :=
  if decide ((sessionStatus s = upcoming ∨ sessionStatus s = active)
             ∧ endDate s < now)
  then set_sessionStatus closed s else s.

Definition updateAllStatuses (now : Z) (d : db) : db :=
  with_sessions (fmap (active_to_closed now))
    (with_sessions (fmap (upcoming_to_active now)) d).

(** ** Document model methods *)

(** [Document.prototype.accept] *)
Definition accept (fault : option nat) (d : db) (id : nat) (this : Document)
    : response * db :=
  transaction fault
    [ with_documents (alter set_accepted id);
      with_requests (alter (set_status completed) (requestId this)) ] d.

(** [Document.prototype.reject] *)
Definition reject_document (fault : option nat) (d : db) (id : nat)
    (this : Document) (reason : string) : response * db :=
  transaction fault
    [ with_documents (alter (set_document_rejected reason) id);
      with_requests (alter (set_status approved) (requestId this)) ] d.

(** ** Middleware *)

(** What the store does with the rows that reference a destroyed row. *)
Inductive fk_action := CASCADE | NO_ACTION.

(** The characters [String.prototype.trim] strips, white space and line
    terminators of ECMAScript, as they stand in the UTF-8 bytes of a text:
    one byte for U+0009 to U+000D and U+0020, two for U+00A0, three for
    U+1680, U+2000 to U+200A, U+2028, U+2029, U+202F, U+205F, U+3000 and
    U+FEFF. *)
Definition white_space1 (b1 : nat) : bool :=
  ((9 <=? b1) && (b1 <=? 13) || (b1 =? 32))%nat.

Definition white_space2 (b1 b2 : nat) : bool :=
  ((b1 =? 194) && (b2 =? 160))%nat.

Definition white_space3 (b1 b2 b3 : nat) : bool :=
  ((b1 =? 225) && (b2 =? 154) && (b3 =? 128)
   || (b1 =? 226) && (b2 =? 128)
      && ((128 <=? b3) && (b3 <=? 138)
          || (b3 =? 168) || (b3 =? 169) || (b3 =? 175))
   || (b1 =? 226) && (b2 =? 129) && (b3 =? 159)
   || (b1 =? 227) && (b2 =? 128) && (b3 =? 128)
   || (b1 =? 239) && (b2 =? 187) && (b3 =? 191))%nat.

(** [reason.trim().length === 0]: the text is made of white space only. *)
Fixpoint is_blank (s : string) : bool :=
  match s with
  | EmptyString => true
  | String c1 s1 =>
      if white_space1 (Ascii.nat_of_ascii c1) then is_blank s1
      else
        match s1 with
        | EmptyString => false
        | String c2 s2 =>
            if white_space2 (Ascii.nat_of_ascii c1) (Ascii.nat_of_ascii c2)
            then is_blank s2
            else
              match s2 with
              | EmptyString => false
              | String c3 s3 =>
                  if white_space3 (Ascii.nat_of_ascii c1)
                       (Ascii.nat_of_ascii c2) (Ascii.nat_of_ascii c3)
                  then is_blank s3
                  else false
              end
        end
  end.

(** [a || b] on an optional number: [undefined] and [0] are falsy. *)
Definition or_default (a : option Z) (b : Z) : Z :=
  match a with
  | Some x => if decide (x = 0) then b else x
  | None => b
  end.


(** The request statuses that commit a student to a professor; the list
    [deleteSession] tests against. *)
Definition committed (st : request_status) : Prop :=
  st = approved ∨ st = document_pending ∨ st = completed.

#[global] Instance committed_dec st : Decision (committed st).
Proof. unfold committed. apply _. Defined.

(** ** Session controller *)

Record session_body := mkSessionBody {
  body_title : string;
  body_startDate : Z;
  body_endDate : Z;
  body_maxSlots : option Z
}.

(** routes/session.routes.js, [sessionValidation] *)
Definition sessionValidation (b : session_body) : bool :=
  bool_decide (body_title b ≠ EmptyString)
  && match body_maxSlots b with
     | Some m => bool_decide (1 ≤ m)
     | None => true
     end.

(** The validators of the RegistrationSession model, run by [create] and
    [save]. *)
Definition validate_session (s : RegistrationSession) : option error :=
  if decide (maxSlots s < 1) then Some MaxSlotsBelowMin
  else if decide (endDate s ≤ startDate s) then Some EndDateNotAfterStart
  else None.

(** [RegistrationSession.create] *)
Definition create_session (newId : nat) (s : RegistrationSession) (d : db)
    : response * db :=
  match validate_session s with
  | Some e => (Failed e, d)
  | None =>
      match sessions d !! newId with
      | Some _ => (Failed PrimaryKeyTaken, d)
      | None => (OK, with_sessions (insert newId s) d)
      end
  end.

Definition initial_status (now : Z) (s : RegistrationSession) : session_status :=
  if decide (startDate s ≤ now ∧ endDate s >= now) then active
  else if decide (startDate s > now) then upcoming
  else closed.

(** [createSession]; [tempId] is the key [build] gives the instance that
    is only used for the overlap query, [newId] the key of the stored row. *)
Definition createSession (uid tempId newId : nat) (now : Z) (b : session_body)
    (d : db) : response * db :=
  if negb (sessionValidation b) then (Failed ValidationFailed, d)
  else
    let sessionData :=
      mkSession uid (body_title b) (body_startDate b) (body_endDate b)
                upcoming (or_default (body_maxSlots b) 5)
                (or_default (body_maxSlots b) 5) in
    if hasOverlap d (Some tempId) sessionData then (Failed SessionOverlap, d)
    else
      create_session newId
        (set_sessionStatus (initial_status now sessionData) sessionData) d.

Record session_patch := mkSessionPatch {
  patch_title : option string;
  patch_startDate : option Z;
  patch_endDate : option Z;
  patch_maxSlots : option Z
}.

(** The field assignments of [updateSession]; a field of the body that is
    absent, empty or zero is falsy and leaves the column alone. *)
Definition apply_patch (p : session_patch) (s : RegistrationSession)
    : RegistrationSession :=
  let slots :=
    match patch_maxSlots p with
    | Some m =>
        if decide (m = 0) then (maxSlots s, availableSlots s)
        else
          let slotDifference := m - maxSlots s in
          (m, Z.max 0 (availableSlots s + slotDifference))
    | None => (maxSlots s, availableSlots s)
    end in
  mkSession (sessionProfessorId s)
    (match patch_title p with
     | Some t => if decide (t = EmptyString) then title s else t
     | None => title s
     end)
    (default (startDate s) (patch_startDate p))
    (default (endDate s) (patch_endDate p))
    (sessionStatus s) slots.1 slots.2.

(** [updateSession] *)
Definition updateSession (uid id : nat) (now : Z) (p : session_patch) (d : db)
    : response * db :=
  match sessions d !! id with
  | None => (Failed SessionNotFound, d)
  | Some session =>
      if decide (sessionProfessorId session ≠ uid)
      then (Failed NotSessionOwner, d)
      else
        let session' := apply_patch p session in
        if (bool_decide (is_Some (patch_startDate p))
            || bool_decide (is_Some (patch_endDate p)))
           && hasOverlap d (Some id) session'
        then (Failed UpdatedSessionOverlap, d)
        else
          match validate_session session' with
          | Some e => (Failed e, d)
          | None =>
              let d1 := with_sessions (insert id session') d in
              (OK, (updateStatus now d1 id session').2)
          end
  end.

(** [session.destroy()] and [request.destroy()], with what the store does
    to the referencing rows. *)
Definition request_outside (sid : nat) (ir : nat * CoordinationRequest) : Prop :=
  sessionId ir.2 ≠ sid.

Definition document_of_session (rs : gmap nat CoordinationRequest) (sid : nat)
    (idoc : nat * Document) : Prop :=
  match rs !! requestId idoc.2 with
  | Some r => sessionId r = sid
  | None => False
  end.

#[global] Instance request_outside_dec sid ir : Decision (request_outside sid ir).
Proof. unfold request_outside. apply _. Defined.
#[global] Instance document_of_session_dec rs sid idoc :
  Decision (document_of_session rs sid idoc).
Proof. unfold document_of_session. destruct (rs !! _); apply _. Defined.

Definition destroy_session (onDelete : fk_action) (id : nat) (d : db)
    : response * db :=
  match onDelete with
  | CASCADE =>
      (OK, mkDb (users d) (delete id (sessions d))
                (filter (request_outside id) (requests d))
                (filter (λ idoc, ¬ document_of_session (requests d) id idoc)
                        (documents d)))
  | NO_ACTION =>
      if bool_decide (map_Exists (λ _ r, sessionId r = id) (requests d))
      then (Failed ForeignKeyViolation, d)
      else (OK, with_sessions (delete id) d)
  end.

Definition destroy_request (onDelete : fk_action) (id : nat) (d : db)
    : response * db :=
  match onDelete with
  | CASCADE =>
      (OK, mkDb (users d) (sessions d) (delete id (requests d))
                (filter (λ idoc, requestId idoc.2 ≠ id) (documents d)))
  | NO_ACTION =>
      if bool_decide (map_Exists (λ _ doc, requestId doc = id) (documents d))
      then (Failed ForeignKeyViolation, d)
      else (OK, with_requests (delete id) d)
  end.

(** [deleteSession] *)
Definition deleteSession (onDelete : fk_action) (uid id : nat) (d : db)
    : response * db :=
  match sessions d !! id with
  | None => (Failed SessionNotFound, d)
  | Some session =>
      if decide (sessionProfessorId session ≠ uid)
      then (Failed NotSessionOwner, d)
      else if bool_decide (map_Exists
                 (λ _ r, sessionId r = id ∧ committed (status r)) (requests d))
      then (Failed SessionHasApprovedRequests, d)
      else destroy_session onDelete id d
  end.

(** [getSessionById] *)
Definition getSessionById (id : nat) (now : Z) (d : db) : response * db :=
  match sessions d !! id with
  | None => (Failed SessionNotFound, d)
  | Some session => (OK, (updateStatus now d id session).2)
  end.

(** [getAllSessions], [getActiveSessions], [getMySessions]: what they write. *)
Definition listSessions (now : Z) (d : db) : response * db :=
  (OK, updateAllStatuses now d).

(** ** Request controller *)

Record request_body := mkRequestBody {
  body_sessionId : nat;
  body_dissertationTopic : string
}.

(** routes/request.routes.js, [createRequestValidation] *)
Definition createRequestValidation (b : request_body) : bool :=
  bool_decide (10 ≤ String.length (body_dissertationTopic b) ≤ 500)%nat.

(** [createRequest]; [user] is [req.user], the row of [uid]. *)
Definition createRequest (uid : nat) (user : User) (newId : nat) (now : Z)
    (b : request_body) (d : db) : response * db :=
  if negb (createRequestValidation b) then (Failed ValidationFailed, d)
  else if bool_decide (is_Some (approvedProfessorId user))
  then (Failed AlreadyApprovedByProfessor, d)
  else
    match sessions d !! body_sessionId b with
    | None => (Failed SessionNotFound, d)
    | Some session0 =>
        let '(session, d1) := updateStatus now d (body_sessionId b) session0 in
        if decide (sessionStatus session ≠ active)
        then (Failed SessionNotActive, d1)
        else if decide (availableSlots session ≤ 0)
        then (Failed NoAvailableSlots, d1)
        else if bool_decide (map_Exists
                   (λ _ r, studentId r = uid ∧ sessionId r = body_sessionId b)
                   (requests d1))
        then (Failed DuplicateRequest, d1)
        else
          match requests d1 !! newId with
          | Some _ => (Failed PrimaryKeyTaken, d1)
          | None =>
              (OK, with_requests
                     (insert newId
                        (mkRequest uid (sessionProfessorId session)
                                   (body_sessionId b)
                                   (body_dissertationTopic b) pending None))
                     d1)
          end
    end.

(** [approveRequest] *)
Definition approveRequest (fault : option nat) (uid id : nat) (d : db)
    : response * db :=
  match requests d !! id with
  | None => (Failed RequestNotFound, d)
  | Some request =>
      if decide (professorId request ≠ uid)
      then (Failed NotRequestProfessor, d)
      else if decide (status request ≠ pending)
      then (Failed RequestNotPending, d)
      else approve fault d id request
  end.

(** [rejectRequest] *)
Definition rejectRequest (uid id : nat) (reason : string) (d : db)
    : response * db :=
  if is_blank reason then (Failed RejectionReasonRequired, d)
  else
    match requests d !! id with
    | None => (Failed RequestNotFound, d)
    | Some request =>
        if decide (professorId request ≠ uid)
        then (Failed NotRequestProfessor, d)
        else if decide (status request ≠ pending)
        then (Failed RequestNotPending, d)
        else (OK, reject d id reason)
    end.

(** [cancelRequest] *)
Definition cancelRequest (onDelete : fk_action) (uid id : nat) (d : db)
    : response * db :=
  match requests d !! id with
  | None => (Failed RequestNotFound, d)
  | Some request =>
      if decide (studentId request ≠ uid)
      then (Failed NotRequestStudent, d)
      else if decide (status request ≠ pending)
      then (Failed RequestNotPending, d)
      else destroy_request onDelete id d
  end.

(** ** Document controller *)

(** [uploadDocument]; [file] is [req.file], reduced to its stored name. *)
Definition uploadDocument (uid : nat) (user : User) (file : option string)
    (rid newId : nat) (d : db) : response * db :=
  match file with
  | None => (Failed NoFileUploaded, d)
  | Some fname =>
      match requests d !! rid with
      | None => (Failed RequestNotFound, d)
      | Some request =>
          let isStudent := bool_decide (studentId request = uid) in
          let isProfessor := bool_decide (professorId request = uid) in
          if negb isStudent && negb isProfessor
          then (Failed NotPartyOfRequest, d)
          else if isStudent && bool_decide (status request ≠ approved)
          then (Failed StudentUploadNeedsApproved, d)
          else if isProfessor && bool_decide (status request ≠ document_pending)
          then (Failed ProfessorUploadNeedsDocumentPending, d)
          else
            match documents d !! newId with
            | Some _ => (Failed PrimaryKeyTaken, d)
            | None =>
                let d1 :=
                  with_documents
                    (insert newId
                       (mkDocument rid uid (userRole user) fname
                                   pending_review None)) d in
                (OK, if isStudent
                     then with_requests
                            (alter (set_status document_pending) rid) d1
                     else d1)
            end
      end
  end.

(** [acceptDocument] *)
Definition acceptDocument (fault : option nat) (uid id : nat) (d : db)
    : response * db :=
  match documents d !! id with
  | None => (Failed DocumentNotFound, d)
  | Some document =>
      match requests d !! requestId document with
      | None => (Failed NullDereference, d)
      | Some request =>
          if decide (professorId request ≠ uid)
          then (Failed NotAssignedProfessor, d)
          else if decide (documentStatus document ≠ pending_review)
          then (Failed DocumentNotPending, d)
          else accept fault d id document
      end
  end.

(** [rejectDocument] *)
Definition rejectDocument (fault : option nat) (uid id : nat) (reason : string)
    (d : db) : response * db :=
  if is_blank reason then (Failed RejectionReasonRequired, d)
  else
    match documents d !! id with
    | None => (Failed DocumentNotFound, d)
    | Some document =>
        match requests d !! requestId document with
        | None => (Failed NullDereference, d)
        | Some request =>
            if decide (professorId request ≠ uid)
            then (Failed NotAssignedProfessor, d)
            else if decide (documentStatus document ≠ pending_review)
            then (Failed DocumentNotPending, d)
            else reject_document fault d id document reason
        end
    end.

(** ** Auth controller: the two operations that write actor rows *)

Record register_body := mkRegisterBody {
  body_name : string;
  body_role : role;
  body_maxStudents : option Z
}.

Definition DEFAULT_MAX_STUDENTS : Z := 5.

(** The validators of the User model. *)
Definition validate_user (u : User) : option error :=
  if decide (1 ≤ maxStudents u ≤ 50) then None else Some MaxStudentsOutOfRange.

(** [register]; the checks on the columns that are not modelled (email,
    password, department, student number) are left out. *)
Definition register (newId : nat) (b : register_body) (d : db)
    : response * db :=
  if decide (body_name b = EmptyString) then (Failed ValidationFailed, d)
  else
    let user :=
      match body_role b with
      | student => mkUser (body_name b) student None 5 0
      | professor =>
          mkUser (body_name b) professor None
                 (or_default (body_maxStudents b) DEFAULT_MAX_STUDENTS) 0
      end in
    match validate_user user with
    | Some e => (Failed e, d)
    | None =>
        match users d !! newId with
        | Some _ => (Failed PrimaryKeyTaken, d)
        | None => (OK, with_users (insert newId user) d)
        end
    end.

(** [updateProfile]: the only write of [maxStudents] after registration. *)
Definition updateProfile (uid : nat) (user : User) (newName : option string)
    (newMax : option Z) (d : db) : response * db :=
  let user' :=
    mkUser (match newName with
            | Some n => if decide (n = EmptyString) then name user else n
            | None => name user
            end)
           (userRole user) (approvedProfessorId user)
           (match userRole user, newMax with
            | professor, Some m =>
                if decide (m = 0) then maxStudents user else m
            | _, _ => maxStudents user
            end)
           (currentStudentCount user) in
  match validate_user user' with
  | Some e => (Failed e, d)
  | None => (OK, with_users (insert uid user') d)
  end.

(** ** Routes: the operations of the backend and one step of the store *)

Inductive op :=
  | Register (newId : nat) (b : register_body)
  | CreateSession (actor tempId newId : nat) (now : Z) (b : session_body)
  | UpdateSession (actor id : nat) (now : Z) (p : session_patch)
  | DeleteSession (actor id : nat)
  | GetSessionById (id : nat) (now : Z)
  | ListSessions (now : Z)
  | CreateRequest (actor newId : nat) (now : Z) (b : request_body)
  | ApproveRequest (actor id : nat) (fault : option nat)
  | RejectRequest (actor id : nat) (reason : string)
  | CancelRequest (actor id : nat)
  | UploadDocument (actor : nat) (file : option string) (rid newId : nat)
  | AcceptDocument (actor id : nat) (fault : option nat)
  | RejectDocument (actor id : nat) (reason : string) (fault : option nat).

(** Modelled from the spec: middleware/auth.middleware.js is not among the
    sources.  The routes name its guards: [authenticate] resolves the
    caller to a stored actor ([req.user]), [isStudent] and [isProfessor]
    admit one role.  [authenticated] runs a handler with [req.user]. *)
Definition authenticated (d : db) (actor : nat) (only : option role)
    (handler : User → response * db) : response * db :=
  match users d !! actor with
  | None => (Failed NotAuthenticated, d)
  | Some user =>
      match only with
      | Some r =>
          if decide (userRole user = r) then handler user
          else (Failed WrongRole, d)
      | None => handler user
      end
  end.

Section Routes.

(** The referential action of the store for a destroyed row. *)
Variable onDelete : fk_action.

Definition step (d : db) (o : op) : response * db :=
  match o with
  | Register newId b => register newId b d
  | CreateSession actor tempId newId now b =>
      authenticated d actor (Some professor)
        (λ _, createSession actor tempId newId now b d)
  | UpdateSession actor id now p =>
      authenticated d actor (Some professor)
        (λ _, updateSession actor id now p d)
  | DeleteSession actor id =>
      authenticated d actor (Some professor)
        (λ _, deleteSession onDelete actor id d)
  | GetSessionById id now => getSessionById id now d
  | ListSessions now => listSessions now d
  | CreateRequest actor newId now b =>
      authenticated d actor (Some student)
        (λ user, createRequest actor user newId now b d)
  | ApproveRequest actor id fault =>
      authenticated d actor (Some professor)
        (λ _, approveRequest fault actor id d)
  | RejectRequest actor id reason =>
      authenticated d actor (Some professor)
        (λ _, rejectRequest actor id reason d)
  | CancelRequest actor id =>
      authenticated d actor (Some student)
        (λ _, cancelRequest onDelete actor id d)
  | UploadDocument actor file rid newId =>
      authenticated d actor None
        (λ user, uploadDocument actor user file rid newId d)
  | AcceptDocument actor id fault =>
      authenticated d actor (Some professor)
        (λ _, acceptDocument fault actor id d)
  | RejectDocument actor id reason fault =>
      authenticated d actor (Some professor)
        (λ _, rejectDocument fault actor id reason d)
  end.

(** The store after a sequence of operations. *)
Definition run (d : db) (ops : list op) : db :=
  foldl (λ d o, (step d o).2) d ops.

(** The responses of a sequence of operations, in order. *)
Fixpoint responses (d : db) (ops : list op) : list response :=
  match ops with
  | [] => []
  | o :: ops' => (step d o).1 :: responses (step d o).2 ops'
  end.

End Routes.

(** * Vocabulary of the properties *)

(** ** The store after an approval *)

(** The store an approval commits. *)
Definition approved_db (id : nat) (this : CoordinationRequest) (d : db) : db :=
  mkDb (alter incr_currentStudentCount (professorId this)
          (alter (set_approvedProfessorId (Some (professorId this)))
                 (studentId this) (users d)))
       (alter decr_availableSlots (sessionId this) (sessions d))
       (reject_siblings id this (alter (set_status approved) id (requests d)))
       (documents d).

(** The request [r'] is [r] but for its status and its rejection reason. *)
Definition same_request_parties (r r' : CoordinationRequest) : Prop :=
  studentId r' = studentId r
  ∧ professorId r' = professorId r
  ∧ sessionId r' = sessionId r
  ∧ dissertationTopic r' = dissertationTopic r.

(** What a committed approval of the request [this], stored under [id],
    has done to the store [d], leaving [d']. *)
Record approval_applied (d : db) (id : nat) (this : CoordinationRequest)
    (d' : db) : Prop := {
  (* the request is approved *)
  applied_request :
    ∃ r', requests d' !! id = Some r'
          ∧ status r' = approved
          ∧ rejectionReason r' = rejectionReason this
          ∧ same_request_parties this r';
  (* the student points to the professor of the request *)
  applied_student :
    ∃ st', users d' !! studentId this = Some st'
           ∧ approvedProfessorId st' = Some (professorId this);
  (* the professor's counter went up by one, the capacity stayed *)
  applied_professor :
    ∃ p p', users d !! professorId this = Some p
            ∧ users d' !! professorId this = Some p'
            ∧ currentStudentCount p' = currentStudentCount p + 1
            ∧ maxStudents p' = maxStudents p;
  (* the session lost one slot, and nothing else *)
  applied_session :
    ∀ s, sessions d !! sessionId this = Some s →
         ∃ s', sessions d' !! sessionId this = Some s'
               ∧ availableSlots s' = availableSlots s - 1
               ∧ maxSlots s' = maxSlots s
               ∧ sessionStatus s' = sessionStatus s
               ∧ sessionProfessorId s' = sessionProfessorId s
               ∧ title s' = title s
               ∧ startDate s' = startDate s
               ∧ endDate s' = endDate s;
  (* the student's other pending requests are rejected, with the reason *)
  applied_siblings :
    ∀ j r, j ≠ id → requests d !! j = Some r →
           studentId r = studentId this → status r = pending →
           ∃ r', requests d' !! j = Some r'
                 ∧ status r' = rejected
                 ∧ rejectionReason r'
                   = Some "Student was approved by another professor"
                 ∧ same_request_parties r r';
  (* no other request, session or document is touched *)
  applied_frame_requests :
    ∀ j, j ≠ id →
         (∀ r, requests d !! j = Some r →
               ¬ (studentId r = studentId this ∧ status r = pending)) →
         requests d' !! j = requests d !! j;
  applied_frame_sessions :
    ∀ j, j ≠ sessionId this → sessions d' !! j = sessions d !! j;
  applied_frame_users :
    ∀ j, j ≠ studentId this → j ≠ professorId this →
         users d' !! j = users d !! j;
  applied_frame_documents : documents d' = documents d
}.

(** ** The status mapping of the specification *)

(** The mapping as the specification words it: [now < windowStart] gives
    upcoming, [windowStart ≤ now ≤ windowEnd] gives active, anything else
    closed. *)
Definition recomputeStatus (windowStart windowEnd now : Z) : session_status :=
  if decide (now < windowStart) then upcoming
  else if decide (windowStart ≤ now ∧ now ≤ windowEnd) then active
  else closed.

(** ** Intersecting windows *)

(** Two closed intervals [[a, b]] and [[s, e]] share an instant. *)
Definition windows_intersect (a b s e : Z) : Prop := a ≤ e ∧ s ≤ b.

(** A stored session of professor [uid] whose window shares an instant
    with [[s, e]]. *)
Definition owned_intersecting (d : db) (uid : nat) (s e : Z) : Prop :=
  ∃ i x, sessions d !! i = Some x
         ∧ sessionProfessorId x = uid
         ∧ windows_intersect (startDate x) (endDate x) s e.

(** ** The stores after a review *)

(** The stores the two review transactions commit. *)
Definition accepted_db (id : nat) (this : Document) (d : db) : db :=
  mkDb (users d) (sessions d)
       (alter (set_status completed) (requestId this) (requests d))
       (alter set_accepted id (documents d)).

Definition document_rejected_db (id : nat) (this : Document) (reason : string)
    (d : db) : db :=
  mkDb (users d) (sessions d)
       (alter (set_status approved) (requestId this) (requests d))
       (alter (set_document_rejected reason) id (documents d)).

(** ** Scenarios *)

Definition topic : string := "Formal verification of workflows".

(** One professor, two students, one session with a single slot; both
    students submit and the professor approves both requests. *)
Definition overbooking_trace : list op :=
  [ Register 1 (mkRegisterBody "Pop" professor None);
    Register 2 (mkRegisterBody "Ana" student None);
    Register 3 (mkRegisterBody "Dan" student None);
    CreateSession 1 100 10 5 (mkSessionBody "Spring" 0 10 (Some 1));
    CreateRequest 2 20 5 (mkRequestBody 10 topic);
    CreateRequest 3 21 5 (mkRequestBody 10 topic);
    ApproveRequest 1 20 None;
    ApproveRequest 1 21 None ].

(** A request is approved, the student uploads a document, the professor
    uploads a document of their own while the first is under review, then
    rejects the student's document. *)
Definition counter_document_trace : list op :=
  [ Register 1 (mkRegisterBody "Pop" professor None);
    Register 2 (mkRegisterBody "Ana" student None);
    CreateSession 1 100 10 5 (mkSessionBody "Spring" 0 10 None);
    CreateRequest 2 20 5 (mkRequestBody 10 topic);
    ApproveRequest 1 20 None;
    UploadDocument 2 (Some "thesis.pdf") 20 30;
    UploadDocument 1 (Some "reply.pdf") 20 31;
    RejectDocument 1 30 "signature missing" None ].

(** One professor with a single place, two students, a pending request
    of each. *)
Definition single_place_trace : list op :=
  [ Register 1 (mkRegisterBody "Pop" professor (Some 1));
    Register 2 (mkRegisterBody "Ana" student None);
    Register 3 (mkRegisterBody "Dan" student None);
    CreateSession 1 100 10 5 (mkSessionBody "Spring" 0 10 (Some 2));
    CreateRequest 2 20 5 (mkRequestBody 10 topic);
    CreateRequest 3 21 5 (mkRequestBody 10 topic) ].

(** The stores along the scenarios. *)
Definition submitted_db : db :=
  run CASCADE empty_db (take 6 overbooking_trace).
Definition full_session_db : db :=
  run CASCADE empty_db (take 7 overbooking_trace).
Definition single_place_db : db := run CASCADE empty_db single_place_trace.
Definition under_review_db : db :=
  run CASCADE empty_db (take 7 counter_document_trace).
Definition counter_document_db : db :=
  run CASCADE empty_db counter_document_trace.

Definition ana_request : CoordinationRequest :=
  mkRequest 2 1 10 topic pending None.
Definition dan_request : CoordinationRequest :=
  mkRequest 3 1 10 topic pending None.

(** ** Frames *)

(** Only the [sessions] table differs. *)
Definition sessions_only (d d' : db) : Prop :=
  users d' = users d ∧ requests d' = requests d ∧ documents d' = documents d.

(** ** Invariants *)

(** [0 ≤ currentStudentCount ≤ maxStudents] on every actor row. *)
Definition capacity_inv (d : db) : Prop :=
  ∀ i u, users d !! i = Some u →
         0 ≤ currentStudentCount u ≤ maxStudents u.

(** At most one request of a student is approved, waiting on a document
    or completed. *)
Definition one_commitment (d : db) : Prop :=
  ∀ i j r1 r2,
    requests d !! i = Some r1 → requests d !! j = Some r2 →
    studentId r1 = studentId r2 →
    committed (status r1) → committed (status r2) → i = j.

(** The student of a committing request has an approved professor. *)
Definition commitment_recorded (d : db) : Prop :=
  ∀ i r, requests d !! i = Some r → committed (status r) →
         ∃ u, users d !! studentId r = Some u
              ∧ is_Some (approvedProfessorId u).

(** Every document belongs to a committing request. *)
Definition documents_on_committed (d : db) : Prop :=
  ∀ k doc, documents d !! k = Some doc →
           ∃ r, requests d !! requestId doc = Some r ∧ committed (status r).

Definition workflow_inv (d : db) : Prop :=
  commitment_recorded d ∧ documents_on_committed d ∧ one_commitment d.

(** The requests of [d'] are those of [d], with the same students and the
    same commitments. *)
Definition same_commitments (d d' : db) : Prop :=
  ∀ j, match requests d !! j, requests d' !! j with
       | Some r, Some r' =>
           studentId r' = studentId r
           ∧ (committed (status r') ↔ committed (status r))
       | None, None => True
       | _, _ => False
       end.

(** No request of [d'] commits unless it already did in [d]. *)
Definition no_new_commitment (d d' : db) : Prop :=
  ∀ j r', requests d' !! j = Some r' → committed (status r') →
          ∃ r, requests d !! j = Some r ∧ committed (status r).

Definition slots_inv (d : db) : Prop :=
  ∀ i s, sessions d !! i = Some s → 0 ≤ availableSlots s ≤ maxSlots s.

(** ** Read handlers *)

(** [order: [['endDate', 'ASC']]] *)
Definition by_endDate (a b : nat * RegistrationSession) : Prop :=
  endDate a.2 ≤ endDate b.2.

#[global] Instance by_endDate_dec a b : Decision (by_endDate a b).
Proof. unfold by_endDate. apply _. Defined.

(** The [where] clause of [getActiveSessions]. *)
Definition open_for_requests (row : nat * RegistrationSession) : Prop :=
  sessionStatus row.2 = active ∧ availableSlots row.2 > 0.

#[global] Instance open_for_requests_dec row : Decision (open_for_requests row).
Proof. unfold open_for_requests. apply _. Defined.

(** [getActiveSessions]: the rows of the answer, in order, and the store
    the status refresh leaves. *)
Definition getActiveSessions (now : Z) (d : db)
    : list (nat * RegistrationSession) * db :=
  let d' := updateAllStatuses now d in
  (merge_sort by_endDate
     (map_to_list (filter open_for_requests (sessions d'))), d').

(** The [where] clause of [getRequestStats]: a student counts the requests
    made, anyone else the requests received. *)
Definition own_request (uid : nat) (user : User) (r : CoordinationRequest)
    : Prop :=
  match userRole user with
  | student => studentId r = uid
  | professor => professorId r = uid
  end.

#[global] Instance own_request_dec uid user r : Decision (own_request uid user r).
Proof. unfold own_request. destruct (userRole user); apply _. Defined.

(** [CoordinationRequest.count({ where: { ...where, status } })] *)
Definition count_status (uid : nat) (user : User) (st : request_status)
    (d : db) : nat :=
  size (filter (λ ir : nat * CoordinationRequest,
                  own_request uid user ir.2 ∧ status ir.2 = st)
               (requests d)).

Record stats := mkStats {
  stats_pending : nat;
  stats_approved : nat;
  stats_rejected : nat;
  stats_completed : nat;
  stats_total : nat
}.

(** [getRequestStats] *)
Definition getRequestStats (uid : nat) (user : User) (d : db) : stats :=
  let pending := count_status uid user pending d in
  let approved := count_status uid user approved d in
  let rejected := count_status uid user rejected d in
  let completed := count_status uid user completed d in
  mkStats pending approved rejected completed
          (pending + approved + rejected + completed)%nat.

(** ** Vocabulary of the further properties *)

(** No two sessions of one professor share an instant. *)
Definition windows_disjoint (d : db) : Prop :=
  ∀ i j x y,
    sessions d !! i = Some x → sessions d !! j = Some y → i ≠ j →
    sessionProfessorId x = sessionProfessorId y →
    ¬ windows_intersect (startDate x) (endDate x) (startDate y) (endDate y).

(** What the validators of the session model accept. *)
Definition sessions_valid (d : db) : Prop :=
  ∀ i s, sessions d !! i = Some s → startDate s < endDate s ∧ 1 ≤ maxSlots s.

(** At most one request per student and session. *)
Definition unique_submission (d : db) : Prop :=
  ∀ i j r1 r2,
    requests d !! i = Some r1 → requests d !! j = Some r2 →
    studentId r1 = studentId r2 → sessionId r1 = sessionId r2 → i = j.

(** The order in which a session goes through its statuses. *)
Definition status_rank (st : session_status) : Z :=
  match st with
  | upcoming => 0
  | active => 1
  | closed => 2
  end.

(** The session [s] with another status and another count of free slots,
    and nothing else changed. *)
Definition same_session_but_status_slots (s s' : RegistrationSession) : Prop :=
  sessionProfessorId s' = sessionProfessorId s
  ∧ title s' = title s
  ∧ startDate s' = startDate s
  ∧ endDate s' = endDate s
  ∧ maxSlots s' = maxSlots s.

(** * Properties *)

(** ** The approval transaction *)

Lemma transaction_cases fault ws d :
  transaction fault ws d = (Failed StoreFault, d)
  ∨ transaction fault ws d = (OK, foldl (λ w f, f w) d ws).
Proof.
  unfold transaction.
  assert (H : ∀ w, run_writes fault ws w = None
                   ∨ run_writes fault ws w = Some (foldl (λ w f, f w) w ws)).
  { revert fault. induction ws as [|f ws IH]; intros fault w; simpl.
    - by right.
    - destruct fault as [[|k]|]; [by left|apply IH|apply IH]. }
  destruct (H d) as [-> | ->]; auto.
Qed.

Lemma transaction_no_fault ws d :
  transaction None ws d = (OK, foldl (λ w f, f w) d ws).
Proof.
  unfold transaction.
  assert (H : ∀ w, run_writes None ws w = Some (foldl (λ w f, f w) w ws)).
  { induction ws as [|f ws IH]; intros w; simpl; [done|apply IH]. }
  by rewrite H.
Qed.

Lemma approve_cases fault d id this :
  (∃ e, approve fault d id this = (Failed e, d))
  ∨ (canBeApproved d this = None
     ∧ approve fault d id this = (OK, approved_db id this d)).
Proof.
  unfold approve. destruct (canBeApproved d this) as [e|] eqn:Hc.
  - left. by exists e.
  - destruct (transaction_cases fault (approve_writes id this) d) as [-> | ->].
    + left. by exists StoreFault.
    + right. done.
Qed.

Lemma canBeApproved_None d this :
  canBeApproved d this = None ↔
  ∃ st p, users d !! studentId this = Some st
          ∧ approvedProfessorId st = None
          ∧ users d !! professorId this = Some p
          ∧ currentStudentCount p < maxStudents p.
Proof.
  unfold canBeApproved. split.
  - destruct (users d !! studentId this) as [st|]; [|done].
    destruct (approvedProfessorId st) eqn:Ha; [done|].
    destruct (users d !! professorId this) as [p|]; [|done].
    case_decide; [done|]. intros _. exists st, p. repeat split; auto. lia.
  - intros (st & p & -> & -> & -> & Hlt). case_decide; [lia|done].
Qed.

Lemma lookup_reject_siblings id this rs j :
  reject_siblings id this rs !! j =
  (λ r, if decide (studentId r = studentId this ∧ j ≠ id ∧ status r = pending)
        then set_rejected approved_by_another r else r) <$> rs !! j.
Proof.
  unfold reject_siblings. rewrite map_lookup_imap.
  by destruct (rs !! j).
Qed.

Lemma approved_db_applied d id this :
  requests d !! id = Some this →
  canBeApproved d this = None →
  approval_applied d id this (approved_db id this d).
Proof.
  intros Hthis (st & p & Hst & Hnone & Hp & Hlt)%canBeApproved_None.
  split; simpl.
  - rewrite lookup_reject_siblings, lookup_alter_eq, Hthis. simpl.
    rewrite decide_False by (intros (_ & Hne & _); done).
    eexists. split; [done|]. by repeat split.
  - destruct (decide (professorId this = studentId this)) as [Heq|Hne].
    + rewrite Heq, lookup_alter_eq, lookup_alter_eq, Hst. simpl.
      eexists. split; done.
    + rewrite lookup_alter_ne by done. rewrite lookup_alter_eq, Hst. simpl.
      eexists. split; done.
  - exists p. destruct (decide (professorId this = studentId this)) as [Heq|Hne].
    + rewrite lookup_alter_eq. rewrite Heq, lookup_alter_eq.
      rewrite <- Heq, Hp. simpl. eexists. split; [done|]. split; [done|].
      by simpl.
    + rewrite lookup_alter_eq, lookup_alter_ne by done. rewrite Hp. simpl.
      eexists. split; [done|]. split; [done|]. by simpl.
  - intros s Hs. rewrite lookup_alter_eq, Hs. simpl.
    eexists. split; [done|]. by repeat split.
  - intros j r Hne Hr Hstud Hpend.
    rewrite lookup_reject_siblings, lookup_alter_ne, Hr by done. simpl.
    rewrite decide_True by done.
    eexists. split; [done|]. by repeat split.
  - intros j Hne Hnot.
    rewrite lookup_reject_siblings, lookup_alter_ne by done.
    destruct (requests d !! j) as [r|] eqn:Hr; [|done]. simpl.
    rewrite decide_False; [done|]. intros (? & _ & ?). by eapply Hnot.
  - intros j Hne. by rewrite lookup_alter_ne.
  - intros j Hn1 Hn2. by rewrite !lookup_alter_ne.
  - done.
Qed.

(** C1. However the transaction of [approve] ends, the store either is
    the one the call started from (the call failed) or carries every write
    of the approval: the request approved, the student's
    [approvedProfessorId] set to the request's professor, the professor's
    [currentStudentCount] one higher, the session's [availableSlots] one
    lower, and every other pending request of the student rejected with
    the generated reason.  A call whose guard passes and whose transaction
    meets no fault succeeds. *)
Theorem approve_all_or_nothing (fault : option nat) (d : db) (id : nat)
    (this : CoordinationRequest) :
  requests d !! id = Some this →
  status this = pending →
  ((∃ e, approve fault d id this = (Failed e, d))
   ∨ (∃ d', approve fault d id this = (OK, d')
            ∧ approval_applied d id this d'))
  ∧ (canBeApproved d this = None → (approve None d id this).1 = OK).
Proof.
  intros Hthis _. split.
  - destruct (approve_cases fault d id this) as [[e He]|[Hc Ha]].
    + left. by exists e.
    + right. exists (approved_db id this d). split; [done|].
      by apply approved_db_applied.
  - intros Hc. unfold approve. rewrite Hc.
    by rewrite transaction_no_fault.
Qed.


Lemma approve_all_or_nothing_witness :
  ((∃ e, approve None submitted_db 20 ana_request = (Failed e, submitted_db))
   ∨ (∃ d', approve None submitted_db 20 ana_request = (OK, d')
            ∧ approval_applied submitted_db 20 ana_request d'))
  ∧ (canBeApproved submitted_db ana_request = None →
     (approve None submitted_db 20 ana_request).1 = OK).
Proof.
  apply (approve_all_or_nothing None submitted_db 20 ana_request);
    reflexivity.
Defined.

(** ** The approval guard *)

Lemma approve_ok d id this :
  canBeApproved d this = None →
  approve None d id this = (OK, approved_db id this d).
Proof.
  intros Hc. unfold approve. rewrite Hc. apply transaction_no_fault.
Qed.

Lemma canBeApproved_already d this st :
  users d !! studentId this = Some st →
  is_Some (approvedProfessorId st) →
  ∃ n, canBeApproved d this = Some (StudentAlreadyApproved n).
Proof.
  intros Hst [pid Hpid]. unfold canBeApproved. rewrite Hst, Hpid. eauto.
Qed.

Lemma canBeApproved_capacity d this st p :
  users d !! studentId this = Some st →
  approvedProfessorId st = None →
  users d !! professorId this = Some p →
  currentStudentCount p >= maxStudents p →
  canBeApproved d this = Some ProfessorAtCapacity.
Proof.
  intros Hst Hnone Hp Hge. unfold canBeApproved.
  rewrite Hst, Hnone, Hp. by rewrite decide_True.
Qed.

(** C3. When the guard of [approve] fails the call throws the reason of
    the guard and writes nothing: a student who already has an approved
    professor gives [StudentAlreadyApproved], a professor whose
    [currentStudentCount] has reached [maxStudents] gives
    [ProfessorAtCapacity].  In particular a professor with capacity 1 and
    no student, holding pending requests of two different students,
    approves the first and is refused the second with
    [ProfessorAtCapacity]. *)
Theorem approve_guard_failure :
  (∀ (fault : option nat) (d : db) (id : nat) (this : CoordinationRequest)
     (st : User),
     requests d !! id = Some this →
     status this = pending →
     users d !! studentId this = Some st →
     (is_Some (approvedProfessorId st) →
      ∃ n, approve fault d id this = (Failed (StudentAlreadyApproved n), d))
     ∧ (approvedProfessorId st = None →
        ∀ p, users d !! professorId this = Some p →
             currentStudentCount p >= maxStudents p →
             approve fault d id this = (Failed ProfessorAtCapacity, d)))
  ∧ (∀ (fault : option nat) (d : db) (pid : nat) (p : User)
       (id1 id2 : nat) (r1 r2 : CoordinationRequest) (st1 st2 : User),
       users d !! pid = Some p →
       maxStudents p = 1 → currentStudentCount p = 0 →
       requests d !! id1 = Some r1 → requests d !! id2 = Some r2 →
       professorId r1 = pid → professorId r2 = pid →
       status r1 = pending → status r2 = pending →
       studentId r1 ≠ studentId r2 →
       users d !! studentId r1 = Some st1 →
       users d !! studentId r2 = Some st2 →
       approvedProfessorId st1 = None → approvedProfessorId st2 = None →
       ∃ d1, approveRequest None pid id1 d = (OK, d1)
             ∧ approveRequest fault pid id2 d1
               = (Failed ProfessorAtCapacity, d1)
             ∧ requests d1 !! id2 = Some r2).
Proof.
  split.
  - intros fault d id this st Hthis _ Hst. split.
    + intros Hsome. destruct (canBeApproved_already d this st Hst Hsome)
        as [n Hn].
      exists n. unfold approve. by rewrite Hn.
    + intros Hnone p Hp Hge. unfold approve.
      by rewrite (canBeApproved_capacity d this st p).
  - intros fault d pid p id1 id2 r1 r2 st1 st2 Hp Hmax Hcnt Hr1 Hr2
      Hp1 Hp2 Hs1 Hs2 Hne Hst1 Hst2 Hn1 Hn2.
    assert (Hid : id2 ≠ id1) by (intros ->; congruence).
    exists (approved_db id1 r1 d).
    assert (Hr2' : requests (approved_db id1 r1 d) !! id2 = Some r2).
    { simpl. rewrite lookup_reject_siblings, lookup_alter_ne, Hr2 by done.
      simpl. rewrite decide_False; [done|]. intros (? & _). congruence. }
    split; [|split; [|done]].
    + unfold approveRequest. rewrite Hr1.
      rewrite decide_False by (intros ?; congruence).
      rewrite decide_False by (intros ?; congruence).
      apply approve_ok. apply canBeApproved_None.
      exists st1, p. rewrite Hp1. repeat split; auto. lia.
    + unfold approveRequest. rewrite Hr2'.
      rewrite decide_False by (intros ?; congruence).
      rewrite decide_False by (intros ?; congruence).
      unfold approve.
      assert (Hc : canBeApproved (approved_db id1 r1 d) r2
                   = Some ProfessorAtCapacity); [|by rewrite Hc].
      assert (∃ st, users (approved_db id1 r1 d) !! studentId r2 = Some st
                    ∧ approvedProfessorId st = None) as (st & Hst & Hnone).
      { simpl. rewrite Hp1.
        destruct (decide (pid = studentId r2)) as [->|Hpne].
        - rewrite lookup_alter_eq, lookup_alter_ne, Hst2 by done.
          eexists; split; [done|]. done.
        - rewrite !lookup_alter_ne, Hst2 by done. eauto. }
      assert (∃ q, users (approved_db id1 r1 d) !! professorId r2 = Some q
                   ∧ currentStudentCount q = 1 ∧ maxStudents q = 1)
        as (q & Hq & Hq1 & Hq2).
      { simpl. rewrite Hp1, Hp2, lookup_alter_eq.
        destruct (decide (studentId r1 = pid)) as [Heq|Hpne].
        - rewrite Heq, lookup_alter_eq, Hp. simpl.
          eexists; split; [done|]. simpl. lia.
        - rewrite lookup_alter_ne, Hp by done. simpl.
          eexists; split; [done|]. simpl. lia. }
      eapply canBeApproved_capacity; eauto. lia.
Qed.


Lemma approve_guard_failure_witness :
  ∃ d1, approveRequest None 1 20 single_place_db = (OK, d1)
        ∧ approveRequest None 1 21 d1 = (Failed ProfessorAtCapacity, d1)
        ∧ requests d1 !! 21%nat = Some dan_request.
Proof.
  apply (proj2 approve_guard_failure None single_place_db 1%nat
           (mkUser "Pop" professor None 1 0) 20%nat 21%nat
           ana_request dan_request
           (mkUser "Ana" student None 5 0) (mkUser "Dan" student None 5 0));
    try reflexivity.
  simpl. lia.
Defined.

(** ** Session status: the per-instance recompute and the bulk update *)

Lemma newStatus_recomputeStatus now s :
  newStatus now s = recomputeStatus (startDate s) (endDate s) now.
Proof.
  unfold newStatus, recomputeStatus.
  repeat case_decide; try done; lia.
Qed.

Lemma updateStatus_lookup now d id s :
  sessions d !! id = Some s →
  sessions (updateStatus now d id s).2 !! id
  = Some (set_sessionStatus (newStatus now s) s).
Proof.
  intros Hs. unfold updateStatus. case_decide as Hne; simpl.
  - by rewrite lookup_alter_eq, Hs.
  - rewrite Hs. f_equal. destruct s. simpl in *.
    destruct (decide (sessionStatus0
                      = newStatus now (mkSession sessionProfessorId0 title0
                          startDate0 endDate0 sessionStatus0 maxSlots0
                          availableSlots0))) as [<-|]; [done|].
    by destruct Hne.
Qed.

Lemma updateAllStatuses_lookup now d id :
  sessions (updateAllStatuses now d) !! id
  = (λ s, active_to_closed now (upcoming_to_active now s))
      <$> sessions d !! id.
Proof.
  unfold updateAllStatuses. simpl. rewrite !lookup_fmap.
  by destruct (sessions d !! id).
Qed.





(** ** Session windows *)

Lemma hasOverlap_true d thisId this :
  hasOverlap d thisId this = true ↔
  ∃ i s, sessions d !! i = Some s ∧ overlap_where thisId this i s.
Proof.
  unfold hasOverlap. rewrite bool_decide_eq_true.
  apply map_Exists_lookup.
Qed.

Lemma hasOverlap_false d thisId this :
  hasOverlap d thisId this = false ↔
  ∀ i s, sessions d !! i = Some s → ¬ overlap_where thisId this i s.
Proof.
  rewrite <- not_true_iff_false, hasOverlap_true. split.
  - intros Hn i s Hs Ho. apply Hn. eauto.
  - intros Hall (i & s & Hs & Ho). by eapply Hall.
Qed.

Lemma intersect_overlap_where thisId this i s :
  sessionProfessorId s = sessionProfessorId this →
  Some i ≠ thisId →
  windows_intersect (startDate s) (endDate s) (startDate this) (endDate this) →
  overlap_where thisId this i s.
Proof.
  unfold windows_intersect, overlap_where, between.
  intros Hp Hi [H1 H2]. split; [done|]. split; [done|].
  destruct (decide (startDate this ≤ startDate s)); [left; lia|].
  destruct (decide (endDate s ≤ endDate this)); [right; left; lia|].
  right; right; lia.
Qed.

Lemma overlap_where_intersect thisId this i s :
  startDate s ≤ endDate s →
  startDate this ≤ endDate this →
  overlap_where thisId this i s →
  sessionProfessorId s = sessionProfessorId this
  ∧ windows_intersect (startDate s) (endDate s)
                      (startDate this) (endDate this).
Proof.
  unfold windows_intersect, overlap_where, between.
  intros Hs Ht (Hp & _ & Ho). split; [done|]. lia.
Qed.

(** C6. [createSession] answers with the overlap failure, and stores
    nothing, whenever a session of the same professor shares an instant
    with the new window, a single common boundary instant included.  When
    no session of that professor does, sessions of other professors do not
    matter: a valid body with an unused key is stored, with all its slots
    free. *)
Theorem createSession_overlap (uid tempId newId : nat) (now : Z)
    (b : session_body) (d : db) :
  sessionValidation b = true →
  sessions d !! tempId = None →
  (owned_intersecting d uid (body_startDate b) (body_endDate b) →
   createSession uid tempId newId now b d = (Failed SessionOverlap, d))
  ∧ (¬ owned_intersecting d uid (body_startDate b) (body_endDate b) →
     body_startDate b < body_endDate b →
     (∀ i x, sessions d !! i = Some x → sessionProfessorId x = uid →
             startDate x ≤ endDate x) →
     sessions d !! newId = None →
     ∃ s, createSession uid tempId newId now b d
          = (OK, with_sessions (insert newId s) d)
          ∧ sessionProfessorId s = uid
          ∧ startDate s = body_startDate b
          ∧ endDate s = body_endDate b
          ∧ maxSlots s = or_default (body_maxSlots b) 5
          ∧ availableSlots s = maxSlots s).
Proof.
  intros Hval Htemp. unfold createSession. rewrite Hval. simpl.
  set (sd := mkSession uid (body_title b) (body_startDate b) (body_endDate b)
               upcoming (or_default (body_maxSlots b) 5)
               (or_default (body_maxSlots b) 5)).
  split.
  - intros (i & x & Hx & Hp & Hi).
    assert (Ho : hasOverlap d (Some tempId) sd = true).
    { apply hasOverlap_true. exists i, x. split; [done|].
      apply intersect_overlap_where; [done| |done].
      intros [= ->]. congruence. }
    by rewrite Ho.
  - intros Hnone Hwin Hvalid Hnew.
    assert (Ho : hasOverlap d (Some tempId) sd = false).
    { apply hasOverlap_false. intros i x Hx Ho.
      assert (Hpx : sessionProfessorId x = uid) by (by destruct Ho).
      apply Hnone. exists i, x. split; [done|].
      apply (overlap_where_intersect (Some tempId) sd i x) in Ho;
        [|by eapply Hvalid|simpl; lia].
      by destruct Ho. }
    rewrite Ho. unfold create_session, validate_session. simpl.
    assert (Hm : 1 ≤ or_default (body_maxSlots b) 5).
    { unfold sessionValidation in Hval. apply andb_true_iff in Hval as [_ Hm].
      unfold or_default. destruct (body_maxSlots b) as [m|]; [|lia].
      apply bool_decide_eq_true in Hm. case_decide; lia. }
    rewrite decide_False by lia. rewrite decide_False by lia.
    rewrite Hnew. eexists. split; [done|]. by simpl.
Qed.


Lemma createSession_overlap_witness :
  createSession 1 100 11 5 (mkSessionBody "Summer" 10 20 None) submitted_db
  = (Failed SessionOverlap, submitted_db).
Proof.
  apply (proj1 (createSession_overlap 1 100 11 5
                  (mkSessionBody "Summer" 10 20 None) submitted_db
                  eq_refl eq_refl)).
  exists 10%nat, (mkSession 1 "Spring" 0 10 active 1 1).
  split; [reflexivity|]. split; [reflexivity|].
  unfold windows_intersect. simpl. lia.
Defined.

(** ** Submitting a request *)

Lemma updateStatus_frame now d id s :
  users (updateStatus now d id s).2 = users d
  ∧ requests (updateStatus now d id s).2 = requests d
  ∧ documents (updateStatus now d id s).2 = documents d
  ∧ ∀ i, sessions (updateStatus now d id s).2 !! i
         = (λ x, if decide (i = id ∧ sessionStatus s ≠ newStatus now s)
                 then set_sessionStatus (newStatus now s) x else x)
             <$> sessions d !! i.
Proof.
  unfold updateStatus. case_decide as Hne; simpl.
  - repeat split; try done. intros i. rewrite lookup_alter.
    destruct (decide (id = i)) as [->|Hi].
    + destruct (sessions d !! i); [|done]. simpl.
      by rewrite decide_True.
    + destruct (sessions d !! i); [|done]. simpl.
      rewrite decide_False; [done|]. intros [-> _]. done.
  - repeat split; try done. intros i.
    destruct (sessions d !! i); [|done]. simpl.
    rewrite decide_False; [done|]. intros [_ ?]. done.
Qed.

Lemma updateStatus_instance now d id s :
  (updateStatus now d id s).1 = set_sessionStatus (newStatus now s) s.
Proof.
  unfold updateStatus. case_decide as Hne; simpl; [done|].
  destruct s as [pid t sd ed st ms av]. unfold set_sessionStatus. simpl in *.
  f_equal.
  destruct (decide (st = newStatus now (mkSession pid t sd ed st ms av)));
    [done|]. by destruct Hne.
Qed.

(** C7. A submission to a session without a free slot fails and creates no
    request; when the earlier checks of the handler pass (valid body,
    student not yet approved, session active at [now]) the failure is
    [NoAvailableSlots].  A submission that succeeds stores one new request,
    pending, and reserves nothing: no row of [users] changes, every
    session keeps its [availableSlots] and [maxSlots], and no document is
    written. *)
Theorem createRequest_reserves_nothing (uid : nat) (user : User) (newId : nat)
    (now : Z) (b : request_body) (d : db) :
  (∀ s, sessions d !! body_sessionId b = Some s →
        availableSlots s = 0 →
        ∃ e, (createRequest uid user newId now b d).1 = Failed e
             ∧ requests (createRequest uid user newId now b d).2 = requests d
             ∧ (createRequestValidation b = true →
                approvedProfessorId user = None →
                newStatus now s = active →
                e = NoAvailableSlots))
  ∧ (∀ d', createRequest uid user newId now b d = (OK, d') →
           requests d !! newId = None
           ∧ (∃ r, requests d' = <[newId := r]> (requests d)
                   ∧ status r = pending
                   ∧ studentId r = uid
                   ∧ sessionId r = body_sessionId b)
           ∧ users d' = users d
           ∧ documents d' = documents d
           ∧ ∀ i, availableSlots <$> sessions d' !! i
                  = availableSlots <$> sessions d !! i
                  ∧ maxSlots <$> sessions d' !! i
                    = maxSlots <$> sessions d !! i).
Proof.
  split.
  - intros s Hs Hzero. unfold createRequest.
    destruct (createRequestValidation b); simpl;
      [|exists ValidationFailed; repeat split; done].
    destruct (approvedProfessorId user) as [p|]; simpl;
      [exists AlreadyApprovedByProfessor; repeat split; done|].
    rewrite Hs.
    destruct (updateStatus now d (body_sessionId b) s) as [s1 d1] eqn:Hu.
    pose proof (updateStatus_frame now d (body_sessionId b) s) as (_ & Hr & _).
    pose proof (updateStatus_instance now d (body_sessionId b) s) as Hi.
    rewrite Hu in Hr, Hi. simpl in Hr, Hi. subst s1. simpl.
    case_decide as Hact; simpl.
    + exists SessionNotActive. split; [done|]. split; [done|].
      intros _ _ Hn. by destruct Hact.
    + rewrite decide_True by lia. simpl.
      exists NoAvailableSlots. repeat split; done.
  - intros d'. unfold createRequest.
    destruct (createRequestValidation b); simpl; [|done].
    destruct (bool_decide (is_Some (approvedProfessorId user))); [done|].
    destruct (sessions d !! body_sessionId b) as [s|] eqn:Hs; [|done].
    destruct (updateStatus now d (body_sessionId b) s) as [s1 d1] eqn:Hu.
    pose proof (updateStatus_frame now d (body_sessionId b) s)
      as (Hus & Hr & Hdoc & Hse).
    rewrite Hu in Hus, Hr, Hdoc, Hse. simpl in Hus, Hr, Hdoc, Hse.
    destruct (decide (sessionStatus s1 ≠ active)); [done|].
    destruct (decide (availableSlots s1 ≤ 0)); [done|].
    destruct (bool_decide _); [done|].
    destruct (requests d1 !! newId) eqn:Hnew; [done|].
    intros [= <-]. simpl. rewrite Hr in Hnew. split; [done|].
    split; [eexists; split; [by rewrite Hr|done]|].
    split; [done|]. split; [done|].
    intros i. rewrite Hse. destruct (sessions d !! i); [|done]. simpl.
    destruct (decide (i = body_sessionId b
                      ∧ sessionStatus s ≠ newStatus now s)); done.
Qed.


Lemma createRequest_reserves_nothing_witness :
  ∃ e, (createRequest 3 (mkUser "Dan" student None 5 0) 22 5
          (mkRequestBody 10 topic) full_session_db).1 = Failed e
       ∧ requests (createRequest 3 (mkUser "Dan" student None 5 0) 22 5
                     (mkRequestBody 10 topic) full_session_db).2
         = requests full_session_db
       ∧ (createRequestValidation (mkRequestBody 10 topic) = true →
          approvedProfessorId (mkUser "Dan" student None 5 0) = None →
          newStatus 5 (mkSession 1 "Spring" 0 10 active 1 0) = active →
          e = NoAvailableSlots).
Proof.
  apply (proj1 (createRequest_reserves_nothing 3
                  (mkUser "Dan" student None 5 0) 22 5
                  (mkRequestBody 10 topic) full_session_db)
               (mkSession 1 "Spring" 0 10 active 1 0));
    reflexivity.
Defined.

(** ** Document review *)

Lemma accept_cases fault d id this :
  accept fault d id this = (Failed StoreFault, d)
  ∨ accept fault d id this = (OK, accepted_db id this d).
Proof. apply transaction_cases. Qed.

Lemma reject_document_cases fault d id this reason :
  reject_document fault d id this reason = (Failed StoreFault, d)
  ∨ reject_document fault d id this reason
    = (OK, document_rejected_db id this reason d).
Proof. apply transaction_cases. Qed.

Lemma acceptDocument_ok d uid id doc r :
  documents d !! id = Some doc →
  requests d !! requestId doc = Some r →
  professorId r = uid →
  documentStatus doc = pending_review →
  acceptDocument None uid id d = (OK, accepted_db id doc d).
Proof.
  intros Hdoc Hr Hp Hst. unfold acceptDocument. rewrite Hdoc, Hr.
  rewrite decide_False by (intros ?; done).
  rewrite decide_False by (intros ?; done).
  apply transaction_no_fault.
Qed.

Lemma rejectDocument_cases fault d uid id doc r reason :
  documents d !! id = Some doc →
  requests d !! requestId doc = Some r →
  professorId r = uid →
  documentStatus doc = pending_review →
  is_blank reason = false →
  rejectDocument fault uid id reason d = (Failed StoreFault, d)
  ∨ rejectDocument fault uid id reason d
    = (OK, document_rejected_db id doc reason d).
Proof.
  intros Hdoc Hr Hp Hst Hb. unfold rejectDocument. rewrite Hb, Hdoc, Hr.
  rewrite decide_False by (intros ?; done).
  rewrite decide_False by (intros ?; done).
  apply reject_document_cases.
Qed.

(** C8. For a request waiting on a document under review, rejecting the
    document either fails and writes nothing or, as one unit, stores the
    document as rejected, with the reason, and the request as approved
    again.  From there a new upload by the student stores a fresh document
    under review and moves the request to [document_pending], and
    accepting that document stores it as accepted and the request as
    completed. *)
Theorem document_round_trip (d : db) (puid suid : nat) (student_row : User)
    (rid : nat) (r : CoordinationRequest) (did : nat) (doc : Document)
    (reason fname : string) (newId : nat) (fault : option nat) :
  requests d !! rid = Some r →
  status r = document_pending →
  professorId r = puid →
  studentId r = suid →
  suid ≠ puid →
  documents d !! did = Some doc →
  requestId doc = rid →
  documentStatus doc = pending_review →
  is_blank reason = false →
  documents d !! newId = None →
  ∃ d1 d2 d3,
    (* reject: all or nothing *)
    (rejectDocument fault puid did reason d = (Failed StoreFault, d)
     ∨ rejectDocument fault puid did reason d = (OK, d1))
    ∧ rejectDocument None puid did reason d = (OK, d1)
    ∧ (∃ doc1, documents d1 !! did = Some doc1
               ∧ documentStatus doc1 = document_rejected
               ∧ documentRejectionReason doc1 = Some reason
               ∧ requestId doc1 = rid
               ∧ uploadedBy doc1 = uploadedBy doc
               ∧ uploaderRole doc1 = uploaderRole doc
               ∧ fileName doc1 = fileName doc)
    ∧ (∃ r1, requests d1 !! rid = Some r1
             ∧ status r1 = approved
             ∧ same_request_parties r r1)
    (* upload by the student *)
    ∧ uploadDocument suid student_row (Some fname) rid newId d1 = (OK, d2)
    ∧ (∃ r2, requests d2 !! rid = Some r2
             ∧ status r2 = document_pending
             ∧ same_request_parties r r2)
    ∧ documents d2 !! newId
      = Some (mkDocument rid suid (userRole student_row) fname
                         pending_review None)
    ∧ (∃ doc1, documents d2 !! did = Some doc1
               ∧ documentStatus doc1 = document_rejected)
    (* accept *)
    ∧ acceptDocument None puid newId d2 = (OK, d3)
    ∧ (∃ doc3, documents d3 !! newId = Some doc3
               ∧ documentStatus doc3 = accepted
               ∧ requestId doc3 = rid
               ∧ uploadedBy doc3 = suid
               ∧ fileName doc3 = fname)
    ∧ (∃ r3, requests d3 !! rid = Some r3
             ∧ status r3 = completed
             ∧ same_request_parties r r3).
Proof.
  intros Hr Hst Hp Hs Hne Hdoc Hrid Hdst Hb Hnew.
  assert (Hr' : requests d !! requestId doc = Some r) by (by rewrite Hrid).
  assert (Hdidnew : did ≠ newId) by (intros ->; congruence).
  set (d1 := document_rejected_db did doc reason d).
  set (newDoc := mkDocument rid suid (userRole student_row) fname
                            pending_review None).
  set (d2 := with_requests (alter (set_status document_pending) rid)
               (with_documents (insert newId newDoc) d1)).
  exists d1, d2, (accepted_db newId newDoc d2).
  assert (Hd1r : requests d1 !! rid = Some (set_status approved r)).
  { subst d1. simpl. by rewrite Hrid, lookup_alter_eq, Hr. }
  assert (Hd1new : documents d1 !! newId = None).
  { subst d1. simpl. by rewrite lookup_alter_ne. }
  assert (Hd1doc : documents d1 !! did
                   = Some (set_document_rejected reason doc)).
  { subst d1. simpl. by rewrite lookup_alter_eq, Hdoc. }
  assert (Hd1ok : rejectDocument None puid did reason d = (OK, d1)).
  { unfold rejectDocument. rewrite Hb, Hdoc, Hr'.
    rewrite decide_False by (intros ?; done).
    rewrite decide_False by (intros ?; done).
    apply transaction_no_fault. }
  assert (Hd1any : rejectDocument fault puid did reason d
                   = (Failed StoreFault, d)
                   ∨ rejectDocument fault puid did reason d = (OK, d1))
    by (by apply (rejectDocument_cases fault d puid did doc r reason)).
  clearbody d1.
  assert (Hd2r : requests d2 !! rid = Some (set_status document_pending r)).
  { subst d2. simpl. by rewrite lookup_alter_eq, Hd1r. }
  assert (Hd2doc : documents d2 !! newId = Some newDoc).
  { subst d2. simpl. by rewrite lookup_insert_eq. }
  assert (Hd2old : documents d2 !! did
                   = Some (set_document_rejected reason doc)).
  { subst d2. simpl. by rewrite lookup_insert_ne. }
  assert (Hd2ok : uploadDocument suid student_row (Some fname) rid newId d1
                  = (OK, d2)).
  { unfold uploadDocument. rewrite Hd1r. simpl.
    rewrite (bool_decide_eq_true_2 (studentId r = suid)) by done.
    rewrite (bool_decide_eq_false_2 (professorId r = suid)) by congruence.
    simpl. by rewrite Hd1new. }
  clearbody d2.
  split; [done|]. split; [done|].
  split; [eexists; split; [done|]; by repeat split|].
  split; [eexists; split; [done|]; by repeat split|].
  split; [done|].
  split; [eexists; split; [done|]; by repeat split|].
  split; [done|].
  split; [eexists; split; [done|]; done|].
  split.
  { apply (acceptDocument_ok d2 puid newId newDoc
             (set_status document_pending r)); done. }
  split.
  - simpl. rewrite lookup_alter_eq, Hd2doc. simpl.
    eexists. split; [done|]. by repeat split.
  - simpl. rewrite lookup_alter_eq, Hd2r. simpl.
    eexists. split; [done|]. by repeat split.
Qed.

Lemma document_round_trip_witness :
  ∃ d1 d2 d3,
    (rejectDocument None 1 30 "signature missing" under_review_db
     = (Failed StoreFault, under_review_db)
     ∨ rejectDocument None 1 30 "signature missing" under_review_db
       = (OK, d1))
    ∧ rejectDocument None 1 30 "signature missing" under_review_db = (OK, d1)
    ∧ (∃ doc1, documents d1 !! 30%nat = Some doc1
               ∧ documentStatus doc1 = document_rejected
               ∧ documentRejectionReason doc1 = Some "signature missing"
               ∧ requestId doc1 = 20%nat
               ∧ uploadedBy doc1 = 2%nat
               ∧ uploaderRole doc1 = student
               ∧ fileName doc1 = "thesis.pdf")
    ∧ (∃ r1, requests d1 !! 20%nat = Some r1
             ∧ status r1 = approved
             ∧ same_request_parties
                 (mkRequest 2 1 10 topic document_pending None) r1)
    ∧ uploadDocument 2 (mkUser "Ana" student (Some 1%nat) 5 0)
        (Some "signed.pdf") 20 32 d1 = (OK, d2)
    ∧ (∃ r2, requests d2 !! 20%nat = Some r2
             ∧ status r2 = document_pending
             ∧ same_request_parties
                 (mkRequest 2 1 10 topic document_pending None) r2)
    ∧ documents d2 !! 32%nat
      = Some (mkDocument 20 2 student "signed.pdf" pending_review None)
    ∧ (∃ doc1, documents d2 !! 30%nat = Some doc1
               ∧ documentStatus doc1 = document_rejected)
    ∧ acceptDocument None 1 32 d2 = (OK, d3)
    ∧ (∃ doc3, documents d3 !! 32%nat = Some doc3
               ∧ documentStatus doc3 = accepted
               ∧ requestId doc3 = 20%nat
               ∧ uploadedBy doc3 = 2%nat
               ∧ fileName doc3 = "signed.pdf")
    ∧ (∃ r3, requests d3 !! 20%nat = Some r3
             ∧ status r3 = completed
             ∧ same_request_parties
                 (mkRequest 2 1 10 topic document_pending None) r3).
Proof.
  apply (document_round_trip under_review_db 1 2
           (mkUser "Ana" student (Some 1%nat) 5 0) 20
           (mkRequest 2 1 10 topic document_pending None) 30
           (mkDocument 20 2 student "thesis.pdf" pending_review None)
           "signature missing" "signed.pdf" 32 None);
    try reflexivity.
  simpl. lia.
Defined.

(** C10. [acceptDocument] by the professor of the request looks at the
    status of the document only: whatever the status of the owning request,
    accepting a document under review succeeds and stores the request as
    completed.  The state where it matters is reachable: after
    [counter_document_trace] the request is back to approved, the
    professor's own document is still under review, and accepting it moves
    the request from approved straight to completed. *)
Theorem acceptDocument_ignores_request_status :
  (∀ (d : db) (uid id : nat) (doc : Document) (r : CoordinationRequest),
     documents d !! id = Some doc →
     requests d !! requestId doc = Some r →
     professorId r = uid →
     documentStatus doc = pending_review →
     ∃ d', acceptDocument None uid id d = (OK, d')
           ∧ requests d' !! requestId doc = Some (set_status completed r))
  ∧ (∀ onDelete : fk_action,
       let d := run onDelete empty_db counter_document_trace in
       responses onDelete empty_db counter_document_trace = replicate 8 OK
       ∧ status <$> requests d !! 20%nat = Some approved
       ∧ documents d !! 31%nat
         = Some (mkDocument 20 1 professor "reply.pdf" pending_review None)
       ∧ (step onDelete d (AcceptDocument 1 31 None)).1 = OK
       ∧ status <$> requests (step onDelete d (AcceptDocument 1 31 None)).2
                      !! 20%nat
         = Some completed).
Proof.
  split.
  - intros d uid id doc r Hdoc Hr Hp Hst.
    exists (accepted_db id doc d). split.
    + by apply (acceptDocument_ok d uid id doc r).
    + simpl. by rewrite lookup_alter_eq, Hr.
  - intros onDelete. destruct onDelete; vm_compute; repeat split; reflexivity.
Qed.


Lemma acceptDocument_ignores_request_status_witness :
  ∃ d', acceptDocument None 1 31 counter_document_db = (OK, d')
        ∧ requests d' !! 20%nat
          = Some (set_status completed (mkRequest 2 1 10 topic approved None)).
Proof.
  apply (proj1 acceptDocument_ignores_request_status counter_document_db
           1%nat 31%nat
           (mkDocument 20 1 professor "reply.pdf" pending_review None)
           (mkRequest 2 1 10 topic approved None));
    reflexivity.
Defined.

(** C2. The bound [0 ≤ availableSlots] does not survive [approve], which
    decrements the counter without looking at it.  In [overbooking_trace]
    every operation succeeds, the seventh leaves the single slot of the
    session taken, and the eighth, a second approval, drives
    [availableSlots] to [-1]. *)
Theorem approve_overdraws_slots (onDelete : fk_action) :
  responses onDelete empty_db overbooking_trace = replicate 8 OK
  ∧ (availableSlots <$>
       sessions (run onDelete empty_db (take 7 overbooking_trace)) !! 10%nat)
    = Some 0
  ∧ (availableSlots <$>
       sessions (run onDelete empty_db overbooking_trace) !! 10%nat)
    = Some (-1)
  ∧ (maxSlots <$>
       sessions (run onDelete empty_db overbooking_trace) !! 10%nat)
    = Some 1.
Proof. destruct onDelete; vm_compute; repeat split; reflexivity. Qed.

(** ** What each handler can do to the store *)

Lemma sessions_only_refl d : sessions_only d d.
Proof. by repeat split. Qed.

Lemma updateStatus_sessions_only now d id s :
  sessions_only d (updateStatus now d id s).2.
Proof.
  pose proof (updateStatus_frame now d id s) as (? & ? & ? & _).
  by repeat split.
Qed.

Lemma authenticated_cases d actor only handler :
  (∃ e, authenticated d actor only handler = (Failed e, d))
  ∨ (∃ user, users d !! actor = Some user
             ∧ authenticated d actor only handler = handler user).
Proof.
  unfold authenticated. destruct (users d !! actor) as [user|]; [|eauto].
  destruct only as [r|]; [|eauto].
  case_decide; eauto.
Qed.

Lemma createSession_sessions_only uid tempId newId now b d :
  sessions_only d (createSession uid tempId newId now b d).2.
Proof.
  unfold createSession, create_session.
  repeat (case_match; simpl); by repeat split.
Qed.

Lemma updateSession_sessions_only uid id now p d :
  sessions_only d (updateSession uid id now p d).2.
Proof.
  unfold updateSession.
  repeat (case_match; simpl); try (by repeat split).
  match goal with
  | |- sessions_only _ (updateStatus ?n ?d1 ?i ?s).2 =>
      pose proof (updateStatus_sessions_only n d1 i s) as (? & ? & ?)
  end.
  by repeat split.
Qed.

Lemma getSessionById_sessions_only id now d :
  sessions_only d (getSessionById id now d).2.
Proof.
  unfold getSessionById. case_match; simpl;
    [apply updateStatus_sessions_only|apply sessions_only_refl].
Qed.

Lemma listSessions_sessions_only now d :
  sessions_only d (listSessions now d).2.
Proof. by repeat split. Qed.

Lemma deleteSession_cases onDelete uid id d :
  (∃ e, deleteSession onDelete uid id d = (Failed e, d))
  ∨ (¬ map_Exists (λ _ r, sessionId r = id ∧ committed (status r))
         (requests d)
     ∧ ((onDelete = CASCADE
         ∧ deleteSession onDelete uid id d
           = (OK, mkDb (users d) (delete id (sessions d))
                       (filter (request_outside id) (requests d))
                       (filter (λ idoc,
                                  ¬ document_of_session (requests d) id idoc)
                               (documents d))))
        ∨ deleteSession onDelete uid id d
          = (OK, with_sessions (delete id) d))).
Proof.
  unfold deleteSession. destruct (sessions d !! id) as [s|]; [|eauto].
  case_decide; [eauto|].
  destruct (bool_decide _) eqn:Hb; [eauto|].
  apply bool_decide_eq_false in Hb.
  unfold destroy_session. destruct onDelete.
  - right. split; [done|]. left. done.
  - destruct (bool_decide _); [eauto|]. right. split; [done|]. by right.
Qed.

Lemma createRequest_cases uid user newId now b d :
  ∃ d1, sessions_only d d1
        ∧ ((∃ e, createRequest uid user newId now b d = (Failed e, d1))
           ∨ (∃ r, requests d !! newId = None
                   ∧ status r = pending
                   ∧ createRequest uid user newId now b d
                     = (OK, with_requests (insert newId r) d1))).
Proof.
  unfold createRequest.
  destruct (createRequestValidation b); simpl;
    [|exists d; split; [apply sessions_only_refl|eauto]].
  destruct (bool_decide (is_Some (approvedProfessorId user)));
    [exists d; split; [apply sessions_only_refl|eauto]|].
  destruct (sessions d !! body_sessionId b) as [s|];
    [|exists d; split; [apply sessions_only_refl|eauto]].
  pose proof (updateStatus_sessions_only now d (body_sessionId b) s) as Hso.
  destruct (updateStatus now d (body_sessionId b) s) as [s1 d1].
  simpl in Hso. exists d1. split; [done|].
  destruct (decide (sessionStatus s1 ≠ active)); [eauto|].
  destruct (decide (availableSlots s1 ≤ 0)); [eauto|].
  destruct (bool_decide _); [eauto|].
  destruct (requests d1 !! newId) eqn:Hnew; [eauto|].
  right. eexists. split; [|split; [|done]].
  - destruct Hso as (_ & <- & _). done.
  - done.
Qed.

Lemma approveRequest_cases fault uid id d :
  (∃ e, approveRequest fault uid id d = (Failed e, d))
  ∨ (∃ this, requests d !! id = Some this
             ∧ professorId this = uid
             ∧ status this = pending
             ∧ canBeApproved d this = None
             ∧ approveRequest fault uid id d = (OK, approved_db id this d)).
Proof.
  unfold approveRequest. destruct (requests d !! id) as [this|]; [|eauto].
  destruct (decide (professorId this ≠ uid)) as [|Hp]; [eauto|].
  destruct (decide (status this ≠ pending)) as [|Hs]; [eauto|].
  destruct (approve_cases fault d id this) as [[e He]|[Hc Ha]]; [eauto|].
  right. exists this. repeat split; try done.
  - by destruct (decide (professorId this = uid)).
  - by destruct (decide (status this = pending)).
Qed.

Lemma rejectRequest_cases uid id reason d :
  (∃ e, rejectRequest uid id reason d = (Failed e, d))
  ∨ (∃ this, requests d !! id = Some this
             ∧ status this = pending
             ∧ rejectRequest uid id reason d = (OK, reject d id reason)).
Proof.
  unfold rejectRequest. destruct (is_blank reason); [eauto|].
  destruct (requests d !! id) as [this|]; [|eauto].
  destruct (decide (professorId this ≠ uid)); [eauto|].
  destruct (decide (status this ≠ pending)) as [|Hs]; [eauto|].
  right. exists this. repeat split; try done.
  by destruct (decide (status this = pending)).
Qed.

Lemma cancelRequest_cases onDelete uid id d :
  (∃ e, cancelRequest onDelete uid id d = (Failed e, d))
  ∨ (∃ this, requests d !! id = Some this
             ∧ status this = pending
             ∧ ((onDelete = CASCADE
                 ∧ cancelRequest onDelete uid id d
                   = (OK, mkDb (users d) (sessions d) (delete id (requests d))
                               (filter (λ idoc, requestId idoc.2 ≠ id)
                                       (documents d))))
                ∨ (¬ map_Exists (λ _ doc, requestId doc = id) (documents d)
                   ∧ cancelRequest onDelete uid id d
                     = (OK, with_requests (delete id) d)))).
Proof.
  unfold cancelRequest. destruct (requests d !! id) as [this|]; [|eauto].
  destruct (decide (studentId this ≠ uid)); [eauto|].
  destruct (decide (status this ≠ pending)) as [|Hs]; [eauto|].
  assert (status this = pending)
    by (by destruct (decide (status this = pending))).
  unfold destroy_request. destruct onDelete.
  - right. exists this. split; [done|]. split; [done|]. left. done.
  - destruct (bool_decide _) eqn:Hb; [eauto|].
    apply bool_decide_eq_false in Hb.
    right. exists this. split; [done|]. split; [done|]. right. done.
Qed.

Lemma uploadDocument_cases uid user file rid newId d :
  (∃ e, uploadDocument uid user file rid newId d = (Failed e, d))
  ∨ (∃ r doc, requests d !! rid = Some r
              ∧ documents d !! newId = None
              ∧ requestId doc = rid
              ∧ ((status r = approved
                  ∧ uploadDocument uid user file rid newId d
                    = (OK, with_requests
                             (alter (set_status document_pending) rid)
                             (with_documents (insert newId doc) d)))
                 ∨ (status r = document_pending
                    ∧ uploadDocument uid user file rid newId d
                      = (OK, with_documents (insert newId doc) d)))).
Proof.
  unfold uploadDocument. destruct file as [fname|]; [|eauto].
  destruct (requests d !! rid) as [r|]; [|eauto].
  destruct (bool_decide (studentId r = uid)) eqn:Hs;
    destruct (bool_decide (professorId r = uid)) eqn:Hp; simpl.
  - destruct (bool_decide (status r ≠ approved)) eqn:Ha; [eauto|].
    destruct (bool_decide (status r ≠ document_pending)) eqn:Hd; [eauto|].
    apply bool_decide_eq_false in Ha, Hd.
    destruct (status r); exfalso; (by apply Ha) || (by apply Hd).
  - destruct (bool_decide (status r ≠ approved)) eqn:Ha; [eauto|].
    apply bool_decide_eq_false in Ha.
    destruct (documents d !! newId) eqn:Hn; [eauto|].
    right.
    exists r, (mkDocument rid uid (userRole user) fname pending_review None).
    split; [done|]. split; [done|]. split; [done|left].
    split; [|done]. by destruct (decide (status r = approved)).
  - destruct (bool_decide (status r ≠ document_pending)) eqn:Hd; [eauto|].
    apply bool_decide_eq_false in Hd.
    destruct (documents d !! newId) eqn:Hn; [eauto|].
    right.
    exists r, (mkDocument rid uid (userRole user) fname pending_review None).
    split; [done|]. split; [done|]. split; [done|right].
    split; [|done]. by destruct (decide (status r = document_pending)).
  - eauto.
Qed.

Lemma acceptDocument_cases fault uid id d :
  (∃ e, acceptDocument fault uid id d = (Failed e, d))
  ∨ (∃ doc r, documents d !! id = Some doc
              ∧ requests d !! requestId doc = Some r
              ∧ acceptDocument fault uid id d = (OK, accepted_db id doc d)).
Proof.
  unfold acceptDocument. destruct (documents d !! id) as [doc|]; [|eauto].
  destruct (requests d !! requestId doc) as [r|] eqn:Hr; [|eauto].
  destruct (decide (professorId r ≠ uid)); [eauto|].
  destruct (decide (documentStatus doc ≠ pending_review)); [eauto|].
  destruct (accept_cases fault d id doc) as [->| ->]; [eauto|].
  right. by exists doc, r.
Qed.

Lemma rejectDocument_result fault uid id reason d :
  (∃ e, rejectDocument fault uid id reason d = (Failed e, d))
  ∨ (∃ doc r, documents d !! id = Some doc
              ∧ requests d !! requestId doc = Some r
              ∧ rejectDocument fault uid id reason d
                = (OK, document_rejected_db id doc reason d)).
Proof.
  unfold rejectDocument. destruct (is_blank reason); [eauto|].
  destruct (documents d !! id) as [doc|]; [|eauto].
  destruct (requests d !! requestId doc) as [r|] eqn:Hr; [|eauto].
  destruct (decide (professorId r ≠ uid)); [eauto|].
  destruct (decide (documentStatus doc ≠ pending_review)); [eauto|].
  destruct (reject_document_cases fault d id doc reason) as [->| ->]; [eauto|].
  right. by exists doc, r.
Qed.

Lemma register_cases newId b d :
  (∃ e, register newId b d = (Failed e, d))
  ∨ (∃ u, users d !! newId = None
          ∧ approvedProfessorId u = None
          ∧ currentStudentCount u = 0
          ∧ 1 ≤ maxStudents u ≤ 50
          ∧ register newId b d = (OK, with_users (insert newId u) d)).
Proof.
  unfold register. case_decide; [eauto|].
  set (usr := match body_role b with
              | student => _
              | professor => _
              end).
  unfold validate_user.
  destruct (decide (1 ≤ maxStudents usr ≤ 50)) as [Hm|]; [|eauto].
  destruct (users d !! newId) eqn:Hn; [eauto|].
  right. exists usr. repeat split; try done; try lia.
  - subst usr. by destruct (body_role b).
  - subst usr. by destruct (body_role b).
Qed.

(** ** Professor capacity *)

(** The three ways a step treats the [users] table. *)
Lemma step_users onDelete d o :
  users (step onDelete d o).2 = users d
  ∨ (∃ newId b u, o = Register newId b
                  ∧ users d !! newId = None
                  ∧ approvedProfessorId u = None
                  ∧ currentStudentCount u = 0
                  ∧ 1 ≤ maxStudents u ≤ 50
                  ∧ step onDelete d o = (OK, with_users (insert newId u) d))
  ∨ (∃ actor id fault this,
       o = ApproveRequest actor id fault
       ∧ requests d !! id = Some this
       ∧ status this = pending
       ∧ canBeApproved d this = None
       ∧ step onDelete d o = (OK, approved_db id this d)).
Proof.
  destruct o; simpl.
  - destruct (register_cases newId b d) as [[e ->]|(u & ? & ? & ? & ? & He)];
      [by left|].
    right; left. exists newId, b, u. repeat split; try done; lia.
  - left. destruct (authenticated_cases d actor (Some professor)
      (λ _, createSession actor tempId newId now b d)) as [[e ->]|(u & _ & ->)];
      [done|]. apply createSession_sessions_only.
  - left. destruct (authenticated_cases d actor (Some professor)
      (λ _, updateSession actor id now p d)) as [[e ->]|(u & _ & ->)];
      [done|]. apply updateSession_sessions_only.
  - left. destruct (authenticated_cases d actor (Some professor)
      (λ _, deleteSession onDelete actor id d)) as [[e ->]|(u & _ & ->)];
      [done|].
    destruct (deleteSession_cases onDelete actor id d)
      as [[e ->]|(_ & [[_ ->]| ->])]; done.
  - left. apply getSessionById_sessions_only.
  - left. done.
  - left. destruct (authenticated_cases d actor (Some student)
      (λ user, createRequest actor user newId now b d))
      as [[e ->]|(u & _ & ->)]; [done|].
    destruct (createRequest_cases actor u newId now b d)
      as (d1 & (Hu & _) & [[e ->]|(r & _ & _ & ->)]); done.
  - destruct (authenticated_cases d actor (Some professor)
      (λ _, approveRequest fault actor id d)) as [[e ->]|(u & _ & ->)];
      [by left|].
    destruct (approveRequest_cases fault actor id d)
      as [[e ->]|(this & ? & ? & ? & ? & He)]; [by left|].
    right; right. exists actor, id, fault, this. by repeat split.
  - left. destruct (authenticated_cases d actor (Some professor)
      (λ _, rejectRequest actor id reason d)) as [[e ->]|(u & _ & ->)];
      [done|].
    destruct (rejectRequest_cases actor id reason d)
      as [[e ->]|(this & _ & _ & ->)]; done.
  - left. destruct (authenticated_cases d actor (Some student)
      (λ _, cancelRequest onDelete actor id d)) as [[e ->]|(u & _ & ->)];
      [done|].
    destruct (cancelRequest_cases onDelete actor id d)
      as [[e ->]|(this & _ & _ & [[_ ->]|[_ ->]])]; done.
  - left. destruct (authenticated_cases d actor None
      (λ user, uploadDocument actor user file rid newId d))
      as [[e ->]|(u & _ & ->)]; [done|].
    destruct (uploadDocument_cases actor u file rid newId d)
      as [[e ->]|(r & doc & _ & _ & _ & [[_ ->]|[_ ->]])]; done.
  - left. destruct (authenticated_cases d actor (Some professor)
      (λ _, acceptDocument fault actor id d)) as [[e ->]|(u & _ & ->)];
      [done|].
    destruct (acceptDocument_cases fault actor id d)
      as [[e ->]|(doc & r & _ & _ & ->)]; done.
  - left. destruct (authenticated_cases d actor (Some professor)
      (λ _, rejectDocument fault actor id reason d)) as [[e ->]|(u & _ & ->)];
      [done|].
    destruct (rejectDocument_result fault actor id reason d)
      as [[e ->]|(doc & r & _ & _ & ->)]; done.
Qed.

Lemma approved_db_users d id this i :
  users (approved_db id this d) !! i
  = (λ u, (if decide (i = professorId this)
           then incr_currentStudentCount else (λ x, x))
            ((if decide (i = studentId this)
              then set_approvedProfessorId (Some (professorId this))
              else (λ x, x)) u))
      <$> users d !! i.
Proof.
  simpl.
  destruct (decide (professorId this = i)) as [Hp|Hp];
    destruct (decide (studentId this = i)) as [Hs|Hs].
  - rewrite <- Hp at 1. rewrite lookup_alter_eq. rewrite Hp, <- Hs at 1.
    rewrite lookup_alter_eq, Hs. rewrite !decide_True by done.
    by destruct (users d !! i).
  - rewrite <- Hp at 1. rewrite lookup_alter_eq, Hp.
    rewrite lookup_alter_ne by done.
    rewrite decide_True by done. rewrite decide_False by done.
    by destruct (users d !! i).
  - rewrite lookup_alter_ne by done. rewrite <- Hs at 1.
    rewrite lookup_alter_eq, Hs.
    rewrite decide_False by done. rewrite decide_True by done.
    by destruct (users d !! i).
  - rewrite !lookup_alter_ne by done. rewrite !decide_False by done.
    by destruct (users d !! i).
Qed.

Lemma capacity_inv_step onDelete d o :
  capacity_inv d → capacity_inv (step onDelete d o).2.
Proof.
  intros Hinv.
  destruct (step_users onDelete d o)
    as [Heq|[(newId & b & u & _ & Hn & _ & Hc & Hm & ->)
            |(actor & id & fault & this & _ & _ & _ & Hg & ->)]].
  - unfold capacity_inv. by rewrite Heq.
  - intros i v. simpl. rewrite lookup_insert.
    case_decide; [intros [= <-]; lia|apply Hinv].
  - apply canBeApproved_None in Hg as (st & p & Hst & _ & Hp & Hlt).
    intros i v. cbn [snd]. rewrite approved_db_users.
    destruct (users d !! i) as [u|] eqn:Hu; [|done]. simpl.
    intros [= <-]. specialize (Hinv i u Hu).
    destruct (decide (i = professorId this)) as [->|];
      destruct (decide (_ = studentId this)); simpl; try lia;
      assert (u = p) as -> by congruence; lia.
Qed.

(** C4. Over every sequence of operations of the workflow the bound
    [0 ≤ currentStudentCount ≤ maxStudents] is kept on every actor row, and
    a step that changes the counter of a stored actor is a successful
    approval, which found the counter below the capacity and raised it by
    exactly one. *)
Theorem capacity_invariant (onDelete : fk_action) (d : db) :
  capacity_inv d →
  (∀ ops, capacity_inv (run onDelete d ops))
  ∧ (∀ o i u u',
       users d !! i = Some u →
       users (step onDelete d o).2 !! i = Some u' →
       currentStudentCount u' ≠ currentStudentCount u →
       (∃ actor id fault, o = ApproveRequest actor id fault)
       ∧ (step onDelete d o).1 = OK
       ∧ currentStudentCount u < maxStudents u
       ∧ currentStudentCount u' = currentStudentCount u + 1
       ∧ maxStudents u' = maxStudents u).
Proof.
  intros Hinv. split.
  - intros ops. revert d Hinv. induction ops as [|o ops IH]; intros d Hinv.
    + done.
    + simpl. apply IH. by apply capacity_inv_step.
  - intros o i u u' Hu Hu' Hne.
    destruct (step_users onDelete d o)
      as [Heq|[(newId & b & v & _ & Hn & _ & _ & _ & He)
              |(actor & id & fault & this & -> & _ & _ & Hg & He)]].
    + rewrite Heq in Hu'. congruence.
    + rewrite He in Hu'. simpl in Hu'.
      rewrite lookup_insert_ne in Hu' by (intros ->; congruence). congruence.
    + rewrite He in Hu' |- *. cbn [fst snd] in Hu' |- *.
      rewrite approved_db_users, Hu in Hu'.
      simpl in Hu'. injection Hu' as <-.
      apply canBeApproved_None in Hg as (st & p & Hst & _ & Hp & Hlt).
      split; [eauto|]. split; [done|].
      destruct (decide (i = professorId this)) as [->|];
        destruct (decide (_ = studentId this)); simpl in *; try done;
        assert (u = p) as -> by congruence; lia.
Qed.


Lemma capacity_invariant_witness :
  capacity_inv (run CASCADE empty_db overbooking_trace).
Proof.
  apply (proj1 (capacity_invariant CASCADE empty_db
                  (λ i u H, False_ind _ (lookup_empty_Some i u H)))).
Defined.

(** ** One commitment per student *)

Lemma workflow_inv_empty : workflow_inv empty_db.
Proof.
  repeat split.
  - intros i r Hr. cbn [requests empty_db] in Hr.
    by rewrite lookup_empty in Hr.
  - intros k doc Hk. cbn [documents empty_db] in Hk.
    by rewrite lookup_empty in Hk.
  - intros i j r1 r2 Hr. cbn [requests empty_db] in Hr.
    by rewrite lookup_empty in Hr.
Qed.

Lemma workflow_inv_sessions_only d d' :
  sessions_only d d' → workflow_inv d → workflow_inv d'.
Proof.
  intros (Hu & Hr & Hd) (Ha & Hb & Hc).
  unfold workflow_inv, commitment_recorded, documents_on_committed,
    one_commitment.
  rewrite Hu, Hr, Hd. done.
Qed.

(** No actor loses the approved professor, no request becomes committing,
    and the documents still sit on committing requests. *)
Lemma workflow_inv_preserved d d' :
  workflow_inv d →
  (∀ i u, users d !! i = Some u → is_Some (approvedProfessorId u) →
          ∃ u', users d' !! i = Some u' ∧ is_Some (approvedProfessorId u')) →
  (∀ j r', requests d' !! j = Some r' → committed (status r') →
           ∃ r, requests d !! j = Some r
                ∧ studentId r = studentId r' ∧ committed (status r)) →
  documents_on_committed d' →
  workflow_inv d'.
Proof.
  intros (Ha & Hb & Hc) HU HR HD. split; [|split; [done|]].
  - intros i r' Hr' Hcom.
    destruct (HR i r' Hr' Hcom) as (r & Hr & Hs & Hcr).
    destruct (Ha i r Hr Hcr) as (u & Hu & Hsome).
    rewrite <- Hs. by apply (HU _ u).
  - intros i j r1 r2 H1 H2 Hs C1 C2.
    destruct (HR i r1 H1 C1) as (x1 & Hx1 & Hs1 & Cx1).
    destruct (HR j r2 H2 C2) as (x2 & Hx2 & Hs2 & Cx2).
    apply (Hc i j x1 x2); try done. congruence.
Qed.

Lemma workflow_inv_same_commitments d d' :
  workflow_inv d →
  users d' = users d →
  same_commitments d d' →
  (∀ k doc', documents d' !! k = Some doc' →
             ∃ r, requests d !! requestId doc' = Some r
                  ∧ committed (status r)) →
  workflow_inv d'.
Proof.
  intros Hinv Hu Hsame Hdocs. apply (workflow_inv_preserved d d' Hinv).
  - intros i u Hi Hsome. rewrite Hu. eauto.
  - intros j r' Hr' Hcom. specialize (Hsame j). rewrite Hr' in Hsame.
    destruct (requests d !! j) as [r|]; [|done].
    destruct Hsame as [Hs Hiff]. exists r. split; [done|]. split; [done|].
    by apply Hiff.
  - intros k doc' Hk. destruct (Hdocs k doc' Hk) as (r & Hr & Hcom).
    specialize (Hsame (requestId doc')). rewrite Hr in Hsame.
    destruct (requests d' !! requestId doc') as [r'|]; [|done].
    exists r'. split; [done|]. by apply Hsame.
Qed.

(** Writing a status on one request, neither the old nor the new one
    changing whether the request commits. *)
Lemma same_commitments_alter d rid r st' rs' :
  requests d !! rid = Some r →
  (committed st' ↔ committed (status r)) →
  rs' = alter (set_status st') rid (requests d) →
  ∀ us ss ds, same_commitments d (mkDb us ss rs' ds).
Proof.
  intros Hr Hiff -> us ss ds j. simpl. rewrite lookup_alter.
  destruct (decide (rid = j)) as [<-|Hne].
  - rewrite Hr. simpl. done.
  - destruct (requests d !! j); done.
Qed.

Lemma same_commitments_refl d us ss ds :
  same_commitments d (mkDb us ss (requests d) ds).
Proof. intros j. simpl. destruct (requests d !! j); done. Qed.

Lemma workflow_inv_register d newId u :
  users d !! newId = None →
  workflow_inv d → workflow_inv (with_users (insert newId u) d).
Proof.
  intros Hnew Hinv. apply (workflow_inv_preserved d _ Hinv).
  - intros i v Hi Hsome. simpl.
    rewrite lookup_insert_ne by (intros ->; congruence). eauto.
  - intros j r' Hr' Hcom. simpl in Hr'. eauto.
  - by destruct Hinv as (_ & Hb & _).
Qed.

Lemma workflow_inv_delete_session d id :
  workflow_inv d →
  workflow_inv
    (mkDb (users d) (delete id (sessions d))
          (filter (request_outside id) (requests d))
          (filter (λ idoc, ¬ document_of_session (requests d) id idoc)
                  (documents d))).
Proof.
  intros Hinv. apply (workflow_inv_preserved d _ Hinv).
  - intros i u Hi Hsome. simpl. eauto.
  - intros j r' Hr' Hcom. simpl in Hr'.
    apply map_lookup_filter_Some in Hr' as [Hr' _]. eauto.
  - intros k doc Hk. simpl in Hk |- *.
    apply map_lookup_filter_Some in Hk as [Hk Hout].
    destruct Hinv as (_ & Hb & _).
    destruct (Hb k doc Hk) as (r & Hr & Hcom).
    exists r. split; [|done].
    apply map_lookup_filter_Some. split; [done|].
    unfold request_outside. simpl. intros Heq. apply Hout.
    unfold document_of_session. simpl. by rewrite Hr.
Qed.

Lemma workflow_inv_create_request d newId r :
  requests d !! newId = None →
  status r = pending →
  workflow_inv d → workflow_inv (with_requests (insert newId r) d).
Proof.
  intros Hnew Hpend Hinv. apply (workflow_inv_preserved d _ Hinv).
  - intros i u Hi Hsome. simpl. eauto.
  - intros j r' Hr' Hcom. simpl in Hr'.
    apply lookup_insert_Some in Hr' as [[<- <-]|[Hne Hr']].
    + rewrite Hpend in Hcom. destruct Hcom as [?|[?|?]]; done.
    + eauto.
  - intros k doc Hk. simpl in Hk |- *.
    destruct Hinv as (_ & Hb & _).
    destruct (Hb k doc Hk) as (x & Hx & Hcom).
    exists x. split; [|done].
    rewrite lookup_insert_ne; [done|]. intros ->. congruence.
Qed.

Lemma pending_not_committed st : st = pending → ¬ committed st.
Proof. intros -> [?|[?|?]]; done. Qed.

Lemma workflow_inv_reject d id this reason :
  requests d !! id = Some this →
  status this = pending →
  workflow_inv d → workflow_inv (reject d id reason).
Proof.
  intros Hthis Hpend Hinv.
  apply (workflow_inv_same_commitments d _ Hinv); [done| |].
  - intros j. simpl. rewrite lookup_alter.
    destruct (decide (id = j)) as [<-|Hne].
    + rewrite Hthis. simpl. split; [done|]. split.
      * intros [?|[?|?]]; done.
      * intros Hc. by apply pending_not_committed in Hc.
    + destruct (requests d !! j); done.
  - destruct Hinv as (_ & Hb & _). intros k doc Hk. by apply (Hb k).
Qed.

Lemma workflow_inv_cancel d id this ds :
  requests d !! id = Some this →
  status this = pending →
  (∀ k doc, ds !! k = Some doc → documents d !! k = Some doc) →
  workflow_inv d →
  workflow_inv (mkDb (users d) (sessions d) (delete id (requests d)) ds).
Proof.
  intros Hthis Hpend Hsub Hinv. apply (workflow_inv_preserved d _ Hinv).
  - intros i u Hi Hsome. simpl. eauto.
  - intros j r' Hr' Hcom. simpl in Hr'.
    apply lookup_delete_Some in Hr' as [_ Hr']. eauto.
  - intros k doc Hk. simpl in Hk |- *.
    destruct Hinv as (_ & Hb & _).
    destruct (Hb k doc (Hsub k doc Hk)) as (r & Hr & Hcom).
    exists r. split; [|done].
    rewrite lookup_delete_ne; [done|]. intros ->.
    assert (r = this) as -> by congruence.
    by apply pending_not_committed in Hcom.
Qed.

Lemma workflow_inv_upload_student d rid r newId doc :
  requests d !! rid = Some r →
  status r = approved →
  requestId doc = rid →
  workflow_inv d →
  workflow_inv (with_requests (alter (set_status document_pending) rid)
                  (with_documents (insert newId doc) d)).
Proof.
  intros Hr Hst Hdoc Hinv.
  assert (Hcom : committed (status r)) by (left; done).
  apply (workflow_inv_same_commitments d _ Hinv); [done| |].
  - apply (same_commitments_alter d rid r document_pending); [done| |done].
    split; [done|]. intros _. right; left. done.
  - intros k doc' Hk. simpl in Hk.
    apply lookup_insert_Some in Hk as [[<- <-]|[_ Hk]].
    + rewrite Hdoc. eauto.
    + destruct Hinv as (_ & Hb & _). by apply (Hb k).
Qed.

Lemma workflow_inv_upload_professor d rid r newId doc :
  requests d !! rid = Some r →
  status r = document_pending →
  requestId doc = rid →
  workflow_inv d →
  workflow_inv (with_documents (insert newId doc) d).
Proof.
  intros Hr Hst Hdoc Hinv.
  assert (Hcom : committed (status r)) by (right; left; done).
  apply (workflow_inv_same_commitments d _ Hinv); [done| |].
  - apply same_commitments_refl.
  - intros k doc' Hk. simpl in Hk.
    apply lookup_insert_Some in Hk as [[<- <-]|[_ Hk]].
    + rewrite Hdoc. eauto.
    + destruct Hinv as (_ & Hb & _). by apply (Hb k).
Qed.

Lemma workflow_inv_review d id doc st' f :
  documents d !! id = Some doc →
  committed st' →
  (∀ x, requestId (f x) = requestId x) →
  workflow_inv d →
  workflow_inv (mkDb (users d) (sessions d)
                     (alter (set_status st') (requestId doc) (requests d))
                     (alter f id (documents d))).
Proof.
  intros Hdoc Hst' Hf Hinv.
  destruct Hinv as (Ha & Hb & Hc).
  destruct (Hb id doc Hdoc) as (r & Hr & Hcom).
  apply (workflow_inv_same_commitments d _ (conj Ha (conj Hb Hc))); [done| |].
  - by apply (same_commitments_alter d (requestId doc) r st').
  - intros k doc' Hk. simpl in Hk. rewrite lookup_alter in Hk.
    destruct (decide (id = k)) as [<-|Hne].
    + rewrite Hdoc in Hk. simpl in Hk. injection Hk as <-.
      rewrite Hf. eauto.
    + by apply (Hb k).
Qed.

Lemma approved_db_requests d id this j :
  requests d !! id = Some this →
  requests (approved_db id this d) !! j
  = if decide (j = id) then Some (set_status approved this)
    else (λ r, if decide (studentId r = studentId this ∧ status r = pending)
               then set_rejected approved_by_another r else r)
           <$> requests d !! j.
Proof.
  intros Hthis. simpl. rewrite lookup_reject_siblings.
  destruct (decide (j = id)) as [->|Hne].
  - rewrite lookup_alter_eq, Hthis. simpl.
    rewrite decide_False; [done|]. intros (_ & ? & _). done.
  - rewrite lookup_alter_ne by done.
    destruct (requests d !! j) as [r|]; [|done]. simpl. f_equal.
    destruct (decide (studentId r = studentId this ∧ status r = pending))
      as [[? ?]|Hn].
    + by rewrite decide_True.
    + rewrite decide_False; [done|]. intros (? & _ & ?). by apply Hn.
Qed.

(** A committing request of the store after an approval is the approved
    one or was committing, unchanged, before. *)
Lemma approved_db_committed d id this j r' :
  requests d !! id = Some this →
  requests (approved_db id this d) !! j = Some r' →
  committed (status r') →
  (j = id ∧ r' = set_status approved this)
  ∨ (j ≠ id ∧ requests d !! j = Some r' ∧ committed (status r')).
Proof.
  intros Hthis Hr' Hcom. rewrite (approved_db_requests d id this j Hthis) in Hr'.
  destruct (decide (j = id)) as [->|Hne].
  - left. split; [done|]. congruence.
  - right. split; [done|].
    destruct (requests d !! j) as [r|]; [|done]. simpl in Hr'.
    destruct (decide (studentId r = studentId this ∧ status r = pending)).
    + injection Hr' as <-. simpl in Hcom.
      destruct Hcom as [?|[?|?]]; done.
    + injection Hr' as <-. done.
Qed.

Lemma workflow_inv_approved d id this :
  requests d !! id = Some this →
  status this = pending →
  canBeApproved d this = None →
  workflow_inv d → workflow_inv (approved_db id this d).
Proof.
  intros Hthis Hpend (st & p & Hst & Hnone & Hp & Hlt)%canBeApproved_None
    (Ha & Hb & Hc).
  assert (Hfresh : ∀ j r, requests d !! j = Some r → committed (status r) →
                          studentId r ≠ studentId this).
  { intros j r Hr Hcom Heq. destruct (Ha j r Hr Hcom) as (u & Hu & Hsome).
    rewrite Heq, Hst in Hu. injection Hu as <-.
    rewrite Hnone in Hsome. by destruct Hsome. }
  assert (Hrecorded : ∀ i u, users d !! i = Some u →
            is_Some (approvedProfessorId u) ∨ i = studentId this →
            ∃ u', users (approved_db id this d) !! i = Some u'
                  ∧ is_Some (approvedProfessorId u')).
  { intros i u Hu Hor. rewrite approved_db_users, Hu. simpl.
    eexists; split; [done|].
    destruct (decide (i = professorId this));
      destruct (decide (i = studentId this)); simpl; eauto;
      destruct Hor; done. }
  split; [|split].
  - intros j r' Hr' Hcom.
    destruct (approved_db_committed d id this j r' Hthis Hr' Hcom)
      as [[-> ->]|(Hne & Hr & _)].
    + simpl. apply (Hrecorded _ st Hst). by right.
    + destruct (Ha j r' Hr Hcom) as (u & Hu & Hsome).
      apply (Hrecorded _ u Hu). by left.
  - intros k doc Hk. simpl in Hk.
    destruct (Hb k doc Hk) as (r & Hr & Hcom). exists r. split; [|done].
    rewrite (approved_db_requests d id this _ Hthis).
    rewrite decide_False.
    + rewrite Hr. simpl. rewrite decide_False; [done|].
      intros [_ Hp']. by apply pending_not_committed in Hcom.
    + intros Heq. rewrite Heq, Hthis in Hr. injection Hr as <-.
      by apply pending_not_committed in Hcom.
  - intros i j r1 r2 H1 H2 Hs C1 C2.
    destruct (approved_db_committed d id this i r1 Hthis H1 C1)
      as [[-> ->]|(Hi & Hr1 & _)];
      destruct (approved_db_committed d id this j r2 Hthis H2 C2)
        as [[-> ->]|(Hj & Hr2 & _)].
    + done.
    + exfalso. apply (Hfresh j r2 Hr2 C2). by rewrite <- Hs.
    + exfalso. apply (Hfresh i r1 Hr1 C1). by rewrite Hs.
    + by apply (Hc i j r1 r2).
Qed.

Lemma no_new_commitment_same d d' :
  requests d' = requests d → no_new_commitment d d'.
Proof. intros Heq j r' Hr' Hcom. rewrite Heq in Hr'. eauto. Qed.

Lemma no_new_commitment_same_commitments d d' :
  same_commitments d d' → no_new_commitment d d'.
Proof.
  intros Hsame j r' Hr' Hcom. specialize (Hsame j). rewrite Hr' in Hsame.
  destruct (requests d !! j) as [r|]; [|done].
  exists r. split; [done|]. by apply Hsame.
Qed.

Lemma no_new_commitment_subset d d' :
  (∀ j r', requests d' !! j = Some r' → requests d !! j = Some r') →
  no_new_commitment d d'.
Proof. intros Hsub j r' Hr' Hcom. eauto. Qed.

(** One step keeps [workflow_inv], and either commits no new request or
    is a successful approval of a pending request. *)
Lemma workflow_step onDelete d o :
  workflow_inv d →
  workflow_inv (step onDelete d o).2
  ∧ (no_new_commitment d (step onDelete d o).2
     ∨ ∃ actor id fault this,
         o = ApproveRequest actor id fault
         ∧ requests d !! id = Some this
         ∧ status this = pending
         ∧ canBeApproved d this = None
         ∧ step onDelete d o = (OK, approved_db id this d)).
Proof.
  intros Hinv.
  assert (Hsame : workflow_inv d ∧ (no_new_commitment d d ∨ False)).
  { split; [done|]. left. by apply no_new_commitment_same. }
  assert (Hso : ∀ d', sessions_only d d' →
                      workflow_inv d' ∧ no_new_commitment d d').
  { intros d' Hd'. split; [by apply (workflow_inv_sessions_only d)|].
    apply no_new_commitment_same. by destruct Hd' as (_ & ? & _). }
  destruct o; simpl.
  - destruct (register_cases newId b d) as [[e ->]|(u & Hn & _ & _ & _ & ->)].
    + split; [done|]. left. by apply no_new_commitment_same.
    + split; [by apply workflow_inv_register|].
      left. by apply no_new_commitment_same.
  - destruct (authenticated_cases d actor (Some professor)
      (λ _, createSession actor tempId newId now b d)) as [[e ->]|(u & _ & ->)].
    + split; [done|]. left. by apply no_new_commitment_same.
    + destruct (Hso _ (createSession_sessions_only actor tempId newId now b d)).
      split; [done|by left].
  - destruct (authenticated_cases d actor (Some professor)
      (λ _, updateSession actor id now p d)) as [[e ->]|(u & _ & ->)].
    + split; [done|]. left. by apply no_new_commitment_same.
    + destruct (Hso _ (updateSession_sessions_only actor id now p d)).
      split; [done|by left].
  - destruct (authenticated_cases d actor (Some professor)
      (λ _, deleteSession onDelete actor id d)) as [[e ->]|(u & _ & ->)].
    + split; [done|]. left. by apply no_new_commitment_same.
    + destruct (deleteSession_cases onDelete actor id d)
        as [[e ->]|(_ & [[_ ->]| ->])].
      * split; [done|]. left. by apply no_new_commitment_same.
      * split; [by apply workflow_inv_delete_session|]. left.
        apply no_new_commitment_subset. intros j r' Hr'. simpl in Hr'.
        by apply map_lookup_filter_Some in Hr' as [? _].
      * destruct (Hso (with_sessions (delete id) d)); [by repeat split|].
        split; [done|by left].
  - destruct (Hso _ (getSessionById_sessions_only id now d)).
    split; [done|by left].
  - destruct (Hso _ (listSessions_sessions_only now d)).
    split; [done|by left].
  - destruct (authenticated_cases d actor (Some student)
      (λ user, createRequest actor user newId now b d))
      as [[e ->]|(u & _ & ->)].
    + split; [done|]. left. by apply no_new_commitment_same.
    + destruct (createRequest_cases actor u newId now b d)
        as (d1 & Hd1 & [[e ->]|(r & Hn & Hp & ->)]).
      * destruct (Hso _ Hd1). split; [done|by left].
      * destruct (Hso _ Hd1) as [Hinv1 _].
        assert (Hn1 : requests d1 !! newId = None)
          by (destruct Hd1 as (_ & -> & _); done).
        split; [by apply workflow_inv_create_request|]. left.
        intros j r' Hr' Hcom. simpl in Hr'.
        apply lookup_insert_Some in Hr' as [[<- <-]|[_ Hr']].
        -- rewrite Hp in Hcom. by apply pending_not_committed in Hcom.
        -- destruct Hd1 as (_ & Hreq & _). rewrite Hreq in Hr'. eauto.
  - destruct (authenticated_cases d actor (Some professor)
      (λ _, approveRequest fault actor id d)) as [[e ->]|(u & _ & ->)].
    + split; [done|]. left. by apply no_new_commitment_same.
    + destruct (approveRequest_cases fault actor id d)
        as [[e ->]|(this & Hthis & _ & Hp & Hg & He)].
      * split; [done|]. left. by apply no_new_commitment_same.
      * rewrite He. split; [by apply workflow_inv_approved|].
        right. exists actor, id, fault, this. by repeat split.
  - destruct (authenticated_cases d actor (Some professor)
      (λ _, rejectRequest actor id reason d)) as [[e ->]|(u & _ & ->)].
    + split; [done|]. left. by apply no_new_commitment_same.
    + destruct (rejectRequest_cases actor id reason d)
        as [[e ->]|(this & Hthis & Hp & ->)].
      * split; [done|]. left. by apply no_new_commitment_same.
      * split; [by apply (workflow_inv_reject d id this)|]. left.
        intros j r' Hr' Hcom. simpl in Hr'. rewrite lookup_alter in Hr'.
        destruct (decide (id = j)) as [<-|Hne]; [|eauto].
        rewrite Hthis in Hr'. injection Hr' as <-.
        destruct Hcom as [?|[?|?]]; done.
  - destruct (authenticated_cases d actor (Some student)
      (λ _, cancelRequest onDelete actor id d)) as [[e ->]|(u & _ & ->)].
    + split; [done|]. left. by apply no_new_commitment_same.
    + destruct (cancelRequest_cases onDelete actor id d)
        as [[e ->]|(this & Hthis & Hp & [[_ ->]|[_ ->]])].
      * split; [done|]. left. by apply no_new_commitment_same.
      * split.
        -- apply (workflow_inv_cancel d id this); try done.
           intros k doc Hk. by apply map_lookup_filter_Some in Hk as [? _].
        -- left. apply no_new_commitment_subset. intros j r' Hr'.
           simpl in Hr'. by apply lookup_delete_Some in Hr' as [_ ?].
      * split.
        -- by apply (workflow_inv_cancel d id this (documents d)).
        -- left. apply no_new_commitment_subset. intros j r' Hr'.
           simpl in Hr'. by apply lookup_delete_Some in Hr' as [_ ?].
  - destruct (authenticated_cases d actor None
      (λ user, uploadDocument actor user file rid newId d))
      as [[e ->]|(u & _ & ->)].
    + split; [done|]. left. by apply no_new_commitment_same.
    + destruct (uploadDocument_cases actor u file rid newId d)
        as [[e ->]|(r & doc & Hr & _ & Hdoc & [[Hst ->]|[Hst ->]])].
      * split; [done|]. left. by apply no_new_commitment_same.
      * split; [by apply (workflow_inv_upload_student d rid r)|]. left.
        apply no_new_commitment_same_commitments.
        apply (same_commitments_alter d rid r document_pending); [done| |done].
        rewrite Hst. split; intros _; [by left|by right; left].
      * split; [by apply (workflow_inv_upload_professor d rid r)|]. left.
        by apply no_new_commitment_same.
  - destruct (authenticated_cases d actor (Some professor)
      (λ _, acceptDocument fault actor id d)) as [[e ->]|(u & _ & ->)].
    + split; [done|]. left. by apply no_new_commitment_same.
    + destruct (acceptDocument_cases fault actor id d)
        as [[e ->]|(doc & r & Hdoc & Hr & ->)].
      * split; [done|]. left. by apply no_new_commitment_same.
      * assert (Hc : committed completed) by (right; right; done).
        assert (Hrc : committed (status r)).
        { destruct Hinv as (_ & Hb & _).
          destruct (Hb id doc Hdoc) as (r0 & Hr0 & ?). congruence. }
        split; [by apply (workflow_inv_review d id doc completed)|]. left.
        apply no_new_commitment_same_commitments.
        by apply (same_commitments_alter d (requestId doc) r completed).
  - destruct (authenticated_cases d actor (Some professor)
      (λ _, rejectDocument fault actor id reason d)) as [[e ->]|(u & _ & ->)].
    + split; [done|]. left. by apply no_new_commitment_same.
    + destruct (rejectDocument_result fault actor id reason d)
        as [[e ->]|(doc & r & Hdoc & Hr & ->)].
      * split; [done|]. left. by apply no_new_commitment_same.
      * assert (Hc : committed approved) by (left; done).
        assert (Hrc : committed (status r)).
        { destruct Hinv as (_ & Hb & _).
          destruct (Hb id doc Hdoc) as (r0 & Hr0 & ?). congruence. }
        split; [by apply (workflow_inv_review d id doc approved)|]. left.
        apply no_new_commitment_same_commitments.
        by apply (same_commitments_alter d (requestId doc) r approved).
Qed.

Lemma workflow_inv_run onDelete d ops :
  workflow_inv d → workflow_inv (run onDelete d ops).
Proof.
  revert d. induction ops as [|o ops IH]; intros d Hinv; [done|].
  simpl. apply IH. by apply workflow_step.
Qed.

(** C5. In every store reached from the empty one, no student has two
    requests among approved, waiting on a document and completed.  The
    only step that makes a request commit is a successful approval of a
    pending request, whose guard found the student without an approved
    professor and whose transaction rejects, in the same unit, every other
    pending request of the student. *)
Theorem one_committed_request (onDelete : fk_action) (ops : list op) :
  one_commitment (run onDelete empty_db ops)
  ∧ ∀ o j r',
      requests (step onDelete (run onDelete empty_db ops) o).2 !! j = Some r' →
      committed (status r') →
      (∃ r, requests (run onDelete empty_db ops) !! j = Some r
            ∧ committed (status r))
      ∨ (∃ actor fault this st,
           o = ApproveRequest actor j fault
           ∧ (step onDelete (run onDelete empty_db ops) o).1 = OK
           ∧ requests (run onDelete empty_db ops) !! j = Some this
           ∧ status this = pending
           ∧ users (run onDelete empty_db ops) !! studentId this = Some st
           ∧ approvedProfessorId st = None
           ∧ ∀ k r, k ≠ j →
                    requests (step onDelete (run onDelete empty_db ops) o).2
                      !! k = Some r →
                    studentId r = studentId this → status r ≠ pending).
Proof.
  pose proof (workflow_inv_run onDelete empty_db ops workflow_inv_empty)
    as Hinv.
  set (d := run onDelete empty_db ops) in *.
  split; [by destruct Hinv as (_ & _ & ?)|].
  intros o j r' Hr' Hcom.
  destruct (workflow_step onDelete d o Hinv)
    as [_ [Hnnc|(actor & id & fault & this & -> & Hthis & Hp & Hg & He)]].
  - left. by apply (Hnnc j r').
  - rewrite He in Hr' |- *. cbn [fst snd] in Hr' |- *.
    destruct (approved_db_committed d id this j r' Hthis Hr' Hcom)
      as [[-> ->]|(Hne & Hr & _)]; [|eauto].
    right. pose proof Hg as (st & p & Hst & Hnone & _)%canBeApproved_None.
    exists actor, fault, this, st. repeat split; try done.
    intros k r Hk Hr Hs.
    rewrite (approved_db_requests d id this k Hthis) in Hr.
    rewrite decide_False in Hr by done.
    destruct (requests d !! k) as [x|]; [|done]. simpl in Hr.
    destruct (decide (studentId x = studentId this ∧ status x = pending))
      as [|Hn].
    + injection Hr as <-. done.
    + injection Hr as <-. intros Hpend. by apply Hn.
Qed.


Lemma one_committed_request_witness :
  (∃ r, requests submitted_db !! 20%nat = Some r ∧ committed (status r))
  ∨ (∃ actor fault this st,
       ApproveRequest 1 20 None = ApproveRequest actor 20 fault
       ∧ (step CASCADE submitted_db (ApproveRequest 1 20 None)).1 = OK
       ∧ requests submitted_db !! 20%nat = Some this
       ∧ status this = pending
       ∧ users submitted_db !! studentId this = Some st
       ∧ approvedProfessorId st = None
       ∧ ∀ k r, k ≠ 20%nat →
                requests (step CASCADE submitted_db
                            (ApproveRequest 1 20 None)).2 !! k = Some r →
                studentId r = studentId this → status r ≠ pending).
Proof.
  apply (proj2 (one_committed_request CASCADE (take 6 overbooking_trace))
           (ApproveRequest 1 20 None) 20%nat (set_status approved ana_request)).
  - reflexivity.
  - left. reflexivity.
Defined.

(** ** Slot bounds under [updateSession] *)

Lemma apply_patch_slots p s :
  0 ≤ availableSlots s ≤ maxSlots s →
  validate_session (apply_patch p s) = None →
  0 ≤ availableSlots (apply_patch p s) ≤ maxSlots (apply_patch p s).
Proof.
  intros Hb. unfold validate_session, apply_patch. simpl.
  destruct (patch_maxSlots p) as [m|]; simpl; [|lia].
  destruct (decide (m = 0)); simpl; [lia|].
  destruct (decide (m < 1)); [done|]. lia.
Qed.

(** [updateSession] keeps [0 ≤ availableSlots ≤ maxSlots]: the new
    [availableSlots] is floored at zero and never exceeds the new
    [maxSlots]. *)
Lemma updateSession_slots uid id now p d :
  slots_inv d → slots_inv (updateSession uid id now p d).2.
Proof.
  intros Hinv. unfold updateSession.
  destruct (sessions d !! id) as [s|] eqn:Hs; [|done].
  destruct (decide (sessionProfessorId s ≠ uid)); [done|].
  destruct (_ && _); [done|].
  destruct (validate_session (apply_patch p s)) eqn:Hv; [done|].
  cbn [snd]. intros i x.
  pose proof (updateStatus_frame now
                (with_sessions (insert id (apply_patch p s)) d) id
                (apply_patch p s)) as (_ & _ & _ & Hse).
  rewrite Hse. simpl. rewrite lookup_insert.
  assert (Hp := apply_patch_slots p s (Hinv id s Hs) Hv).
  destruct (decide (id = i)) as [<-|Hne]; simpl.
  - intros [= <-]. by destruct (decide _).
  - destruct (sessions d !! i) as [y|] eqn:Hy; [|done]. simpl.
    intros [= <-]. specialize (Hinv i y Hy). by destruct (decide _).
Qed.

(** [updateProfile], which is not an operation of the workflow, can lower
    [maxStudents] under the count of students already accepted. *)
Lemma updateProfile_lowers_capacity :
  let u := mkUser "Pop" professor None 5 3 in
  let d := mkDb {[1%nat := u]} ∅ ∅ ∅ in
  (updateProfile 1 u None (Some 1) d).1 = OK
  ∧ users (updateProfile 1 u None (Some 1) d).2 !! 1%nat
    = Some (mkUser "Pop" professor None 1 3).
Proof. vm_compute. split; reflexivity. Qed.

(** * Further properties of the handlers *)

(** ** Sessions: slots, deletion *)

(** X1. [updateSession] keeps [0 ≤ availableSlots ≤ maxSlots] on every
    session, and an accepted change of [maxSlots] to [m] stores [m], which
    is at least 1, and moves [availableSlots] by the same difference,
    floored at zero. *)
Theorem updateSession_slot_bounds (uid id : nat) (now : Z) (p : session_patch)
    (d : db) :
  slots_inv d →
  slots_inv (updateSession uid id now p d).2
  ∧ ∀ s m,
      sessions d !! id = Some s →
      patch_maxSlots p = Some m → m ≠ 0 →
      (updateSession uid id now p d).1 = OK →
      ∃ s', sessions (updateSession uid id now p d).2 !! id = Some s'
            ∧ 1 ≤ m
            ∧ maxSlots s' = m
            ∧ availableSlots s'
              = Z.max 0 (availableSlots s + (m - maxSlots s)).
Proof.
  intros Hinv. split.
  - unfold updateSession.
    destruct (sessions d !! id) as [s|] eqn:Hs; [|done].
    destruct (decide (sessionProfessorId s ≠ uid)); [done|].
    destruct (_ && _); [done|].
    destruct (validate_session (apply_patch p s)) eqn:Hv; [done|].
    cbn [snd]. intros i x.
    pose proof (updateStatus_frame now
                  (with_sessions (insert id (apply_patch p s)) d) id
                  (apply_patch p s)) as (_ & _ & _ & Hse).
    rewrite Hse. simpl. rewrite lookup_insert.
    assert (Hp := apply_patch_slots p s (Hinv id s Hs) Hv).
    destruct (decide (id = i)) as [<-|Hne]; simpl.
    + intros [= <-]. by destruct (decide _).
    + destruct (sessions d !! i) as [y|] eqn:Hy; [|done]. simpl.
      intros [= <-]. specialize (Hinv i y Hy). by destruct (decide _).
  - intros s m Hs Hm Hm0. unfold updateSession. rewrite Hs.
    destruct (decide (sessionProfessorId s ≠ uid)); [done|].
    destruct (_ && _); [done|].
    destruct (validate_session (apply_patch p s)) eqn:Hv; [done|].
    intros _. cbn [snd].
    rewrite (updateStatus_lookup now _ id (apply_patch p s))
      by (simpl; apply lookup_insert_eq).
    eexists. split; [done|].
    unfold validate_session, apply_patch in Hv |- *. rewrite Hm in Hv |- *.
    simpl in Hv |- *.
    destruct (decide (m = 0)); [done|]. simpl in Hv |- *.
    destruct (decide (m < 1)); [done|]. repeat split. lia.
Qed.

Lemma updateSession_slot_bounds_witness :
  ∃ s', sessions (updateSession 1 10 5 (mkSessionPatch None None None (Some 3))
                    submitted_db).2 !! 10%nat = Some s'
        ∧ 1 ≤ 3
        ∧ maxSlots s' = 3
        ∧ availableSlots s' = Z.max 0 (1 + (3 - 1)).
Proof.
  assert (Hinv : slots_inv submitted_db).
  { intros i s Hs.
    destruct (decide (i = 10%nat)) as [->|Hne].
    - vm_compute in Hs. injection Hs as <-. simpl. lia.
    - exfalso.
      assert (Hd : sessions submitted_db
                   = {[10%nat := mkSession 1 "Spring" 0 10 active 1 1]})
        by (apply map_eq; intros k; vm_compute; reflexivity).
      rewrite Hd, lookup_singleton_ne in Hs by done. done. }
  apply (proj2 (updateSession_slot_bounds 1 10 5
                  (mkSessionPatch None None None (Some 3)) submitted_db Hinv)
               (mkSession 1 "Spring" 0 10 active 1 1) 3);
    [reflexivity|reflexivity|lia|reflexivity].
Defined.

(** X2. [deleteSession] by the owner refuses a session that has an
    approved, document-pending or completed request and writes nothing.
    When it succeeds the session is gone, no actor row has changed, every
    committing request of the store is still there, and no request of the
    deleted session is left.  Under a cascading store the deletion of a
    session without committing requests always succeeds. *)
Theorem deleteSession_guard (onDelete : fk_action) (uid id : nat) (d : db)
    (s : RegistrationSession) :
  sessions d !! id = Some s →
  sessionProfessorId s = uid →
  ((∃ j r, requests d !! j = Some r ∧ sessionId r = id
           ∧ committed (status r)) →
   deleteSession onDelete uid id d = (Failed SessionHasApprovedRequests, d))
  ∧ (∀ d', deleteSession onDelete uid id d = (OK, d') →
           sessions d' = delete id (sessions d)
           ∧ users d' = users d
           ∧ (∀ j r, requests d !! j = Some r → committed (status r) →
                     requests d' !! j = Some r)
           ∧ (∀ j r, requests d' !! j = Some r →
                     requests d !! j = Some r ∧ sessionId r ≠ id))
  ∧ (onDelete = CASCADE →
     ¬ (∃ j r, requests d !! j = Some r ∧ sessionId r = id
               ∧ committed (status r)) →
     (deleteSession onDelete uid id d).1 = OK).
Proof.
  intros Hs Hown. unfold deleteSession. rewrite Hs.
  rewrite decide_False by (intros ?; done).
  split; [|split].
  - intros (j & r & Hr & Hsid & Hcom).
    rewrite bool_decide_eq_true_2; [done|].
    apply map_Exists_lookup. eauto.
  - intros d'. destruct (bool_decide _) eqn:Hb; [done|].
    apply bool_decide_eq_false in Hb.
    assert (Hnone : ∀ j r, requests d !! j = Some r → committed (status r) →
                           sessionId r ≠ id).
    { intros j r Hr Hcom Hsid. apply Hb. apply map_Exists_lookup. eauto. }
    unfold destroy_session. destruct onDelete.
    + intros [= <-]. simpl. repeat split; try done.
      * intros j r Hr Hcom. apply map_lookup_filter_Some. split; [done|].
        by apply (Hnone j r).
      * by apply map_lookup_filter_Some in H as [? _].
      * by apply map_lookup_filter_Some in H as [_ ?].
    + destruct (bool_decide _) eqn:Hb2; [done|].
      apply bool_decide_eq_false in Hb2.
      intros [= <-]. simpl. repeat split; try done.
      intros Hsid. apply Hb2. apply map_Exists_lookup. eauto.
  - intros -> Hno. rewrite bool_decide_eq_false_2; [done|].
    intros (j & r & Hr & Hsid & Hcom)%map_Exists_lookup. apply Hno. eauto.
Qed.

Lemma deleteSession_guard_witness :
  deleteSession CASCADE 1 10 full_session_db
  = (Failed SessionHasApprovedRequests, full_session_db).
Proof.
  apply (proj1 (deleteSession_guard CASCADE 1 10 full_session_db
                  (mkSession 1 "Spring" 0 10 active 1 0) eq_refl eq_refl)).
  exists 20%nat, (set_status approved ana_request).
  split; [reflexivity|]. split; [reflexivity|]. left. reflexivity.
Defined.

(** ** Requests: decisions *)

(** X3. A decision on a request is final.  After [approveRequest] or
    [rejectRequest] has succeeded on a request, a further approval or
    rejection by the same professor and a cancellation by the student all
    fail with the not-pending answer and write nothing. *)
Theorem decided_request_is_final (fault : option nat) (uid id : nat)
    (reason : string) (d d' : db) (r : CoordinationRequest) :
  requests d !! id = Some r →
  approveRequest fault uid id d = (OK, d')
  ∨ rejectRequest uid id reason d = (OK, d') →
  ∀ (fault' : option nat) (reason' : string) (onDelete : fk_action),
    approveRequest fault' uid id d' = (Failed RequestNotPending, d')
    ∧ (is_blank reason' = false →
       rejectRequest uid id reason' d' = (Failed RequestNotPending, d'))
    ∧ cancelRequest onDelete (studentId r) id d'
      = (Failed RequestNotPending, d').
Proof.
  intros Hr Hdone.
  assert (∃ r', requests d' !! id = Some r'
                ∧ professorId r' = uid
                ∧ studentId r' = studentId r
                ∧ status r' ≠ pending) as (r' & Hr' & Hp & Hs & Hst).
  { destruct Hdone as [Ha|Hj].
    - destruct (approveRequest_cases fault uid id d)
        as [[e He]|(this & Hthis & Hp & _ & _ & He)]; [congruence|].
      rewrite He in Ha. injection Ha as <-.
      assert (this = r) as -> by congruence.
      exists (set_status approved r).
      rewrite (approved_db_requests d id r id Hr), decide_True by done.
      by repeat split.
    - unfold rejectRequest in Hj. destruct (is_blank reason); [done|].
      rewrite Hr in Hj.
      destruct (decide (professorId r ≠ uid)) as [|Hp]; [done|].
      destruct (decide (status r ≠ pending)); [done|].
      injection Hj as <-. exists (set_rejected reason r).
      simpl. rewrite lookup_alter_eq, Hr. repeat split; try done.
      by destruct (decide (professorId r = uid)). }
  intros fault' reason' onDelete. split; [|split].
  - unfold approveRequest. rewrite Hr'.
    rewrite decide_False by (intros ?; done). by rewrite decide_True.
  - intros Hb. unfold rejectRequest. rewrite Hb, Hr'.
    rewrite decide_False by (intros ?; done). by rewrite decide_True.
  - unfold cancelRequest. rewrite Hr'.
    rewrite decide_False by (intros ?; done). by rewrite decide_True.
Qed.

Lemma decided_request_is_final_witness :
  approveRequest None 1 20
    (reject submitted_db 20 "topic too broad")
  = (Failed RequestNotPending, reject submitted_db 20 "topic too broad")
  ∧ (is_blank "again" = false →
     rejectRequest 1 20 "again" (reject submitted_db 20 "topic too broad")
     = (Failed RequestNotPending, reject submitted_db 20 "topic too broad"))
  ∧ cancelRequest CASCADE (studentId ana_request) 20
      (reject submitted_db 20 "topic too broad")
    = (Failed RequestNotPending, reject submitted_db 20 "topic too broad").
Proof.
  apply (decided_request_is_final None 1 20 "topic too broad" submitted_db
           (reject submitted_db 20 "topic too broad") ana_request eq_refl
           (or_intror eq_refl) None "again" CASCADE).
Defined.

(** X4. A rejection that succeeds was asked by the professor of a pending
    request with a reason that is not blank; it stores the request as
    rejected with that reason and touches no other request, no actor, no
    session and no document. *)
Theorem rejectRequest_effect (uid id : nat) (reason : string) (d d' : db) :
  rejectRequest uid id reason d = (OK, d') →
  ∃ r, requests d !! id = Some r
       ∧ status r = pending
       ∧ professorId r = uid
       ∧ is_blank reason = false
       ∧ (∃ r', requests d' !! id = Some r'
                ∧ status r' = rejected
                ∧ rejectionReason r' = Some reason
                ∧ same_request_parties r r')
       ∧ (∀ j, j ≠ id → requests d' !! j = requests d !! j)
       ∧ users d' = users d
       ∧ sessions d' = sessions d
       ∧ documents d' = documents d.
Proof.
  unfold rejectRequest. destruct (is_blank reason) eqn:Hb; [done|].
  destruct (requests d !! id) as [r|] eqn:Hr; [|done].
  destruct (decide (professorId r ≠ uid)) as [|Hp]; [done|].
  destruct (decide (status r ≠ pending)) as [|Hs]; [done|].
  intros [= <-]. exists r. simpl.
  split; [done|].
  split; [by destruct (decide (status r = pending))|].
  split; [by destruct (decide (professorId r = uid))|].
  split; [done|].
  split.
  { rewrite lookup_alter_eq, Hr. simpl.
    eexists. split; [done|]. by repeat split. }
  split; [|done]. intros j Hne. by rewrite lookup_alter_ne.
Qed.

Lemma rejectRequest_effect_witness :
  ∃ r, requests submitted_db !! 20%nat = Some r
       ∧ status r = pending
       ∧ professorId r = 1%nat
       ∧ is_blank "topic too broad" = false
       ∧ (∃ r', requests (reject submitted_db 20 "topic too broad") !! 20%nat
                = Some r'
                ∧ status r' = rejected
                ∧ rejectionReason r' = Some "topic too broad"
                ∧ same_request_parties r r')
       ∧ (∀ j, j ≠ 20%nat →
               requests (reject submitted_db 20 "topic too broad") !! j
               = requests submitted_db !! j)
       ∧ users (reject submitted_db 20 "topic too broad") = users submitted_db
       ∧ sessions (reject submitted_db 20 "topic too broad")
         = sessions submitted_db
       ∧ documents (reject submitted_db 20 "topic too broad")
         = documents submitted_db.
Proof.
  apply (rejectRequest_effect 1 20 "topic too broad" submitted_db
           (reject submitted_db 20 "topic too broad") eq_refl).
Defined.

(** X5. A cancellation that succeeds was asked by the student of a pending
    request; the request is removed, the documents left are those that do
    not belong to it, and no actor and no session has changed. *)
Theorem cancelRequest_effect (onDelete : fk_action) (uid id : nat) (d d' : db) :
  cancelRequest onDelete uid id d = (OK, d') →
  ∃ r, requests d !! id = Some r
       ∧ status r = pending
       ∧ studentId r = uid
       ∧ requests d' = delete id (requests d)
       ∧ (∀ k doc, documents d' !! k = Some doc ↔
                   documents d !! k = Some doc ∧ requestId doc ≠ id)
       ∧ users d' = users d
       ∧ sessions d' = sessions d.
Proof.
  unfold cancelRequest.
  destruct (requests d !! id) as [r|] eqn:Hr; [|done].
  destruct (decide (studentId r ≠ uid)) as [|Hs]; [done|].
  destruct (decide (status r ≠ pending)) as [|Hp]; [done|].
  intros Hd. exists r.
  split; [done|].
  split; [by destruct (decide (status r = pending))|].
  split; [by destruct (decide (studentId r = uid))|].
  unfold destroy_request in Hd. destruct onDelete.
  - injection Hd as <-. simpl. split; [done|]. split; [|done].
    intros k doc. by rewrite map_lookup_filter_Some.
  - destruct (bool_decide _) eqn:Hb; [done|].
    apply bool_decide_eq_false in Hb.
    injection Hd as <-. simpl. split; [done|]. split; [|done].
    intros k doc. split; [|by intros [? _]].
    intros Hk. split; [done|]. intros Hid. apply Hb.
    apply map_Exists_lookup. eauto.
Qed.

Lemma cancelRequest_effect_witness :
  ∃ r, requests submitted_db !! 21%nat = Some r
       ∧ status r = pending
       ∧ studentId r = 3%nat
       ∧ requests (cancelRequest CASCADE 3 21 submitted_db).2
         = delete 21%nat (requests submitted_db)
       ∧ (∀ k doc,
            documents (cancelRequest CASCADE 3 21 submitted_db).2 !! k
            = Some doc ↔
            documents submitted_db !! k = Some doc ∧ requestId doc ≠ 21%nat)
       ∧ users (cancelRequest CASCADE 3 21 submitted_db).2
         = users submitted_db
       ∧ sessions (cancelRequest CASCADE 3 21 submitted_db).2
         = sessions submitted_db.
Proof.
  apply (cancelRequest_effect CASCADE 3 21 submitted_db
           (cancelRequest CASCADE 3 21 submitted_db).2 eq_refl).
Defined.

(** ** Actors *)

(** X6. [updateProfile] never looks at [currentStudentCount]: a professor
    who asks for a capacity [m] between 1 and 50 gets it, with the counter
    as it was and no other row touched, so that a capacity below the number
    of students already accepted is stored; for a student the capacity
    asked for is ignored. *)
Theorem updateProfile_ignores_count (uid : nat) (user : User)
    (newName : option string) (m : Z) (d : db) :
  (userRole user = professor → 1 ≤ m ≤ 50 →
   ∃ d' u', updateProfile uid user newName (Some m) d = (OK, d')
            ∧ users d' !! uid = Some u'
            ∧ maxStudents u' = m
            ∧ currentStudentCount u' = currentStudentCount user
            ∧ approvedProfessorId u' = approvedProfessorId user
            ∧ userRole u' = professor
            ∧ (∀ j, j ≠ uid → users d' !! j = users d !! j)
            ∧ sessions d' = sessions d
            ∧ requests d' = requests d
            ∧ documents d' = documents d
            ∧ (m < currentStudentCount user → ¬ capacity_inv d'))
  ∧ (userRole user = student →
     ∀ u', users (updateProfile uid user newName (Some m) d).2 !! uid
           = Some u' →
           (updateProfile uid user newName (Some m) d).1 = OK →
           maxStudents u' = maxStudents user).
Proof.
  split.
  - intros Hrole Hm. unfold updateProfile, validate_user. rewrite Hrole.
    simpl. rewrite (decide_False (P := m = 0)) by lia.
    rewrite decide_True by lia.
    eexists _, _. split; [done|]. simpl.
    split; [by rewrite lookup_insert_eq|]. simpl.
    do 4 (split; [done|]).
    split; [intros j Hj; by rewrite lookup_insert_ne|].
    do 3 (split; [done|]).
    intros Hlt Hinv.
    specialize (Hinv uid _ (lookup_insert_eq _ _ _)). simpl in Hinv. lia.
  - intros Hrole u'. unfold updateProfile, validate_user. rewrite Hrole.
    simpl. destruct (decide (1 ≤ maxStudents user ≤ 50)); [|done].
    simpl. rewrite lookup_insert_eq. by intros [= <-].
Qed.

Lemma updateProfile_ignores_count_witness :
  ∃ d' u', updateProfile 1 (mkUser "Pop" professor None 5 3) None (Some 2)
             (mkDb {[1%nat := mkUser "Pop" professor None 5 3]} ∅ ∅ ∅)
           = (OK, d')
           ∧ users d' !! 1%nat = Some u'
           ∧ maxStudents u' = 2
           ∧ currentStudentCount u' = 3
           ∧ approvedProfessorId u' = None
           ∧ userRole u' = professor
           ∧ (∀ j, j ≠ 1%nat →
                   users d' !! j
                   = users (mkDb {[1%nat := mkUser "Pop" professor None 5 3]}
                                 ∅ ∅ ∅) !! j)
           ∧ sessions d'
             = sessions (mkDb {[1%nat := mkUser "Pop" professor None 5 3]}
                              ∅ ∅ ∅)
           ∧ requests d'
             = requests (mkDb {[1%nat := mkUser "Pop" professor None 5 3]}
                              ∅ ∅ ∅)
           ∧ documents d'
             = documents (mkDb {[1%nat := mkUser "Pop" professor None 5 3]}
                               ∅ ∅ ∅)
           ∧ (2 < 3 → ¬ capacity_inv d').
Proof.
  apply (proj1 (updateProfile_ignores_count 1
                  (mkUser "Pop" professor None 5 3) None 2
                  (mkDb {[1%nat := mkUser "Pop" professor None 5 3]} ∅ ∅ ∅))
               eq_refl).
  lia.
Defined.

(** ** Sessions: status *)

Lemma initial_status_newStatus now s : initial_status now s = newStatus now s.
Proof.
  unfold initial_status, newStatus. repeat case_decide; try done; lia.
Qed.

(** A row whose status is the one of the mapping at [now] is left alone by
    the two bulk updates at [now]. *)
Lemma bulk_updates_settled now s :
  startDate s ≤ endDate s →
  sessionStatus s = newStatus now s →
  active_to_closed now (upcoming_to_active now s) = s.
Proof.
  destruct s as [pid t sd ed st ms av]. unfold newStatus. simpl.
  intros Hwin Hst.
  unfold active_to_closed, upcoming_to_active, set_sessionStatus. simpl.
  repeat case_decide; subst st; simpl in *; try done;
    exfalso; intuition (try lia; try discriminate).
Qed.

Lemma createSession_inv uid tempId newId now b d d' :
  createSession uid tempId newId now b d = (OK, d') →
  ∃ s, d' = with_sessions (insert newId s) d
       ∧ sessions d !! newId = None
       ∧ validate_session s = None
       ∧ sessionProfessorId s = uid
       ∧ startDate s = body_startDate b
       ∧ endDate s = body_endDate b
       ∧ sessionStatus s = newStatus now s
       ∧ hasOverlap d (Some tempId) s = false.
Proof.
  unfold createSession. destruct (sessionValidation b); simpl; [|done].
  match goal with
  | |- context [hasOverlap d (Some tempId) ?x] => set (sd := x)
  end.
  destruct (hasOverlap d (Some tempId) sd) eqn:Ho; [done|].
  unfold create_session.
  destruct (validate_session _) eqn:Hv; [done|].
  destruct (sessions d !! newId) eqn:Hn; [done|].
  intros [= <-]. eexists. split; [done|]. repeat split; try done.
  rewrite initial_status_newStatus. done.
Qed.

(** X7. A session that [createSession] has stored carries the status of
    the per-session mapping at the time of creation: reading it with
    [getSessionById] or refreshing all sessions at that same time writes
    nothing to it. *)
Theorem createSession_status_settled (uid tempId newId : nat) (now : Z)
    (b : session_body) (d d' : db) :
  createSession uid tempId newId now b d = (OK, d') →
  ∃ s, sessions d' !! newId = Some s
       ∧ sessionStatus s
         = recomputeStatus (body_startDate b) (body_endDate b) now
       ∧ getSessionById newId now d' = (OK, d')
       ∧ sessions (updateAllStatuses now d') !! newId = Some s.
Proof.
  intros (s & -> & Hn & Hv & Hp & Hsd & Hed & Hst & _)%createSession_inv.
  exists s. split; [simpl; by rewrite lookup_insert_eq|].
  split; [by rewrite Hst, newStatus_recomputeStatus, Hsd, Hed|].
  split.
  - unfold getSessionById. simpl. rewrite lookup_insert_eq.
    unfold updateStatus. by rewrite decide_False by (intros ?; done).
  - rewrite updateAllStatuses_lookup. simpl. rewrite lookup_insert_eq. simpl.
    rewrite bulk_updates_settled; [done| |done].
    unfold validate_session in Hv.
    destruct (decide (maxSlots s < 1)); [done|].
    destruct (decide (endDate s ≤ startDate s)); [done|]. lia.
Qed.

Lemma createSession_status_settled_witness :
  ∃ s, sessions (createSession 1 100 11 5
                   (mkSessionBody "Summer" 20 30 None) submitted_db).2
         !! 11%nat = Some s
       ∧ sessionStatus s = recomputeStatus 20 30 5
       ∧ getSessionById 11 5
           (createSession 1 100 11 5
              (mkSessionBody "Summer" 20 30 None) submitted_db).2
         = (OK, (createSession 1 100 11 5
                   (mkSessionBody "Summer" 20 30 None) submitted_db).2)
       ∧ sessions (updateAllStatuses 5
                     (createSession 1 100 11 5
                        (mkSessionBody "Summer" 20 30 None) submitted_db).2)
           !! 11%nat = Some s.
Proof.
  apply (createSession_status_settled 1 100 11 5
           (mkSessionBody "Summer" 20 30 None) submitted_db
           (createSession 1 100 11 5
              (mkSessionBody "Summer" 20 30 None) submitted_db).2 eq_refl).
Defined.

Lemma bulk_updates_compose now1 now2 s :
  now1 ≤ now2 →
  active_to_closed now2
    (upcoming_to_active now2
       (active_to_closed now1 (upcoming_to_active now1 s)))
  = active_to_closed now2 (upcoming_to_active now2 s).
Proof.
  intros Hle. destruct s as [pid t sd ed st ms av].
  unfold active_to_closed, upcoming_to_active, set_sessionStatus. simpl.
  destruct st; simpl;
    repeat (case_decide; simpl in * ); try done;
    exfalso; intuition (try lia; try discriminate).
Qed.

(** X8. Refreshing all statuses at [now1] and again at a later [now2]
    leaves the store that a single refresh at [now2] leaves: a refresh that
    was skipped is made up by the next one, and a refresh repeated at the
    same time changes nothing. *)
Theorem updateAllStatuses_compose (now1 now2 : Z) (d : db) :
  now1 ≤ now2 →
  updateAllStatuses now2 (updateAllStatuses now1 d) = updateAllStatuses now2 d.
Proof.
  intros Hle. destruct d as [us ss rs ds].
  unfold updateAllStatuses, with_sessions. simpl. f_equal.
  apply map_eq. intros i. rewrite !lookup_fmap.
  destruct (ss !! i) as [s|]; [|done]. simpl. f_equal.
  by apply bulk_updates_compose.
Qed.

Lemma updateAllStatuses_compose_witness :
  updateAllStatuses 20 (updateAllStatuses 5 submitted_db)
  = updateAllStatuses 20 submitted_db.
Proof. apply (updateAllStatuses_compose 5 20 submitted_db). lia. Defined.

(** X9. The bulk refresh writes the status column and nothing else: it
    adds and removes no session, keeps owner, title, window and both slot
    counts of every session, and touches no other table.  A status only
    moves forward, from upcoming to active to closed, and after the
    refresh every session whose window has ended is closed. *)
Theorem updateAllStatuses_frame (now : Z) (d : db) :
  users (updateAllStatuses now d) = users d
  ∧ requests (updateAllStatuses now d) = requests d
  ∧ documents (updateAllStatuses now d) = documents d
  ∧ ∀ i, match sessions d !! i, sessions (updateAllStatuses now d) !! i with
         | Some s, Some s' =>
             same_session_but_status_slots s s'
             ∧ availableSlots s' = availableSlots s
             ∧ status_rank (sessionStatus s) ≤ status_rank (sessionStatus s')
             ∧ (endDate s < now → sessionStatus s' = closed)
         | None, None => True
         | _, _ => False
         end.
Proof.
  repeat split; try done. intros i. rewrite updateAllStatuses_lookup.
  destruct (sessions d !! i) as [s|]; [|done]. simpl.
  destruct s as [pid t sd ed st ms av].
  unfold same_session_but_status_slots, active_to_closed, upcoming_to_active,
    set_sessionStatus. simpl.
  destruct st; simpl; repeat (case_decide; simpl in * );
    repeat split; try done; try lia;
    intros; exfalso; intuition (try lia; try discriminate).
Qed.

(** ** Sessions: windows *)

Lemma createSession_cases uid tempId newId now b d :
  (∃ e, createSession uid tempId newId now b d = (Failed e, d))
  ∨ (∃ d', createSession uid tempId newId now b d = (OK, d')).
Proof.
  unfold createSession, create_session.
  repeat (case_match; simpl); eauto.
Qed.

Lemma updateSession_cases uid id now p d :
  (∃ e, updateSession uid id now p d = (Failed e, d))
  ∨ (∃ d', updateSession uid id now p d = (OK, d')).
Proof.
  unfold updateSession.
  repeat (case_match; simpl); eauto.
Qed.

Lemma updateSession_inv uid id now p d d' :
  updateSession uid id now p d = (OK, d') →
  ∃ s, sessions d !! id = Some s
       ∧ sessionProfessorId s = uid
       ∧ validate_session (apply_patch p s) = None
       ∧ (is_Some (patch_startDate p) ∨ is_Some (patch_endDate p) →
          hasOverlap d (Some id) (apply_patch p s) = false)
       ∧ sessions_only d d'
       ∧ ∀ i, sessions d' !! i
              = if decide (i = id)
                then Some (set_sessionStatus
                             (newStatus now (apply_patch p s))
                             (apply_patch p s))
                else sessions d !! i.
Proof.
  unfold updateSession. destruct (sessions d !! id) as [s|] eqn:Hs; [|done].
  destruct (decide (sessionProfessorId s ≠ uid)) as [|Hp]; [done|].
  destruct (bool_decide (is_Some (patch_startDate p))
            || bool_decide (is_Some (patch_endDate p))) eqn:Hdates;
    simpl.
  - destruct (hasOverlap d (Some id) (apply_patch p s)) eqn:Ho; [done|].
    destruct (validate_session (apply_patch p s)) eqn:Hv; [done|].
    intros [= <-]. exists s. split; [done|].
    split; [by destruct (decide (sessionProfessorId s = uid))|].
    split; [done|]. split; [done|].
    pose proof (updateStatus_frame now
                  (with_sessions (insert id (apply_patch p s)) d) id
                  (apply_patch p s)) as (Hu & Hr & Hd & Hse).
    split; [by repeat split|]. intros i.
    destruct (decide (i = id)) as [->|Hne].
    + apply updateStatus_lookup. simpl. apply lookup_insert_eq.
    + rewrite Hse. simpl. rewrite lookup_insert_ne by done.
      destruct (sessions d !! i); [|done]. simpl.
      rewrite decide_False; [done|]. intros [? _]. done.
  - destruct (validate_session (apply_patch p s)) eqn:Hv; [done|].
    intros [= <-]. exists s. split; [done|].
    split; [by destruct (decide (sessionProfessorId s = uid))|].
    split; [done|].
    split.
    { intros Hor. apply orb_false_iff in Hdates as [H1 H2].
      apply bool_decide_eq_false in H1, H2. by destruct Hor. }
    pose proof (updateStatus_frame now
                  (with_sessions (insert id (apply_patch p s)) d) id
                  (apply_patch p s)) as (Hu & Hr & Hd & Hse).
    split; [by repeat split|]. intros i.
    destruct (decide (i = id)) as [->|Hne].
    + apply updateStatus_lookup. simpl. apply lookup_insert_eq.
    + rewrite Hse. simpl. rewrite lookup_insert_ne by done.
      destruct (sessions d !! i); [|done]. simpl.
      rewrite decide_False; [done|]. intros [? _]. done.
Qed.

Lemma windows_intersect_sym a b s e :
  windows_intersect a b s e ↔ windows_intersect s e a b.
Proof. unfold windows_intersect. lia. Qed.

Lemma no_overlap_not_intersect d thisId this i x :
  hasOverlap d thisId this = false →
  sessions d !! i = Some x →
  Some i ≠ thisId →
  sessionProfessorId x = sessionProfessorId this →
  ¬ windows_intersect (startDate x) (endDate x)
                      (startDate this) (endDate this).
Proof.
  intros Ho Hx Hi Hp Hint.
  apply (proj1 (hasOverlap_false d thisId this) Ho i x Hx).
  by apply intersect_overlap_where.
Qed.

(** X10. The session handlers keep the windows of one professor apart:
    from a store where no two sessions of a professor share an instant,
    [createSession] (whose overlap query runs under a key not yet in use)
    and [updateSession] lead to a store with the same property, whether
    they succeed or fail. *)
Theorem session_windows_stay_disjoint (uid tempId newId id : nat) (now : Z)
    (b : session_body) (p : session_patch) (d : db) :
  windows_disjoint d →
  (sessions d !! tempId = None →
   windows_disjoint (createSession uid tempId newId now b d).2)
  ∧ windows_disjoint (updateSession uid id now p d).2.
Proof.
  intros Hinv. split.
  - intros Htemp.
    destruct (createSession_cases uid tempId newId now b d)
      as [[e ->]|[d' Hd']]; [done|].
    rewrite Hd'. cbn [snd].
    apply createSession_inv in Hd'
      as (s & -> & Hn & _ & Hp & _ & _ & _ & Ho).
    assert (Hnew : ∀ j y, sessions d !! j = Some y →
              sessionProfessorId y = sessionProfessorId s →
              ¬ windows_intersect (startDate y) (endDate y)
                                  (startDate s) (endDate s)).
    { intros j y Hy Hpy.
      apply (no_overlap_not_intersect d (Some tempId) s j y); try done.
      intros [= ->]. congruence. }
    intros i j x y Hx Hy Hne Hsame. simpl in Hx, Hy.
    apply lookup_insert_Some in Hx as [[<- <-]|[Hi Hx]];
      apply lookup_insert_Some in Hy as [[<- <-]|[Hj Hy]].
    + done.
    + rewrite windows_intersect_sym. by apply (Hnew j y).
    + by apply (Hnew i x).
    + by apply (Hinv i j x y).
  - destruct (updateSession_cases uid id now p d)
      as [[e ->]|[d' Hd']]; [done|].
    rewrite Hd'. cbn [snd].
    apply updateSession_inv in Hd'
      as (s & Hs & Hp & _ & Ho & _ & Hse).
    set (s' := apply_patch p s) in *.
    assert (Hps : sessionProfessorId s' = sessionProfessorId s) by done.
    assert (Hnew : ∀ j y, j ≠ id → sessions d !! j = Some y →
              sessionProfessorId y = sessionProfessorId s' →
              ¬ windows_intersect (startDate y) (endDate y)
                                  (startDate s') (endDate s')).
    { intros j y Hj Hy Hpy.
      destruct (decide (is_Some (patch_startDate p)
                        ∨ is_Some (patch_endDate p))) as [Hd|Hd].
      - apply (no_overlap_not_intersect d (Some id) s' j y); try done.
        + by apply Ho.
        + intros [= ->]. done.
      - assert (startDate s' = startDate s ∧ endDate s' = endDate s)
          as [-> ->].
        { subst s'. unfold apply_patch. simpl.
          destruct (patch_startDate p), (patch_endDate p); simpl;
            try done; exfalso; apply Hd; eauto. }
        apply (Hinv j id y s); try done; congruence. }
    intros i j x y Hx Hy Hne Hsame. rewrite Hse in Hx, Hy.
    destruct (decide (i = id)) as [->|Hi];
      destruct (decide (j = id)) as [->|Hj].
    + done.
    + injection Hx as <-. simpl. rewrite windows_intersect_sym.
      apply (Hnew j y); try done; by rewrite <- Hsame.
    + injection Hy as <-. simpl. by apply (Hnew i x).
    + by apply (Hinv i j x y).
Qed.

Lemma session_windows_stay_disjoint_witness :
  windows_disjoint
    (createSession 1 100 11 5 (mkSessionBody "Summer" 20 30 None)
       (mkDb ∅ {[10%nat := mkSession 1 "Spring" 0 10 active 1 1]} ∅ ∅)).2.
Proof.
  assert (Hinv : windows_disjoint
            (mkDb ∅ {[10%nat := mkSession 1 "Spring" 0 10 active 1 1]} ∅ ∅)).
  { intros i j x y Hx Hy Hne. simpl in Hx, Hy.
    apply lookup_singleton_Some in Hx as [<- _].
    apply lookup_singleton_Some in Hy as [<- _]. done. }
  apply (proj1 (session_windows_stay_disjoint 1 100 11 10 5
                  (mkSessionBody "Summer" 20 30 None)
                  (mkSessionPatch None None None None) _ Hinv)).
  reflexivity.
Defined.

(** X11. When [updateSession] moves a window, the overlap answer is given
    exactly when another session of the same professor shares an instant
    with the new window; the session under update is never compared with
    itself.  (The converse needs windows that are not inverted, as the
    validators of the model leave them.) *)
Theorem updateSession_overlap (uid id : nat) (now : Z) (p : session_patch)
    (d : db) (s : RegistrationSession) :
  sessions d !! id = Some s →
  sessionProfessorId s = uid →
  is_Some (patch_startDate p) ∨ is_Some (patch_endDate p) →
  ((∃ j x, j ≠ id ∧ sessions d !! j = Some x
           ∧ sessionProfessorId x = uid
           ∧ windows_intersect (startDate x) (endDate x)
               (startDate (apply_patch p s)) (endDate (apply_patch p s))) →
   updateSession uid id now p d = (Failed UpdatedSessionOverlap, d))
  ∧ ((∀ j x, sessions d !! j = Some x → startDate x ≤ endDate x) →
     startDate (apply_patch p s) ≤ endDate (apply_patch p s) →
     updateSession uid id now p d = (Failed UpdatedSessionOverlap, d) →
     ∃ j x, j ≠ id ∧ sessions d !! j = Some x
            ∧ sessionProfessorId x = uid
            ∧ windows_intersect (startDate x) (endDate x)
                (startDate (apply_patch p s)) (endDate (apply_patch p s))).
Proof.
  intros Hs Hp Hdates. unfold updateSession. rewrite Hs.
  rewrite decide_False by (intros ?; done).
  assert (Hb : bool_decide (is_Some (patch_startDate p))
               || bool_decide (is_Some (patch_endDate p)) = true).
  { apply orb_true_iff.
    destruct Hdates; [left|right]; by apply bool_decide_eq_true. }
  rewrite Hb. simpl. split.
  - intros (j & x & Hj & Hx & Hpx & Hint).
    assert (Ho : hasOverlap d (Some id) (apply_patch p s) = true).
    { apply hasOverlap_true. exists j, x. split; [done|].
      apply intersect_overlap_where; [by rewrite Hpx| |done].
      intros [= ->]. done. }
    by rewrite Ho.
  - intros Hvalid Hwin.
    destruct (hasOverlap d (Some id) (apply_patch p s)) eqn:Ho.
    + intros _. apply hasOverlap_true in Ho as (j & x & Hx & Hover).
      assert (Hj : j ≠ id) by (destruct Hover as (_ & Hne & _); congruence).
      apply overlap_where_intersect in Hover as [Hpx Hint];
        [|by apply (Hvalid j)|done].
      exists j, x. split; [done|]. split; [done|].
      split; [by rewrite Hpx|]. exact Hint.
    + unfold validate_session.
      repeat case_decide; intros [=].
Qed.

Lemma updateSession_overlap_witness :
  updateSession 1 11 5 (mkSessionPatch None (Some 10) None None)
    (mkDb ∅ (<[11%nat := mkSession 1 "Summer" 20 30 upcoming 5 5]>
               {[10%nat := mkSession 1 "Spring" 0 10 active 1 1]}) ∅ ∅)
  = (Failed UpdatedSessionOverlap,
     mkDb ∅ (<[11%nat := mkSession 1 "Summer" 20 30 upcoming 5 5]>
               {[10%nat := mkSession 1 "Spring" 0 10 active 1 1]}) ∅ ∅).
Proof.
  destruct (updateSession_overlap 1 11 5
              (mkSessionPatch None (Some 10) None None)
              (mkDb ∅ (<[11%nat := mkSession 1 "Summer" 20 30 upcoming 5 5]>
                         {[10%nat := mkSession 1 "Spring" 0 10 active 1 1]})
                    ∅ ∅)
              (mkSession 1 "Summer" 20 30 upcoming 5 5)) as [Hrefused _];
    [vm_compute; reflexivity|reflexivity|left; by eexists|].
  apply Hrefused.
  exists 10%nat, (mkSession 1 "Spring" 0 10 active 1 1).
  split; [lia|]. split; [reflexivity|]. split; [reflexivity|].
  unfold windows_intersect. simpl. lia.
Defined.

Lemma bulk_updates_same_row now s :
  same_session_but_status_slots s
    (active_to_closed now (upcoming_to_active now s))
  ∧ availableSlots (active_to_closed now (upcoming_to_active now s))
    = availableSlots s.
Proof.
  unfold same_session_but_status_slots, active_to_closed, upcoming_to_active.
  repeat case_decide; simpl; repeat case_decide; by repeat split.
Qed.

Lemma validate_session_Some_valid s :
  validate_session s = None → startDate s < endDate s ∧ 1 ≤ maxSlots s.
Proof.
  unfold validate_session. repeat case_decide; try done. lia.
Qed.

(** Every session row after a step is a row the validators have just
    accepted, or the row the store had under that key, with at most the
    status and the free slots changed. *)
Lemma step_sessions onDelete d o i s' :
  sessions (step onDelete d o).2 !! i = Some s' →
  validate_session s' = None
  ∨ ∃ s, sessions d !! i = Some s ∧ same_session_but_status_slots s s'.
Proof.
  assert (Hsame : ∀ d', sessions d' = sessions d →
            sessions d' !! i = Some s' →
            validate_session s' = None
            ∨ ∃ s, sessions d !! i = Some s
                   ∧ same_session_but_status_slots s s').
  { intros d' -> Hs'. right. exists s'. by repeat split. }
  assert (Hstatus : ∀ now id s,
            sessions (updateStatus now d id s).2 !! i = Some s' →
            validate_session s' = None
            ∨ ∃ s0, sessions d !! i = Some s0
                    ∧ same_session_but_status_slots s0 s').
  { intros now id s Hs'.
    pose proof (updateStatus_frame now d id s) as (_ & _ & _ & Hse).
    rewrite Hse in Hs'. destruct (sessions d !! i) as [s0|]; [|done].
    simpl in Hs'. injection Hs' as <-. right. exists s0. split; [done|].
    by destruct (decide _). }
  destruct o; simpl.
  - destruct (register_cases newId b d) as [[e ->]|(u & _ & _ & _ & _ & ->)];
      by apply Hsame.
  - destruct (authenticated_cases d actor (Some professor)
      (λ _, createSession actor tempId newId now b d)) as [[e ->]|(u & _ & ->)];
      [by apply Hsame|].
    destruct (createSession_cases actor tempId newId now b d)
      as [[e ->]|[d' Hd']]; [by apply Hsame|].
    rewrite Hd'. cbn [snd].
    apply createSession_inv in Hd' as (s & -> & _ & Hv & _).
    simpl. intros [[<- <-]|[_ Hi]]%lookup_insert_Some; [by left|].
    right. exists s'. by repeat split.
  - destruct (authenticated_cases d actor (Some professor)
      (λ _, updateSession actor id now p d)) as [[e ->]|(u & _ & ->)];
      [by apply Hsame|].
    destruct (updateSession_cases actor id now p d)
      as [[e ->]|[d' Hd']]; [by apply Hsame|].
    rewrite Hd'. cbn [snd].
    apply updateSession_inv in Hd' as (s & _ & _ & Hv & _ & _ & Hse).
    rewrite Hse. destruct (decide (i = id)).
    + intros [= <-]. left. revert Hv. unfold validate_session. by simpl.
    + intros Hi. right. exists s'. by repeat split.
  - destruct (authenticated_cases d actor (Some professor)
      (λ _, deleteSession onDelete actor id d)) as [[e ->]|(u & _ & ->)];
      [by apply Hsame|].
    destruct (deleteSession_cases onDelete actor id d)
      as [[e ->]|(_ & [[_ ->]| ->])]; [by apply Hsame| |];
      simpl; intros [_ Hi]%lookup_delete_Some;
      right; exists s'; by repeat split.
  - unfold getSessionById. destruct (sessions d !! id) as [s|];
      [apply Hstatus|by apply Hsame].
  - intros Hs'.
    change (sessions (updateAllStatuses now d) !! i = Some s') in Hs'.
    rewrite updateAllStatuses_lookup in Hs'.
    destruct (sessions d !! i) as [s|]; [|done]. simpl in Hs'.
    injection Hs' as <-. right. exists s. split; [done|].
    apply bulk_updates_same_row.
  - destruct (authenticated_cases d actor (Some student)
      (λ user, createRequest actor user newId now b d))
      as [[e ->]|(u & _ & ->)]; [by apply Hsame|].
    unfold createRequest.
    destruct (negb (createRequestValidation b)); [by apply Hsame|].
    destruct (bool_decide (is_Some (approvedProfessorId u)));
      [by apply Hsame|].
    destruct (sessions d !! body_sessionId b) as [s|]; [|by apply Hsame].
    pose proof (Hstatus now (body_sessionId b) s) as Hst.
    destruct (updateStatus now d (body_sessionId b) s) as [s1 d1].
    cbn [snd] in Hst.
    destruct (decide (sessionStatus s1 ≠ active)); [done|].
    destruct (decide (availableSlots s1 ≤ 0)); [done|].
    destruct (bool_decide _); [done|].
    destruct (requests d1 !! newId); done.
  - destruct (authenticated_cases d actor (Some professor)
      (λ _, approveRequest fault actor id d)) as [[e ->]|(u & _ & ->)];
      [by apply Hsame|].
    destruct (approveRequest_cases fault actor id d)
      as [[e ->]|(this & _ & _ & _ & _ & ->)]; [by apply Hsame|].
    simpl. rewrite lookup_alter.
    destruct (decide (sessionId this = i)) as [<-|]; [|by apply Hsame].
    destruct (sessions d !! sessionId this) as [s|]; [|done]. simpl.
    intros [= <-]. right. exists s. by repeat split.
  - destruct (authenticated_cases d actor (Some professor)
      (λ _, rejectRequest actor id reason d)) as [[e ->]|(u & _ & ->)];
      [by apply Hsame|].
    destruct (rejectRequest_cases actor id reason d)
      as [[e ->]|(this & _ & _ & ->)]; by apply Hsame.
  - destruct (authenticated_cases d actor (Some student)
      (λ _, cancelRequest onDelete actor id d)) as [[e ->]|(u & _ & ->)];
      [by apply Hsame|].
    destruct (cancelRequest_cases onDelete actor id d)
      as [[e ->]|(this & _ & _ & [[_ ->]|[_ ->]])]; by apply Hsame.
  - destruct (authenticated_cases d actor None
      (λ user, uploadDocument actor user file rid newId d))
      as [[e ->]|(u & _ & ->)]; [by apply Hsame|].
    destruct (uploadDocument_cases actor u file rid newId d)
      as [[e ->]|(r & doc & _ & _ & _ & [[_ ->]|[_ ->]])]; by apply Hsame.
  - destruct (authenticated_cases d actor (Some professor)
      (λ _, acceptDocument fault actor id d)) as [[e ->]|(u & _ & ->)];
      [by apply Hsame|].
    destruct (acceptDocument_cases fault actor id d)
      as [[e ->]|(doc & r & _ & _ & ->)]; by apply Hsame.
  - destruct (authenticated_cases d actor (Some professor)
      (λ _, rejectDocument fault actor id reason d)) as [[e ->]|(u & _ & ->)];
      [by apply Hsame|].
    destruct (rejectDocument_result fault actor id reason d)
      as [[e ->]|(doc & r & _ & _ & ->)]; by apply Hsame.
Qed.

(** X12. In every store reached from the empty one, each session has its
    end after its start and at least one slot in all: the validators of
    the session model guard the two handlers that write these columns, and
    no other handler writes them. *)
Theorem stored_sessions_valid (onDelete : fk_action) (ops : list op) :
  sessions_valid (run onDelete empty_db ops).
Proof.
  assert (Hgen : ∀ d, sessions_valid d → sessions_valid (run onDelete d ops)).
  { induction ops as [|o ops IH]; intros d Hd; [done|].
    simpl. apply IH. intros i s' Hs'.
    destruct (step_sessions onDelete d o i s' Hs')
      as [Hv|(s & Hs & _ & _ & Hsd & Hed & Hms)].
    - by apply validate_session_Some_valid.
    - rewrite Hsd, Hed, Hms. by apply (Hd i). }
  apply Hgen. intros i s Hs. cbn [sessions empty_db] in Hs.
  by rewrite lookup_empty in Hs.
Qed.

(** ** Actors under the workflow *)






(** ** Requests: submission *)

Lemma newStatus_active now s :
  newStatus now s = active ↔ startDate s ≤ now ≤ endDate s.
Proof.
  unfold newStatus. repeat case_decide; split; try done; lia.
Qed.

Lemma createRequest_inv uid user newId now b d d' :
  createRequest uid user newId now b d = (OK, d') →
  ∃ s, sessions d !! body_sessionId b = Some s
       ∧ createRequestValidation b = true
       ∧ approvedProfessorId user = None
       ∧ newStatus now s = active
       ∧ availableSlots s > 0
       ∧ ¬ map_Exists (λ _ r, studentId r = uid
                              ∧ sessionId r = body_sessionId b) (requests d)
       ∧ requests d !! newId = None
       ∧ d' = with_requests
                (insert newId
                   (mkRequest uid (sessionProfessorId s) (body_sessionId b)
                              (body_dissertationTopic b) pending None))
                (updateStatus now d (body_sessionId b) s).2.
Proof.
  unfold createRequest.
  destruct (createRequestValidation b); simpl; [|done].
  destruct (approvedProfessorId user) as [q|] eqn:Ha; simpl; [done|].
  destruct (sessions d !! body_sessionId b) as [s|] eqn:Hs; [|done].
  pose proof (updateStatus_instance now d (body_sessionId b) s) as Hi.
  pose proof (updateStatus_frame now d (body_sessionId b) s) as (_ & Hr & _).
  destruct (updateStatus now d (body_sessionId b) s) as [s1 d1] eqn:Hu.
  simpl in Hi, Hr. subst s1. simpl. rewrite Hr.
  destruct (decide (newStatus now s ≠ active)) as [|Hact]; [done|].
  destruct (decide (availableSlots s ≤ 0)); [done|].
  destruct (bool_decide _) eqn:Hb; [done|].
  apply bool_decide_eq_false in Hb.
  destruct (requests d !! newId) eqn:Hn; [done|].
  intros [= <-]. exists s.
  split; [done|]. split; [done|]. split; [done|].
  split; [by destruct (decide (newStatus now s = active))|].
  split; [lia|]. split; [done|]. split; [done|]. by rewrite Hu.
Qed.



(** Every request row after a step is the row the store had under that
    key, with the same student, professor and session, or the one request
    a submission has just created for a student and a session that had
    none. *)
Lemma step_requests onDelete d o j r' :
  requests (step onDelete d o).2 !! j = Some r' →
  (∃ r, requests d !! j = Some r
        ∧ studentId r = studentId r'
        ∧ professorId r = professorId r'
        ∧ sessionId r = sessionId r')
  ∨ (∃ actor now b, o = CreateRequest actor j now b
       ∧ requests d !! j = None
       ∧ ∀ k r, requests d !! k = Some r →
                ¬ (studentId r = studentId r' ∧ sessionId r = sessionId r')).
Proof.
  assert (Hsame : ∀ d', requests d' = requests d →
            requests d' !! j = Some r' →
            (∃ r, requests d !! j = Some r
                  ∧ studentId r = studentId r'
                  ∧ professorId r = professorId r'
                  ∧ sessionId r = sessionId r')
            ∨ (∃ actor now b, o = CreateRequest actor j now b
                 ∧ requests d !! j = None
                 ∧ ∀ k r, requests d !! k = Some r →
                          ¬ (studentId r = studentId r'
                             ∧ sessionId r = sessionId r'))).
  { intros d' -> Hr'. left. exists r'. by repeat split. }
  assert (Halter : ∀ (f : CoordinationRequest → CoordinationRequest) k,
            (∀ r, studentId (f r) = studentId r
                  ∧ professorId (f r) = professorId r
                  ∧ sessionId (f r) = sessionId r) →
            alter f k (requests d) !! j = Some r' →
            ∃ r, requests d !! j = Some r
                 ∧ studentId r = studentId r'
                 ∧ professorId r = professorId r'
                 ∧ sessionId r = sessionId r').
  { intros f k Hf. rewrite lookup_alter.
    destruct (decide (k = j)) as [->|]; [|intros Hr'; exists r'; done].
    destruct (requests d !! j) as [r|]; [|done]. simpl.
    intros [= <-]. exists r. split; [done|].
    destruct (Hf r) as (-> & -> & ->). done. }
  destruct o; simpl.
  - destruct (register_cases newId b d) as [[e ->]|(u & _ & _ & _ & _ & ->)];
      by apply Hsame.
  - destruct (authenticated_cases d actor (Some professor)
      (λ _, createSession actor tempId newId now b d)) as [[e ->]|(u & _ & ->)];
      [by apply Hsame|].
    apply Hsame.
    by destruct (createSession_sessions_only actor tempId newId now b d)
      as (_ & ? & _).
  - destruct (authenticated_cases d actor (Some professor)
      (λ _, updateSession actor id now p d)) as [[e ->]|(u & _ & ->)];
      [by apply Hsame|].
    apply Hsame.
    by destruct (updateSession_sessions_only actor id now p d) as (_ & ? & _).
  - destruct (authenticated_cases d actor (Some professor)
      (λ _, deleteSession onDelete actor id d)) as [[e ->]|(u & _ & ->)];
      [by apply Hsame|].
    destruct (deleteSession_cases onDelete actor id d)
      as [[e ->]|(_ & [[_ ->]| ->])]; [by apply Hsame| |by apply Hsame].
    simpl. intros [Hr' _]%map_lookup_filter_Some.
    left. exists r'. by repeat split.
  - apply Hsame.
    by destruct (getSessionById_sessions_only id now d) as (_ & ? & _).
  - by apply Hsame.
  - destruct (authenticated_cases d actor (Some student)
      (λ user, createRequest actor user newId now b d))
      as [[e ->]|(u & _ & ->)]; [by apply Hsame|].
    destruct (createRequest_cases actor u newId now b d)
      as (d1 & (_ & Hreq & _) & [[e ->]|(r & Hn & Hp & He)]);
      [by apply Hsame|].
    rewrite He. pose proof He as Hinv.
    apply createRequest_inv in Hinv
      as (s & _ & _ & _ & _ & _ & Hdup & _ & Hd').
    simpl. rewrite Hreq.
    intros [[<- <-]|[_ Hr']]%lookup_insert_Some.
    + right. exists actor, now, b. split; [done|]. split; [done|].
      intros k x Hx Hboth. apply Hdup. apply map_Exists_lookup.
      exists k, x. split; [done|].
      assert (Hrow : with_requests (insert newId r) d1
                     = with_requests
                         (insert newId
                            (mkRequest actor (sessionProfessorId s)
                               (body_sessionId b) (body_dissertationTopic b)
                               pending None))
                         (updateStatus now d (body_sessionId b) s).2)
        by (rewrite <- Hd'; done).
      assert (r = mkRequest actor (sessionProfessorId s) (body_sessionId b)
                    (body_dissertationTopic b) pending None) as ->.
      { apply (f_equal (λ x, requests x !! newId)) in Hrow. simpl in Hrow.
        rewrite !lookup_insert_eq in Hrow. congruence. }
      simpl in Hboth. done.
    + left. exists r'. by repeat split.
  - destruct (authenticated_cases d actor (Some professor)
      (λ _, approveRequest fault actor id d)) as [[e ->]|(u & _ & ->)];
      [by apply Hsame|].
    destruct (approveRequest_cases fault actor id d)
      as [[e ->]|(this & Hthis & _ & _ & _ & ->)]; [by apply Hsame|].
    cbn [snd]. rewrite (approved_db_requests d id this j Hthis).
    destruct (decide (j = id)) as [->|].
    + intros [= <-]. left. exists this. by repeat split.
    + destruct (requests d !! j) as [r|]; [|done]. simpl.
      intros [= <-]. left. exists r. split; [done|]. by destruct (decide _).
  - destruct (authenticated_cases d actor (Some professor)
      (λ _, rejectRequest actor id reason d)) as [[e ->]|(u & _ & ->)];
      [by apply Hsame|].
    destruct (rejectRequest_cases actor id reason d)
      as [[e ->]|(this & _ & _ & ->)]; [by apply Hsame|].
    simpl. intros Hr'. left. by apply (Halter (set_rejected reason) id).
  - destruct (authenticated_cases d actor (Some student)
      (λ _, cancelRequest onDelete actor id d)) as [[e ->]|(u & _ & ->)];
      [by apply Hsame|].
    destruct (cancelRequest_cases onDelete actor id d)
      as [[e ->]|(this & _ & _ & [[_ ->]|[_ ->]])]; [by apply Hsame| |];
      simpl; intros [_ Hr']%lookup_delete_Some;
      left; exists r'; by repeat split.
  - destruct (authenticated_cases d actor None
      (λ user, uploadDocument actor user file rid newId d))
      as [[e ->]|(u & _ & ->)]; [by apply Hsame|].
    destruct (uploadDocument_cases actor u file rid newId d)
      as [[e ->]|(r & doc & _ & _ & _ & [[_ ->]|[_ ->]])];
      [by apply Hsame| |by apply Hsame].
    simpl. intros Hr'. left.
    by apply (Halter (set_status document_pending) rid).
  - destruct (authenticated_cases d actor (Some professor)
      (λ _, acceptDocument fault actor id d)) as [[e ->]|(u & _ & ->)];
      [by apply Hsame|].
    destruct (acceptDocument_cases fault actor id d)
      as [[e ->]|(doc & r & _ & _ & ->)]; [by apply Hsame|].
    simpl. intros Hr'. left.
    by apply (Halter (set_status completed) (requestId doc)).
  - destruct (authenticated_cases d actor (Some professor)
      (λ _, rejectDocument fault actor id reason d)) as [[e ->]|(u & _ & ->)];
      [by apply Hsame|].
    destruct (rejectDocument_result fault actor id reason d)
      as [[e ->]|(doc & r & _ & _ & ->)]; [by apply Hsame|].
    simpl. intros Hr'. left.
    by apply (Halter (set_status approved) (requestId doc)).
Qed.

(** X16. In every store reached from the empty one a student has at most
    one request per session, and the student, professor and session of a
    stored request never change: only [createRequest] adds a request, and
    it looks for an earlier one of the same student and session first. *)
Theorem one_request_per_session (onDelete : fk_action) (ops : list op) :
  unique_submission (run onDelete empty_db ops)
  ∧ ∀ o j r r',
      requests (run onDelete empty_db ops) !! j = Some r →
      requests (step onDelete (run onDelete empty_db ops) o).2 !! j
      = Some r' →
      studentId r' = studentId r
      ∧ professorId r' = professorId r
      ∧ sessionId r' = sessionId r.
Proof.
  split.
  - assert (Hgen : ∀ d, unique_submission d →
                        unique_submission (run onDelete d ops)).
    { induction ops as [|o ops IH]; intros d Hd; [done|].
      simpl. apply IH. intros i j r1 r2 H1 H2 Hst Hse.
      destruct (step_requests onDelete d o i r1 H1)
        as [(x1 & Hx1 & Hs1 & _ & He1)|(a1 & n1 & b1 & Ho1 & Hn1 & Hd1)];
        destruct (step_requests onDelete d o j r2 H2)
          as [(x2 & Hx2 & Hs2 & _ & He2)|(a2 & n2 & b2 & Ho2 & Hn2 & Hd2)].
      - apply (Hd i j x1 x2); congruence.
      - exfalso. apply (Hd2 i x1 Hx1). split; congruence.
      - exfalso. apply (Hd1 j x2 Hx2). split; congruence.
      - congruence. }
    apply Hgen. intros i j r1 r2 H1. cbn [requests empty_db] in H1.
    by rewrite lookup_empty in H1.
  - intros o j r r' Hr Hr'.
    destruct (step_requests onDelete _ o j r' Hr')
      as [(x & Hx & ? & ? & ?)|(a & n & b & _ & Hn & _)]; [|congruence].
    assert (x = r) as -> by congruence. done.
Qed.

Lemma one_request_per_session_witness :
  studentId (set_status approved ana_request) = studentId ana_request
  ∧ professorId (set_status approved ana_request) = professorId ana_request
  ∧ sessionId (set_status approved ana_request) = sessionId ana_request.
Proof.
  apply (proj2 (one_request_per_session CASCADE (take 6 overbooking_trace))
           (ApproveRequest 1 20 None) 20%nat ana_request
           (set_status approved ana_request) eq_refl eq_refl).
Defined.

(** ** Documents *)

(** X17. An upload that succeeds came with a file, from the student of an
    approved request or from the professor of a request waiting on a
    document; it stores one new document under review, recorded under the
    caller and the caller's role, and changes no actor and no session.  A
    student's upload moves the request to [document_pending]; a
    professor's upload leaves the table of requests as it was. *)
Theorem uploadDocument_effect (uid : nat) (user : User) (file : option string)
    (rid newId : nat) (d d' : db) :
  uploadDocument uid user file rid newId d = (OK, d') →
  ∃ fname r,
    file = Some fname
    ∧ requests d !! rid = Some r
    ∧ documents d !! newId = None
    ∧ documents d'
      = <[newId := mkDocument rid uid (userRole user) fname
                              pending_review None]> (documents d)
    ∧ users d' = users d
    ∧ sessions d' = sessions d
    ∧ ((studentId r = uid ∧ status r = approved
        ∧ (∃ r', requests d' !! rid = Some r'
                 ∧ status r' = document_pending
                 ∧ rejectionReason r' = rejectionReason r
                 ∧ same_request_parties r r')
        ∧ ∀ j, j ≠ rid → requests d' !! j = requests d !! j)
       ∨ (studentId r ≠ uid ∧ professorId r = uid
          ∧ status r = document_pending
          ∧ requests d' = requests d)).
Proof.
  unfold uploadDocument. destruct file as [fname|]; [|done].
  destruct (requests d !! rid) as [r|] eqn:Hr; [|done].
  destruct (bool_decide (studentId r = uid)) eqn:Hs;
    destruct (bool_decide (professorId r = uid)) eqn:Hp; simpl.
  - destruct (bool_decide (status r ≠ approved)) eqn:Ha; [done|].
    destruct (bool_decide (status r ≠ document_pending)) eqn:Hd; [done|].
    apply bool_decide_eq_false in Ha, Hd.
    destruct (status r); exfalso; (by apply Ha) || (by apply Hd).
  - destruct (bool_decide (status r ≠ approved)) eqn:Ha; [done|].
    apply bool_decide_eq_false in Ha. apply bool_decide_eq_true in Hs.
    destruct (documents d !! newId) eqn:Hn; [done|].
    intros [= <-]. exists fname, r. simpl. repeat split; try done.
    left. split; [done|].
    split; [by destruct (decide (status r = approved))|].
    split.
    { rewrite lookup_alter_eq, Hr. simpl.
      eexists. split; [done|]. by repeat split. }
    intros j Hj. by rewrite lookup_alter_ne.
  - destruct (bool_decide (status r ≠ document_pending)) eqn:Hd; [done|].
    apply bool_decide_eq_false in Hd, Hs. apply bool_decide_eq_true in Hp.
    destruct (documents d !! newId) eqn:Hn; [done|].
    intros [= <-]. exists fname, r. simpl. repeat split; try done.
    right. split; [done|]. split; [done|].
    split; [by destruct (decide (status r = document_pending))|done].
  - done.
Qed.

Lemma uploadDocument_effect_witness :
  ∃ fname r,
    Some "reply.pdf" = Some fname
    ∧ requests (run CASCADE empty_db (take 6 counter_document_trace))
        !! 20%nat = Some r
    ∧ documents (run CASCADE empty_db (take 6 counter_document_trace))
        !! 31%nat = None
    ∧ documents under_review_db
      = <[31%nat := mkDocument 20 1 professor fname pending_review None]>
          (documents (run CASCADE empty_db (take 6 counter_document_trace)))
    ∧ users under_review_db
      = users (run CASCADE empty_db (take 6 counter_document_trace))
    ∧ sessions under_review_db
      = sessions (run CASCADE empty_db (take 6 counter_document_trace))
    ∧ ((studentId r = 1%nat ∧ status r = approved
        ∧ (∃ r', requests under_review_db !! 20%nat = Some r'
                 ∧ status r' = document_pending
                 ∧ rejectionReason r' = rejectionReason r
                 ∧ same_request_parties r r')
        ∧ ∀ j, j ≠ 20%nat →
               requests under_review_db !! j
               = requests (run CASCADE empty_db
                             (take 6 counter_document_trace)) !! j)
       ∨ (studentId r ≠ 1%nat ∧ professorId r = 1%nat
          ∧ status r = document_pending
          ∧ requests under_review_db
            = requests (run CASCADE empty_db
                          (take 6 counter_document_trace)))).
Proof.
  apply (uploadDocument_effect 1 (mkUser "Pop" professor None 5 1)
           (Some "reply.pdf") 20 31
           (run CASCADE empty_db (take 6 counter_document_trace))
           under_review_db).
  vm_compute. reflexivity.
Defined.

(** X18. A document is reviewed once.  After [acceptDocument] or
    [rejectDocument] has succeeded on a document, a further acceptance or
    rejection of it by the same professor fails with the not-pending
    answer and writes nothing. *)
Theorem document_reviewed_once (fault : option nat) (uid id : nat)
    (reason : string) (d d' : db) :
  acceptDocument fault uid id d = (OK, d')
  ∨ rejectDocument fault uid id reason d = (OK, d') →
  ∀ (fault' : option nat) (reason' : string),
    acceptDocument fault' uid id d' = (Failed DocumentNotPending, d')
    ∧ (is_blank reason' = false →
       rejectDocument fault' uid id reason' d'
       = (Failed DocumentNotPending, d')).
Proof.
  intros Hdone.
  assert (∃ doc' r', documents d' !! id = Some doc'
                     ∧ documentStatus doc' ≠ pending_review
                     ∧ requests d' !! requestId doc' = Some r'
                     ∧ professorId r' = uid)
    as (doc' & r' & Hdoc' & Hst & Hr' & Hp).
  { destruct Hdone as [Ha|Hj].
    - unfold acceptDocument in Ha.
      destruct (documents d !! id) as [doc|] eqn:Hdoc; [|done].
      destruct (requests d !! requestId doc) as [r|] eqn:Hr; [|done].
      destruct (decide (professorId r ≠ uid)) as [|Hpr]; [done|].
      destruct (decide (documentStatus doc ≠ pending_review)); [done|].
      destruct (accept_cases fault d id doc) as [He|He];
        rewrite He in Ha; [done|]. injection Ha as <-.
      exists (set_accepted doc), (set_status completed r). simpl.
      rewrite !lookup_alter_eq, Hdoc, Hr. repeat split; try done.
      by destruct (decide (professorId r = uid)).
    - unfold rejectDocument in Hj. destruct (is_blank reason); [done|].
      destruct (documents d !! id) as [doc|] eqn:Hdoc; [|done].
      destruct (requests d !! requestId doc) as [r|] eqn:Hr; [|done].
      destruct (decide (professorId r ≠ uid)) as [|Hpr]; [done|].
      destruct (decide (documentStatus doc ≠ pending_review)); [done|].
      destruct (reject_document_cases fault d id doc reason) as [He|He];
        rewrite He in Hj; [done|]. injection Hj as <-.
      exists (set_document_rejected reason doc), (set_status approved r).
      simpl. rewrite !lookup_alter_eq, Hdoc, Hr. repeat split; try done.
      by destruct (decide (professorId r = uid)). }
  intros fault' reason'. split.
  - unfold acceptDocument. rewrite Hdoc', Hr'.
    rewrite decide_False by (intros ?; done). by rewrite decide_True.
  - intros Hb. unfold rejectDocument. rewrite Hb, Hdoc', Hr'.
    rewrite decide_False by (intros ?; done). by rewrite decide_True.
Qed.

Lemma document_reviewed_once_witness :
  acceptDocument None 1 30 counter_document_db
  = (Failed DocumentNotPending, counter_document_db)
  ∧ (is_blank "again" = false →
     rejectDocument None 1 30 "again" counter_document_db
     = (Failed DocumentNotPending, counter_document_db)).
Proof.
  apply (document_reviewed_once None 1 30 "signature missing"
           under_review_db counter_document_db (or_intror eq_refl)
           None "again").
Defined.

(** ** Read handlers *)

Lemma by_endDate_total : Total by_endDate.
Proof. intros a b. unfold by_endDate. lia. Qed.

Lemma by_endDate_transitive : Transitive by_endDate.
Proof. intros a b c. unfold by_endDate. lia. Qed.

Lemma bulk_updates_active now s :
  sessionStatus (active_to_closed now (upcoming_to_active now s)) = active →
  now ≤ endDate s.
Proof.
  destruct s as [pid t sd ed st ms av].
  unfold active_to_closed, upcoming_to_active, set_sessionStatus. simpl.
  destruct st; simpl; repeat (case_decide; simpl in * ); try done;
    intros _; intuition (try lia; try discriminate).
  all: destruct (decide (ed < now)); [|lia];
    exfalso; intuition (try lia; try discriminate); eauto.
Qed.

Lemma createRequest_ok uid user newId now b d s :
  createRequestValidation b = true →
  approvedProfessorId user = None →
  sessions d !! body_sessionId b = Some s →
  startDate s ≤ now ≤ endDate s →
  0 < availableSlots s →
  (∀ k r, requests d !! k = Some r →
          ¬ (studentId r = uid ∧ sessionId r = body_sessionId b)) →
  requests d !! newId = None →
  ∃ d', createRequest uid user newId now b d = (OK, d').
Proof.
  intros Hv Ha Hs Hwin Hav Hdup Hn.
  unfold createRequest. rewrite Hv. simpl. rewrite Ha. simpl. rewrite Hs.
  pose proof (updateStatus_instance now d (body_sessionId b) s) as Hi.
  pose proof (updateStatus_frame now d (body_sessionId b) s) as (_ & Hr & _).
  destruct (updateStatus now d (body_sessionId b) s) as [s1 d1].
  simpl in Hi, Hr. subst s1. simpl. rewrite Hr.
  rewrite decide_False
    by (intros Hne; apply Hne; by apply newStatus_active).
  rewrite decide_False by lia.
  rewrite bool_decide_eq_false_2.
  - rewrite Hn. eauto.
  - intros (k & r & Hk & Hboth)%map_Exists_lookup. by apply (Hdup k r).
Qed.

(** X19. [getActiveSessions] answers with the sessions that are active
    with a free slot after the status refresh, each once, in the order of
    their [endDate].  No session it lists has ended, and a listed session
    that has started takes, at that same time, the request of any student
    who has no approved professor and no request for it yet. *)
Theorem getActiveSessions_listing (now : Z) (d : db) :
  StronglySorted by_endDate (getActiveSessions now d).1
  ∧ NoDup (getActiveSessions now d).1
  ∧ (∀ i s, (i, s) ∈ (getActiveSessions now d).1 ↔
            sessions (getActiveSessions now d).2 !! i = Some s
            ∧ sessionStatus s = active ∧ availableSlots s > 0)
  ∧ (∀ i s, (i, s) ∈ (getActiveSessions now d).1 → now ≤ endDate s)
  ∧ (∀ i s uid user newId request_topic,
       (i, s) ∈ (getActiveSessions now d).1 →
       startDate s ≤ now →
       createRequestValidation (mkRequestBody i request_topic) = true →
       approvedProfessorId user = None →
       (∀ k r, requests d !! k = Some r →
               ¬ (studentId r = uid ∧ sessionId r = i)) →
       requests d !! newId = None →
       ∃ d', createRequest uid user newId now (mkRequestBody i request_topic)
               (getActiveSessions now d).2 = (OK, d')).
Proof.
  unfold getActiveSessions. cbn [fst snd].
  set (d' := updateAllStatuses now d).
  set (rows := map_to_list (filter open_for_requests (sessions d'))).
  pose proof by_endDate_total as Htot.
  pose proof by_endDate_transitive as Htrans.
  assert (Hin : ∀ i s, (i, s) ∈ merge_sort by_endDate rows ↔
                       sessions d' !! i = Some s
                       ∧ sessionStatus s = active ∧ availableSlots s > 0).
  { intros i s. rewrite merge_sort_Permutation. subst rows.
    rewrite elem_of_map_to_list, map_lookup_filter_Some. done. }
  assert (Hend : ∀ i s, (i, s) ∈ merge_sort by_endDate rows →
                        now ≤ endDate s).
  { intros i s (Hs & Hact & _)%Hin. subst d'.
    rewrite updateAllStatuses_lookup in Hs.
    destruct (sessions d !! i) as [s0|]; [|done]. simpl in Hs.
    injection Hs as <-.
    pose proof (bulk_updates_same_row now s0) as ((_ & _ & _ & -> & _) & _).
    by apply bulk_updates_active. }
  split; [apply StronglySorted_merge_sort; done|].
  split.
  { rewrite merge_sort_Permutation. subst rows. apply NoDup_map_to_list. }
  split; [done|]. split; [done|].
  intros i s uid user newId request_topic Hrow Hstart Hv Ha Hdup Hn.
  pose proof (Hend i s Hrow) as Hle.
  apply Hin in Hrow as (Hs & Hact & Hav).
  apply (createRequest_ok uid user newId now _ d' s); try done; simpl;
    try lia.
Qed.

Lemma getActiveSessions_listing_witness :
  ∃ d', createRequest 3 (mkUser "Dan" student None 5 0) 22 5
          (mkRequestBody 10 topic)
          (getActiveSessions 5
             (run CASCADE empty_db (take 4 overbooking_trace))).2
        = (OK, d').
Proof.
  apply (proj2 (proj2 (proj2 (proj2
           (getActiveSessions_listing 5
              (run CASCADE empty_db (take 4 overbooking_trace))))))
           10%nat (mkSession 1 "Spring" 0 10 active 1 1) 3%nat
           (mkUser "Dan" student None 5 0) 22%nat topic).
  - apply (proj2 (proj1 (proj2 (proj2
             (getActiveSessions_listing 5
                (run CASCADE empty_db (take 4 overbooking_trace)))))
             10%nat (mkSession 1 "Spring" 0 10 active 1 1))).
    split; [reflexivity|]. split; [reflexivity|]. simpl. lia.
  - simpl. lia.
  - reflexivity.
  - reflexivity.
  - intros k r Hr. vm_compute in Hr. discriminate Hr.
  - reflexivity.
Defined.

Lemma size_filter_insert {A} (P : nat * A → Prop) `{!∀ x, Decision (P x)}
    (m : gmap nat A) i x :
  m !! i = None →
  size (filter P (<[i:=x]> m))
  = ((if decide (P (i, x)) then 1 else 0) + size (filter P m))%nat.
Proof.
  intros Hi. rewrite map_filter_insert. case_decide.
  - rewrite map_size_insert_None; [done|].
    apply map_lookup_filter_None. by left.
  - by rewrite delete_id.
Qed.

Lemma count_by_status (own : CoordinationRequest → Prop)
    `{!∀ r, Decision (own r)} (m : gmap nat CoordinationRequest) :
  (size (filter (λ ir : nat * CoordinationRequest,
                   own ir.2 ∧ status ir.2 = pending) m)
   + size (filter (λ ir : nat * CoordinationRequest,
                     own ir.2 ∧ status ir.2 = approved) m)
   + size (filter (λ ir : nat * CoordinationRequest,
                     own ir.2 ∧ status ir.2 = rejected) m)
   + size (filter (λ ir : nat * CoordinationRequest,
                     own ir.2 ∧ status ir.2 = completed) m)
   + size (filter (λ ir : nat * CoordinationRequest,
                     own ir.2 ∧ status ir.2 = document_pending) m)
   = size (filter (λ ir : nat * CoordinationRequest, own ir.2) m))%nat.
Proof.
  induction m as [|i r m Hi IH] using map_ind.
  - by rewrite !map_filter_empty, !map_size_empty.
  - rewrite !size_filter_insert by done. simpl.
    destruct (decide (own r)) as [Ho|Ho].
    + destruct (status r) eqn:Hst;
        repeat case_decide; try lia; exfalso; intuition discriminate.
    + repeat case_decide; try lia; exfalso; intuition discriminate.
Qed.

(** X20. The total of [getRequestStats] is the sum of the four counters
    it answers with, and those leave out the requests that wait on a
    document: the total falls short of the number of the caller's
    requests by exactly the number of them in [document_pending]. *)
Theorem getRequestStats_total (uid : nat) (user : User) (d : db) :
  (stats_total (getRequestStats uid user d)
   + count_status uid user document_pending d
   = size (filter (λ ir : nat * CoordinationRequest,
                     own_request uid user ir.2) (requests d)))%nat
  ∧ stats_total (getRequestStats uid user d)
    = (stats_pending (getRequestStats uid user d)
       + stats_approved (getRequestStats uid user d)
       + stats_rejected (getRequestStats uid user d)
       + stats_completed (getRequestStats uid user d))%nat.
Proof.
  split; [|done]. unfold getRequestStats, count_status. simpl.
  apply (count_by_status (own_request uid user)).
Qed.
